(** * KawaiiGPT analysis scripts: fact extraction, categorisation, reports

    A shallow embedding of the analysis scripts ([extract_knowledge.py],
    [sensai_feature_analysis.py], [enhanced_sensai_analysis.py],
    [analyze_kawaiigpt.py], [serena_analysis.py], [analyze_repo.py],
    [run_serena_onboarding.py]) together with the properties their
    specification states about them.

    Python values are modelled as follows.
    - [str] is [string], the UTF-8 encoding of the text: the substring
      and prefix tests compare bytes, [len] and slices count characters.
      [str.lower] is a parameter of the categorizer and of the analyses
      built on it; [lower] below is its restriction to ASCII text, for the
      scripts that compare lower-cased text with ASCII keywords.
    - A dict with a fixed set of keys is a record; a key that the code
      reads with [.get(key, default)] or that only some code paths set is
      an [option] field.  A dict used as a lookup table is a [gmap]; a
      dict that is iterated is an association list in insertion order.
    - A raised exception is the [Raise] case of [outcome]; the calls into
      the interpreter and its libraries that can raise ([open], [read],
      [ast.parse], [ast.unparse], [json.load], [json.dump]) and the
      regular expression engine are parameters.
    - What the scripts print to the console is left out. *)

From Stdlib Require Import ZArith List String Ascii Bool Lia Sorted Permutation.
From stdpp Require Import base option list strings gmap pretty.

Import ListNotations.
Local Open Scope nat_scope.
Set Warnings "-register-all".

(** ** Python string primitives *)

Module PyStr.

(** [c.lower()] on one ASCII character; a byte outside [A-Z] is left
    alone. *)
Definition lower_char (c : ascii) : ascii :=
  let n := nat_of_ascii c in
  if (65 <=? n) && (n <=? 90) then ascii_of_nat (n + 32) else c.

(** [s.lower()] on ASCII text. *)
Fixpoint lower (s : string) : string :=
  match s with
  | EmptyString => EmptyString
  | String c t => String (lower_char c) (lower t)
  end.

(** [s.startswith(p)]. *)
Fixpoint startswith (p s : string) : bool :=
  match p, s with
  | EmptyString, _ => true
  | String _ _, EmptyString => false
  | String a p', String b s' => if ascii_dec a b then startswith p' s' else false
  end.

(** [sub in s]. *)
Fixpoint contains (sub s : string) : bool :=
  startswith sub s ||
  match s with
  | EmptyString => false
  | String _ t => contains sub t
  end.

(** [any(keyword in s for keyword in keywords)]. *)
Definition any_in (keywords : list string) (s : string) : bool :=
  existsb (fun keyword => contains keyword s) keywords.

(** In UTF-8 a byte of the form [10xxxxxx] continues a character and
    every other byte starts one. *)
Definition is_continuation (c : ascii) : bool :=
  let n := nat_of_ascii c in (128 <=? n) && (n <? 192).

(** [len(s)]: the number of characters. *)
Fixpoint len (s : string) : nat :=
  match s with
  | EmptyString => 0
  | String c t => (if is_continuation c then 0 else 1) + len t
  end.

(** [os.path.basename] on POSIX: what follows the last slash. *)
Fixpoint basename (p : string) : string :=
  match p with
  | EmptyString => EmptyString
  | String c t =>
      if contains "/" t then basename t
      else if ascii_dec c "/" then t else p
  end.

(** Truth value of a string: non-empty. *)
Definition truthy (s : string) : bool :=
  match s with EmptyString => false | String _ _ => true end.

Definition is_upper (c : ascii) : bool :=
  let n := nat_of_ascii c in (65 <=? n) && (n <=? 90).

Definition is_lower (c : ascii) : bool :=
  let n := nat_of_ascii c in (97 <=? n) && (n <=? 122).

Definition upper_char (c : ascii) : ascii :=
  if is_lower c then ascii_of_nat (nat_of_ascii c - 32) else c.

(** [s.replace(a, b)] for one-character [a] and [b]. *)
Fixpoint replace (a b : ascii) (s : string) : string :=
  match s with
  | EmptyString => EmptyString
  | String c t => String (if ascii_dec c a then b else c) (replace a b t)
  end.

(** [s.title()]: a letter is upper-cased when the character before it
    is not a letter, and lower-cased otherwise. *)
Fixpoint title_from (previous_is_cased : bool) (s : string) : string :=
  match s with
  | EmptyString => EmptyString
  | String c t =>
      if is_upper c || is_lower c then
        String (if previous_is_cased then lower_char c else upper_char c)
          (title_from true t)
      else String c (title_from false t)
  end.

Definition title (s : string) : string := title_from false s.

(** The newline character. *)
Definition nl : string := String (ascii_of_nat 10) EmptyString.

(** [sorted(items, key=key, reverse=True)]: descending, and stable
    (items with equal keys stay in their order). *)
Fixpoint insert_desc {A : Type} (key : A -> Z) (x : A) (l : list A) : list A :=
  match l with
  | [] => [x]
  | y :: l' => if (key y <=? key x)%Z then x :: y :: l' else y :: insert_desc key x l'
  end.

Definition sorted_desc {A : Type} (key : A -> Z) (l : list A) : list A :=
  fold_right (insert_desc key) [] l.

End PyStr.

(** ** [sensai_feature_analysis.py]: the keyword categorizer *)

Module Categorizer.
Import PyStr.

(** The keys of [self.categories], in the order [__init__] lists them. *)
Definition category_labels : list string :=
  [ "installation"; "configuration"; "user_interface"; "api_integration";
    "data_processing"; "authentication"; "utilities"; "error_handling";
    "platform_detection"; "dependency_management"; "voice_processing";
    "translation"; "cryptography" ].

Section Lower.
(** [str.lower]. *)
Variable lower : string -> string.

(** [FeatureCategorizer.categorize_feature].  [feature_type] and
    [context] are accepted and ignored, as in the source. *)
Definition categorize_feature (feature_name feature_type : string)
    (context : list (string * string)) : string :=
  let name_lower := lower feature_name in
  if any_in ["install"; "setup"; "package"; "dependencies"] name_lower then
    "installation"
  else if any_in ["detect"; "os"; "platform"; "termux"; "linux"; "android"] name_lower then
    "platform_detection"
  else if any_in ["config"; "setting"; "mode"; "option"] name_lower then
    "configuration"
  else if any_in ["ui"; "interface"; "display"; "show"; "print"; "prompt"] name_lower then
    "user_interface"
  else if any_in ["api"; "request"; "http"; "client"; "fetch"] name_lower then
    "api_integration"
  else if any_in ["voice"; "tts"; "audio"; "sound"; "alsa"; "speak"] name_lower then
    "voice_processing"
  else if any_in ["translate"; "translation"; "language"] name_lower then
    "translation"
  else if any_in ["crypto"; "encrypt"; "decrypt"; "hash"; "secure"] name_lower then
    "cryptography"
  else if any_in ["process"; "parse"; "transform"; "convert"; "generate"] name_lower then
    "data_processing"
  else if any_in ["error"; "exception"; "try"; "catch"; "handle"] name_lower then
    "error_handling"
  else if any_in ["util"; "helper"; "common"; "shared"; "base"] name_lower then
    "utilities"
  else
    "utilities".

End Lower.

(** [str.lower] leaves text written in the letters [a] to [z] where it
    is: such a keyword that occurs in a string occurs in the lower-cased
    string too. *)
Definition keeps_lower_case (lower : string -> string) : Prop :=
  forall keyword s,
    forallb is_lower (list_ascii_of_string keyword) = true ->
    contains keyword s = true ->
    contains keyword (lower s) = true.

(** The specification's reading: an ordered list of substring rules,
    the first rule with a keyword occurring in the lower-cased name
    decides, and ["utilities"] is the default. *)
Definition rules : list (list string * string) :=
  [ (["install"; "setup"; "package"; "dependencies"], "installation");
    (["detect"; "os"; "platform"; "termux"; "linux"; "android"], "platform_detection");
    (["config"; "setting"; "mode"; "option"], "configuration");
    (["ui"; "interface"; "display"; "show"; "print"; "prompt"], "user_interface");
    (["api"; "request"; "http"; "client"; "fetch"], "api_integration");
    (["voice"; "tts"; "audio"; "sound"; "alsa"; "speak"], "voice_processing");
    (["translate"; "translation"; "language"], "translation");
    (["crypto"; "encrypt"; "decrypt"; "hash"; "secure"], "cryptography");
    (["process"; "parse"; "transform"; "convert"; "generate"], "data_processing");
    (["error"; "exception"; "try"; "catch"; "handle"], "error_handling");
    (["util"; "helper"; "common"; "shared"; "base"], "utilities") ].

Definition rule_matches (name_lower : string) (r : list string * string) : bool :=
  any_in (fst r) name_lower.

Definition first_matching_rule (name_lower : string) : string :=
  match List.find (rule_matches name_lower) rules with
  | Some r => snd r
  | None => "utilities"
  end.

End Categorizer.

(** ** The Python syntax tree, as [ast.parse] builds it *)

Module Ast.

Inductive expr_context := Load | Store | Del.

Record alias := { alias_name : string; asname : option string }.

(** The node classes the scripts dispatch on carry the fields the
    scripts read; every node carries its child nodes, field by field in
    the order of the class's [_fields].  [Other] stands for each
    remaining class ([Pass], [If], [keyword], [BinOp], ...). *)
Inductive node : Type :=
| PyModule (body type_ignores : list node)
| FunctionDef (name : string) (args : arguments)
    (body decorator_list : list node) (returns : option node) (lineno : Z)
| AsyncFunctionDef (name : string) (args : arguments)
    (body decorator_list : list node) (returns : option node) (lineno : Z)
| Lambda (args : arguments) (body : node)
| ClassDef (name : string) (bases keywords body decorator_list : list node)
    (lineno : Z)
| Import (names : list alias)
| ImportFrom (module : option string) (names : list alias) (level : Z)
| Assign (targets : list node) (value : node) (lineno : Z)
| Call (func : node) (args keywords : list node)
| Name (id : string) (ctx : expr_context)
| Attribute (value : node) (attr : string) (ctx : expr_context)
| Other (cls : string) (children : list node)
with arguments : Type :=
| Arguments (posonlyargs args : list arg) (vararg : option arg)
    (kwonlyargs : list arg) (kw_defaults : list (option node))
    (kwarg : option arg) (defaults : list node)
with arg : Type :=
| Arg (arg_name : string) (annotation : option node).

(** [node.args.args] of a function definition, and [arg.arg]. *)
Definition arguments_args (a : arguments) : list arg :=
  match a with Arguments _ args _ _ _ _ _ => args end.

Definition arg_arg (a : arg) : string :=
  match a with Arg n _ => n end.

(** Any object [ast.walk] can yield. *)
Inductive ast : Type :=
| ANode (n : node)
| AArguments (a : arguments)
| AArg (a : arg)
| AAlias (a : alias)
| ACtx (c : expr_context).

Definition opt_list {A : Type} (o : option A) : list A :=
  match o with Some a => [a] | None => [] end.

(** [ast.iter_child_nodes]: the fields that hold a node, and the nodes
    inside the fields that hold a list, in field order. *)
Definition iter_child_nodes (a : ast) : list ast :=
  match a with
  | ANode (PyModule body type_ignores) =>
      map ANode body ++ map ANode type_ignores
  | ANode (FunctionDef _ args body decorator_list returns _)
  | ANode (AsyncFunctionDef _ args body decorator_list returns _) =>
      AArguments args :: map ANode body ++ map ANode decorator_list
        ++ map ANode (opt_list returns)
  | ANode (Lambda args body) => [AArguments args; ANode body]
  | ANode (ClassDef _ bases keywords body decorator_list _) =>
      map ANode bases ++ map ANode keywords ++ map ANode body
        ++ map ANode decorator_list
  | ANode (Import names) => map AAlias names
  | ANode (ImportFrom _ names _) => map AAlias names
  | ANode (Assign targets value _) => map ANode targets ++ [ANode value]
  | ANode (Call func args keywords) =>
      ANode func :: map ANode args ++ map ANode keywords
  | ANode (Name _ ctx) => [ACtx ctx]
  | ANode (Attribute value _ ctx) => [ANode value; ACtx ctx]
  | ANode (Other _ children) => map ANode children
  | AArguments (Arguments posonlyargs args vararg kwonlyargs kw_defaults kwarg defaults) =>
      map AArg posonlyargs ++ map AArg args ++ map AArg (opt_list vararg)
        ++ map AArg kwonlyargs ++ map ANode (flat_map opt_list kw_defaults)
        ++ map AArg (opt_list kwarg) ++ map ANode defaults
  | AArg (Arg _ annotation) => map ANode (opt_list annotation)
  | AAlias _ => []
  | ACtx _ => []
  end.

(** Number of nodes of a subtree. *)
Fixpoint node_size (n : node) : nat :=
  let sizes := fun l => list_sum (map node_size l) in
  let osize := fun o => match o with Some m => node_size m | None => 0 end in
  match n with
  | PyModule body type_ignores => S (sizes body + sizes type_ignores)
  | FunctionDef _ args body decorator_list returns _
  | AsyncFunctionDef _ args body decorator_list returns _ =>
      S (arguments_size args + sizes body + sizes decorator_list + osize returns)
  | Lambda args body => S (arguments_size args + node_size body)
  | ClassDef _ bases keywords body decorator_list _ =>
      S (sizes bases + sizes keywords + sizes body + sizes decorator_list)
  | Import names => S (length names)
  | ImportFrom _ names _ => S (length names)
  | Assign targets value _ => S (sizes targets + node_size value)
  | Call func args keywords => S (node_size func + sizes args + sizes keywords)
  | Name _ _ => 2
  | Attribute value _ _ => S (S (node_size value))
  | Other _ children => S (sizes children)
  end
with arguments_size (a : arguments) : nat :=
  let asizes := fun l => list_sum (map arg_size l) in
  let oasize := fun o => match o with Some m => arg_size m | None => 0 end in
  match a with
  | Arguments posonlyargs args vararg kwonlyargs kw_defaults kwarg defaults =>
      S (asizes posonlyargs + asizes args + oasize vararg + asizes kwonlyargs
         + list_sum (map (fun o => match o with Some m => node_size m | None => 0 end)
                       kw_defaults)
         + oasize kwarg + list_sum (map node_size defaults))
  end
with arg_size (a : arg) : nat :=
  match a with
  | Arg _ annotation =>
      S (match annotation with Some m => node_size m | None => 0 end)
  end.

Definition size (a : ast) : nat :=
  match a with
  | ANode n => node_size n
  | AArguments x => arguments_size x
  | AArg x => arg_size x
  | AAlias _ => 1
  | ACtx _ => 1
  end.

(** [ast.walk]: a queue that starts with the root; the front node is
    taken off, its children are put at the back, and it is yielded.
    Every step yields one node, so the size of the queued subtrees is
    fuel enough. *)
Fixpoint walk_queue (fuel : nat) (todo : list ast) : list ast :=
  match fuel, todo with
  | S fuel', a :: rest => a :: walk_queue fuel' (rest ++ iter_child_nodes a)
  | _, _ => []
  end.

Definition walk (tree : node) : list ast :=
  walk_queue (node_size tree) [ANode tree].

(** The nodes of class [FunctionDef] of a tree, the functions defined
    with [def] ([async def] and [lambda] are classes of their own),
    counted by descending into every field: top-level and nested alike. *)
Fixpoint count_function_defs (n : node) : nat :=
  let counts := fun l => list_sum (map count_function_defs l) in
  let ocount := fun o => match o with Some m => count_function_defs m | None => 0 end in
  match n with
  | PyModule body type_ignores => counts body + counts type_ignores
  | FunctionDef _ args body decorator_list returns _ =>
      S (count_in_arguments args + counts body + counts decorator_list + ocount returns)
  | AsyncFunctionDef _ args body decorator_list returns _ =>
      count_in_arguments args + counts body + counts decorator_list + ocount returns
  | Lambda args body => count_in_arguments args + count_function_defs body
  | ClassDef _ bases keywords body decorator_list _ =>
      counts bases + counts keywords + counts body + counts decorator_list
  | Import _ => 0
  | ImportFrom _ _ _ => 0
  | Assign targets value _ => counts targets + count_function_defs value
  | Call func args keywords =>
      count_function_defs func + counts args + counts keywords
  | Name _ _ => 0
  | Attribute value _ _ => count_function_defs value
  | Other _ children => counts children
  end
with count_in_arguments (a : arguments) : nat :=
  let acounts := fun l => list_sum (map count_in_arg l) in
  let oacount := fun o => match o with Some m => count_in_arg m | None => 0 end in
  match a with
  | Arguments posonlyargs args vararg kwonlyargs kw_defaults kwarg defaults =>
      acounts posonlyargs + acounts args + oacount vararg + acounts kwonlyargs
      + list_sum (map (fun o => match o with
                                | Some m => count_function_defs m
                                | None => 0
                                end) kw_defaults)
      + oacount kwarg + list_sum (map count_function_defs defaults)
  end
with count_in_arg (a : arg) : nat :=
  match a with
  | Arg _ annotation =>
      match annotation with Some m => count_function_defs m | None => 0 end
  end.

Definition is_function_def (a : ast) : bool :=
  match a with
  | ANode (FunctionDef _ _ _ _ _ _) => true
  | _ => false
  end.

Definition count_function_defs_in (a : ast) : nat :=
  match a with
  | ANode n => count_function_defs n
  | AArguments x => count_in_arguments x
  | AArg x => count_in_arg x
  | AAlias _ => 0
  | ACtx _ => 0
  end.

Definition is_name (n : node) : bool :=
  match n with Name _ _ => true | _ => false end.

(** The identifiers of the bases that are plain names. *)
Definition simple_base_ids (bases : list node) : list string :=
  flat_map (fun base => match base with Name id _ => [id] | _ => [] end) bases.

End Ast.

(** ** Exceptions *)

Inductive exn : Type :=
| SyntaxError (msg : string)
| OtherException (msg : string).

(** [str(e)]. *)
Definition exn_str (e : exn) : string :=
  match e with SyntaxError m => m | OtherException m => m end.

Inductive outcome (A : Type) : Type :=
| Ok (a : A)
| Raise (e : exn).
Arguments Ok {A} a.
Arguments Raise {A} e.

(** ** Facts *)

Module Facts.

(** A triple as the extractor builds it.  [context] and [graph] are
    the keys that [extract_quads_from_relationships] reads with
    [.get]: [None] is a dict without the key. *)
Record triple := {
  subject : string;
  predicate : string;
  object : string;
  context : option string;
  graph : option string
}.

Record quad := {
  q_subject : string;
  q_predicate : string;
  q_object : string;
  q_graph : string;
  q_context : string
}.

End Facts.

(** ** [extract_knowledge.py]: the analysis script it writes and runs *)

Module ExtractKnowledge.
Import PyStr Ast Facts.

Definition mk_triple (s p o c g : string) : triple :=
  {| subject := s; predicate := p; object := o;
     context := Some c; graph := Some g |}.

(** [extract_triples_from_ast(node, file_path)]; the optional third
    argument [context] is neither passed nor read. *)
Definition extract_triples_from_ast (node : ast) (file_path : string) : list triple :=
  match node with
  | ANode (FunctionDef name args _ _ _ _) =>
      mk_triple name "is_a" "function" file_path "code_structure"
      :: map (fun a => mk_triple name "has_parameter" (arg_arg a) file_path "code_structure")
           (arguments_args args)
  | ANode (ClassDef name bases _ _ _ _) =>
      mk_triple name "is_a" "class" file_path "code_structure"
      :: flat_map (fun base =>
                     match base with
                     | Name id _ =>
                         [mk_triple name "inherits_from" id file_path "inheritance"]
                     | _ => []
                     end) bases
  | ANode (Import names) =>
      map (fun al => mk_triple (basename file_path) "imports" (alias_name al)
                       file_path "dependencies") names
  | ANode (ImportFrom module names _) =>
      match module with
      | Some m =>
          if negb (String.eqb m "") then
            map (fun al => mk_triple (basename file_path) "imports_from"
                             (m +:+ "." +:+ alias_name al) file_path "dependencies")
              names
          else []
      | None => []
      end
  | ANode (Assign targets _ _) =>
      flat_map (fun target =>
                  match target with
                  | Name id _ =>
                      [mk_triple id "assigned_in" (basename file_path)
                         file_path "code_structure"]
                  | _ => []
                  end) targets
  | ANode (Call func _ _) =>
      match func with
      | Name id _ => [mk_triple (basename file_path) "calls" id file_path "call_graph"]
      | _ => []
      end
  | _ => []
  end.

(** [extract_quads_from_relationships(triples, file_path)]. *)
Definition extract_quads_from_relationships (triples : list triple)
    (file_path : string) : list quad :=
  map (fun t =>
         {| q_subject := subject t;
            q_predicate := predicate t;
            q_object := object t;
            q_graph := default "default" (graph t);
            q_context := default file_path (context t) |})
    triples.

(** The dict [analyze_file] returns; [error] is set on the [except]
    path only. *)
Record file_result := {
  file : string;
  error : option string;
  triples : list triple;
  quads : list quad
}.

Record file_entry := {
  fe_file : string;
  triple_count : nat;
  quad_count : nat
}.

Record results := {
  r_triples : list triple;
  r_quads : list quad;
  files_analyzed : list file_entry
}.

Section Analysis.
(** [open(file_path, ...)] followed by [f.read()]; [ast.parse];
    [py_file.exists()]. *)
Variable read_text : string -> outcome string.
Variable ast_parse : string -> outcome node.
Variable path_exists : string -> bool.

Definition error_result (file_path : string) (e : exn) : file_result :=
  {| file := file_path; error := Some (exn_str e); triples := []; quads := [] |}.

(** [analyze_file(file_path)]: the [try] body, and the [except
    Exception] handler for whatever it raises. *)
Definition analyze_file (file_path : string) : file_result :=
  match read_text file_path with
  | Raise e => error_result file_path e
  | Ok content =>
      match ast_parse content with
      | Raise e => error_result file_path e
      | Ok tree =>
          let all_triples :=
            fold_left (fun all_triples node =>
                         all_triples ++ extract_triples_from_ast node file_path)
              (walk tree) [] in
          let quads := extract_quads_from_relationships all_triples file_path in
          {| file := file_path; error := None;
             triples := all_triples; quads := quads |}
      end
  end.

(** One turn of the loop over [python_files]. *)
Definition analyze_step (res : results) (py_file : string) : results :=
  if path_exists py_file then
    let file_results := analyze_file py_file in
    {| r_triples := r_triples res ++ triples file_results;
       r_quads := r_quads res ++ quads file_results;
       files_analyzed :=
         files_analyzed res ++
         [{| fe_file := py_file;
             triple_count := length (triples file_results);
             quad_count := length (quads file_results) |}] |}
  else res.

(** The [files_analyzed] entry of a file that is analysed. *)
Definition file_entry_of (py_file : string) : file_entry :=
  {| fe_file := py_file;
     triple_count := length (triples (analyze_file py_file));
     quad_count := length (quads (analyze_file py_file)) |}.

Definition analyze_all (python_files : list string) : results :=
  fold_left analyze_step python_files
    {| r_triples := []; r_quads := []; files_analyzed := [] |}.

End Analysis.

(** Selectors on the emitted facts. *)
Definition has_predicate_object (p o : string) (t : triple) : bool :=
  String.eqb (predicate t) p && String.eqb (object t) o.

Definition has_predicate (p : string) (t : triple) : bool :=
  String.eqb (predicate t) p.

(** The analysis of [file_path] raises [e]: reading does, or parsing
    what was read does. *)
Definition analysis_raises (read_text : string -> outcome string)
    (ast_parse : string -> outcome node) (file_path : string) (e : exn) : Prop :=
  read_text file_path = Raise e \/
  exists content, read_text file_path = Ok content /\ ast_parse content = Raise e.

(** What [ast.parse] builds for a file whose whole content is
    [def foo(a, b): pass]. *)
Definition foo_source : string := "def foo(a, b): pass".

Definition foo_tree : node :=
  PyModule
    [FunctionDef "foo"
       (Arguments [] [Arg "a" None; Arg "b" None] None [] [] None [])
       [Other "Pass" []] [] None 1]
    [].

(** A fact whose graph label is the empty string, as
    [extract_triples_from_symbol] of [analyze_kawaiigpt.py] builds them
    when it is called without a context. *)
Definition unlabelled_fact : triple :=
  {| subject := "main"; predicate := "is_a"; object := "function";
     context := Some "kawai.py"; graph := Some "" |}.

(** A file system with one unreadable file, for the examples. *)
Definition read_text_example (file_path : string) : outcome string :=
  if String.eqb file_path "missing.py"
  then Raise (OtherException "[Errno 2] No such file or directory: 'missing.py'")
  else Ok foo_source.

(** A file with a nested function and a method, and its tree:
    [def outer(x):] with [def inner(y): pass] inside, then [class K(B,
    m.C):] with [def run(self): pass] inside. *)
Definition nested_source : string :=
  "def outer(x):" +:+ nl +:+ "    def inner(y): pass" +:+ nl
  +:+ "class K(B, m.C):" +:+ nl +:+ "    def run(self): pass" +:+ nl.

Definition nested_tree : node :=
  PyModule
    [FunctionDef "outer" (Arguments [] [Arg "x" None] None [] [] None [])
       [FunctionDef "inner" (Arguments [] [Arg "y" None] None [] [] None [])
          [Other "Pass" []] [] None 2]
       [] None 1;
     ClassDef "K" [Name "B" Load; Attribute (Name "m" Load) "C" Load] []
       [FunctionDef "run" (Arguments [] [Arg "self" None] None [] [] None [])
          [Other "Pass" []] [] None 4]
       [] 3]
    [].

End ExtractKnowledge.

(** ** [analyze_kawaiigpt.py]: quads from reference records *)

Module AnalyzeKawaiigpt.
Import PyStr Facts.

(** A reference record as the agent's tool returns it; every key is
    read with [.get]. *)
Record location := { loc_file : option string }.

Record reference := {
  ref_name : option string;
  ref_location : option location;
  ref_kind : option string
}.

(** One turn of the loop of [extract_quads_from_references]. *)
Definition add_reference (source_symbol file_path context : string)
    (quads : list quad) (ref : reference) : list quad :=
  let ref_symbol := default "" (ref_name ref) in
  let ref_file :=
    default "" (loc_file (default {| loc_file := None |} (ref_location ref))) in
  if truthy ref_symbol && truthy source_symbol then
    (quads ++
     [{| q_subject := source_symbol; q_predicate := "references";
         q_object := ref_symbol;
         q_graph := file_path +:+ "->" +:+ ref_file;
         q_context := context |}]) ++
     [{| q_subject := ref_symbol; q_predicate := "referenced_by";
         q_object := source_symbol;
         q_graph := ref_file +:+ "->" +:+ file_path;
         q_context := context |}]
  else quads.

(** [extract_quads_from_references(references, source_symbol,
    file_path, context)]. *)
Definition extract_quads_from_references (references : list reference)
    (source_symbol file_path context : string) : list quad :=
  fold_left (add_reference source_symbol file_path context) references [].

(** The quad that mirrors a [references] quad. *)
Definition mirrored (source_symbol file_path ref_symbol ref_file context : string)
  : quad * quad :=
  ({| q_subject := source_symbol; q_predicate := "references";
      q_object := ref_symbol;
      q_graph := file_path +:+ "->" +:+ ref_file; q_context := context |},
   {| q_subject := ref_symbol; q_predicate := "referenced_by";
      q_object := source_symbol;
      q_graph := ref_file +:+ "->" +:+ file_path; q_context := context |}).

(** What one reference record adds. *)
Definition quads_of_reference (source_symbol file_path context : string)
    (ref : reference) : list quad :=
  let ref_symbol := default "" (ref_name ref) in
  let ref_file :=
    default "" (loc_file (default {| loc_file := None |} (ref_location ref))) in
  if truthy ref_symbol && truthy source_symbol
  then [fst (mirrored source_symbol file_path ref_symbol ref_file context);
        snd (mirrored source_symbol file_path ref_symbol ref_file context)]
  else [].

End AnalyzeKawaiigpt.

(** ** [sensai_feature_analysis.py]: per-file analysis and report *)

Module Sensai.
Import PyStr Ast Categorizer.

Inductive detail : Type :=
| NoDetail
| FunctionDetail (args decorators : list string)
| ClassDetail (bases methods : list string).

(** The dicts of the [functions], [classes] and [variables] lists and
    of the category buckets.  The report reads [name] and [type] with
    [.get] and tests for [line], so the three are optional keys. *)
Record feature := {
  f_name : option string;
  f_type : option string;
  f_line : option Z;
  f_detail : detail
}.

Record import_info := {
  i_module : string;
  i_alias : option string;
  i_type : string
}.

(** The [features] dict of one file; [note] is set by the regex
    fallback only. *)
Record features := {
  file : string;
  functions : list feature;
  classes : list feature;
  imports : list import_info;
  variables : list feature;
  features_by_category : gmap string (list feature);
  note : option string
}.

(** [d[k].append(x)] on a [defaultdict(list)]. *)
Definition bucket_append (k : string) (x : feature)
    (d : gmap string (list feature)) : gmap string (list feature) :=
  <[k := default [] (d !! k) ++ [x]]> d.

(** [d[k].append(x)] on [self.categories], a plain dict: a [KeyError]
    when [k] is not a key. *)
Definition categories_append (k : string) (x : feature)
    (d : gmap string (list feature)) : outcome (gmap string (list feature)) :=
  match d !! k with
  | Some l => Ok (<[k := l ++ [x]]> d)
  | None => Raise (OtherException ("'" +:+ k +:+ "'"))
  end.

(** A list comprehension whose element expression can raise. *)
Fixpoint map_outcome {A B : Type} (f : A -> outcome B) (l : list A)
  : outcome (list B) :=
  match l with
  | [] => Ok []
  | a :: l' =>
      match f a with
      | Raise e => Raise e
      | Ok b =>
          match map_outcome f l' with
          | Raise e => Raise e
          | Ok bs => Ok (b :: bs)
          end
      end
  end.

(** A [for] loop whose body can raise: the state the loop had reached,
    and the exception when one ended it. *)
Fixpoint loop {S A : Type} (step : S -> A -> outcome S) (l : list A) (s : S)
  : S * option exn :=
  match l with
  | [] => (s, None)
  | a :: l' =>
      match step s a with
      | Ok s' => loop step l' s'
      | Raise e => (s, Some e)
      end
  end.

(** [self.categories] as [__init__] leaves it. *)
Definition initial_categories : gmap string (list feature) :=
  list_to_map (map (fun c => (c, [])) category_labels).

(** A match object, by its groups: [group m 1] is [match.group(1)],
    [None] when the group took no part in the match. *)
Definition re_match := list (option string).

Definition group (m : re_match) (i : nat) : option string :=
  match i with
  | 0 => None
  | S j => mjoin (m !! j)
  end.

(** [a or b] on two groups. *)
Definition group_or (a b : option string) : option string :=
  match a with
  | Some s => if truthy s then Some s else b
  | None => b
  end.

Definition import_pattern : string := "^(?:from\s+(\S+)\s+)?import\s+(\S+)".
Definition func_pattern : string := "def\s+(\w+)\s*\(".
Definition class_pattern : string := "class\s+(\w+)".

Definition regex_note : string := "Regex-based analysis (file may be obfuscated)".

(** [{'name': name, 'type': type}], the entry of the regex scans. *)
Definition named_entry (name type : string) : feature :=
  {| f_name := Some name; f_type := Some type; f_line := None; f_detail := NoDetail |}.

(** [{'module': module, 'type': 'import'}]. *)
Definition regex_import_entry (m : re_match) : import_info :=
  {| i_module := default "" (group_or (group m 1) (group m 2));
     i_alias := None; i_type := "import" |}.

(** [var_info] of an assignment target. *)
Definition var_info (id : string) (lineno : Z) : feature :=
  {| f_name := Some id; f_line := Some lineno; f_type := Some "variable";
     f_detail := NoDetail |}.

Section Analysis.
(** [str.lower]; [open] and [read]; [ast.parse]; [ast.unparse], which
    raises [RecursionError] on a deep expression;
    [re.finditer(pattern, content, flags)] with [true] for
    [re.MULTILINE]. *)
Variable lower : string -> string.
Variable read_text : string -> outcome string.
Variable ast_parse : string -> outcome node.
Variable unparse : node -> outcome string.
Variable finditer : string -> bool -> string -> list re_match.

(** [{'file': file_path.name}]. *)
Definition file_context (file_path : string) : list (string * string) :=
  [("file", basename file_path)].

Definition empty_features (file_path : string) (note : option string) : features :=
  {| file := file_path; functions := []; classes := []; imports := [];
     variables := []; features_by_category := ∅; note := note |}.

(** [features['functions'].append(x)] and its siblings. *)
Definition add_function (x : feature) (f : features) : features :=
  {| file := file f; functions := functions f ++ [x]; classes := classes f;
     imports := imports f; variables := variables f;
     features_by_category := features_by_category f; note := note f |}.

Definition add_class (x : feature) (f : features) : features :=
  {| file := file f; functions := functions f; classes := classes f ++ [x];
     imports := imports f; variables := variables f;
     features_by_category := features_by_category f; note := note f |}.

Definition add_import (x : import_info) (f : features) : features :=
  {| file := file f; functions := functions f; classes := classes f;
     imports := imports f ++ [x]; variables := variables f;
     features_by_category := features_by_category f; note := note f |}.

Definition add_variable (x : feature) (f : features) : features :=
  {| file := file f; functions := functions f; classes := classes f;
     imports := imports f; variables := variables f ++ [x];
     features_by_category := features_by_category f; note := note f |}.

Definition add_to_category (k : string) (x : feature) (f : features) : features :=
  {| file := file f; functions := functions f; classes := classes f;
     imports := imports f; variables := variables f;
     features_by_category := bucket_append k x (features_by_category f);
     note := note f |}.

(** The three loops of [_analyze_with_regex].  Group 2 of
    [import_pattern] and group 1 of the other two patterns take part
    in every match. *)
Definition regex_import (feats : features) (m : re_match) : features :=
  add_import (regex_import_entry m) feats.

Definition regex_function (file_path : string) (feats : features) (m : re_match)
  : features :=
  let func_name := default "" (group m 1) in
  let entry := named_entry func_name "function" in
  let feats := add_function entry feats in
  let category :=
    categorize_feature lower func_name "function" (file_context file_path) in
  add_to_category category entry feats.

Definition regex_class (file_path : string) (feats : features) (m : re_match)
  : features :=
  let class_name := default "" (group m 1) in
  let entry := named_entry class_name "class" in
  let feats := add_class entry feats in
  let category :=
    categorize_feature lower class_name "class" (file_context file_path) in
  add_to_category category entry feats.

(** [_analyze_with_regex(file_path, content)]. *)
Definition _analyze_with_regex (file_path content : string) : features :=
  let feats := empty_features file_path (Some regex_note) in
  let feats := fold_left regex_import (finditer import_pattern true content) feats in
  let feats :=
    fold_left (regex_function file_path) (finditer func_pattern false content) feats in
  fold_left (regex_class file_path) (finditer class_pattern false content) feats.

(** First walk of [analyze_python_file]: the imports. *)
Definition import_step (feats : features) (node : ast) : features :=
  match node with
  | ANode (Import names) =>
      fold_left (fun feats al =>
                   add_import {| i_module := alias_name al; i_alias := asname al;
                                 i_type := "import" |} feats)
        names feats
  | ANode (ImportFrom module names _) =>
      let module := default "" module in
      fold_left (fun feats al =>
                   add_import
                     {| i_module := if truthy module
                                    then module +:+ "." +:+ alias_name al
                                    else alias_name al;
                        i_alias := asname al; i_type := "import_from" |} feats)
        names feats
  | _ => feats
  end.

(** One target of an assignment, in the second walk. *)
Definition assign_target (file_path : string) (lineno : Z) (feats : features)
    (target : node) : features :=
  match target with
  | Name id _ =>
      let var_info := var_info id lineno in
      let feats := add_variable var_info feats in
      if 3 <? len id then
        let category :=
          categorize_feature lower id "variable" (file_context file_path) in
        if negb (String.eqb category "utilities")
        then add_to_category category var_info feats
        else feats
      else feats
  | _ => feats
  end.

(** The body of the second walk: functions, classes and assignments.
    The state is the [features] dict and [self.categories]; the
    decorators and the bases are unparsed before anything is appended,
    and the append to [self.categories] comes last. *)
Definition feature_step (file_path : string)
    (st : features * gmap string (list feature)) (node : ast)
  : outcome (features * gmap string (list feature)) :=
  let '(feats, categories) := st in
  match node with
  | ANode (FunctionDef name args _ decorator_list _ lineno) =>
      match map_outcome unparse decorator_list with
      | Raise e => Raise e
      | Ok decorators =>
          let func_info :=
            {| f_name := Some name; f_line := Some lineno;
               f_detail := FunctionDetail (map arg_arg (arguments_args args))
                             decorators;
               f_type := Some "function" |} in
          let feats := add_function func_info feats in
          let category :=
            categorize_feature lower name "function" (file_context file_path) in
          let feats :=
            add_to_category category
              {| f_name := Some name; f_type := Some "function";
                 f_line := Some lineno; f_detail := NoDetail |} feats in
          match categories_append category func_info categories with
          | Raise e => Raise e
          | Ok categories => Ok (feats, categories)
          end
      end
  | ANode (ClassDef name bases _ body _ lineno) =>
      match map_outcome unparse bases with
      | Raise e => Raise e
      | Ok base_texts =>
          let class_info :=
            {| f_name := Some name; f_line := Some lineno;
               f_detail := ClassDetail base_texts
                             (flat_map (fun n => match n with
                                                 | FunctionDef m _ _ _ _ _ => [m]
                                                 | _ => []
                                                 end) body);
               f_type := Some "class" |} in
          let feats := add_class class_info feats in
          let category :=
            categorize_feature lower name "class" (file_context file_path) in
          let feats :=
            add_to_category category
              {| f_name := Some name; f_type := Some "class";
                 f_line := Some lineno; f_detail := NoDetail |} feats in
          match categories_append category class_info categories with
          | Raise e => Raise e
          | Ok categories => Ok (feats, categories)
          end
      end
  | ANode (Assign targets _ lineno) =>
      Ok (fold_left (assign_target file_path lineno) targets feats, categories)
  | _ => Ok st
  end.

(** [analyze_python_file(file_path)], from [self.categories] to the
    returned dict and the updated [self.categories].  A failing
    [open] or [read] reaches the outer handler before [content] is
    bound; a [SyntaxError] from [ast.parse] reaches the inner handler
    and any other exception the outer one, both with [content].  An
    exception raised during the second walk reaches the outer handler
    too: the [features] dict built so far is dropped for the regex
    result, and [self.categories] keeps what the walk had appended. *)
Definition analyze_python_file (categories : gmap string (list feature))
    (file_path : string) : features * gmap string (list feature) :=
  match read_text file_path with
  | Raise _ => (_analyze_with_regex file_path "", categories)
  | Ok content =>
      match ast_parse content with
      | Raise (SyntaxError _) => (_analyze_with_regex file_path content, categories)
      | Raise (OtherException _) => (_analyze_with_regex file_path content, categories)
      | Ok tree =>
          let feats :=
            fold_left import_step (walk tree) (empty_features file_path None) in
          match loop (feature_step file_path) (walk tree) (feats, categories) with
          | (st, None) => st
          | ((_, categories), Some _) =>
              (_analyze_with_regex file_path content, categories)
          end
      end
  end.

End Analysis.

(** The call returned; the value it returned. *)
Definition returns {A : Type} (x : outcome A) : bool :=
  match x with Ok _ => true | Raise _ => false end.

Definition returned (x : outcome string) : string :=
  match x with Ok s => s | Raise _ => EmptyString end.

(** The second walk has nothing to raise at a node: [ast.unparse]
    returns for each decorator of a function and each base of a class. *)
Definition unparse_returns (unparse : node -> outcome string) (node : ast) : bool :=
  match node with
  | ANode (FunctionDef _ _ _ decorator_list _ _) =>
      forallb (fun d => returns (unparse d)) decorator_list
  | ANode (ClassDef _ bases _ _ _ _) => forallb (fun b => returns (unparse b)) bases
  | _ => true
  end.

(** [self.categories] has a key for every label of the categorizer. *)
Definition has_every_label (categories : gmap string (list feature)) : bool :=
  forallb (fun c => match categories !! c with Some _ => true | None => false end)
    category_labels.

(** The second walk of [analyze_python_file] over a parsed file, from
    the imports of the first walk and from [self.categories]. *)
Definition second_walk (lower : string -> string) (unparse : node -> outcome string)
    (file_path : string) (categories : gmap string (list feature)) (tree : node)
  : (features * gmap string (list feature)) * option exn :=
  loop (feature_step lower unparse file_path) (walk tree)
    (fold_left import_step (walk tree) (empty_features file_path None), categories).

(** The specification's reading of an assignment statement: a plain
    assignment, an annotated one ([x: int = 1], class [AnnAssign]) or an
    augmented one ([x += 1], class [AugAssign]); the targets it assigns
    to. *)
Definition statement_targets (statement : ast) : list node :=
  match statement with
  | ANode (Assign targets _ _) => targets
  | ANode (Other cls (target :: _)) =>
      if String.eqb cls "AnnAssign" || String.eqb cls "AugAssign"
      then [target] else []
  | _ => []
  end.

(** The variables that the assignments of a node bind: one for each
    target that is a bare name. *)
Definition target_variables (lineno : Z) (target : node) : list feature :=
  match target with
  | Name id _ =>
      [{| f_name := Some id; f_type := Some "variable"; f_line := Some lineno;
          f_detail := NoDetail |}]
  | _ => []
  end.

Definition assigned_variables (node : ast) : list feature :=
  match node with
  | ANode (Assign targets _ lineno) => flat_map (target_variables lineno) targets
  | _ => []
  end.

Definition is_variable (x : feature) : bool :=
  match f_type x with
  | Some t => String.eqb t "variable"
  | None => false
  end.

(** The variable [x] belongs in the bucket of category [c]: its name
    is longer than 3 characters, and [c] is its category and is not
    ["utilities"]. *)
Definition categorized_in (lower : string -> string) (file_path c : string)
    (x : feature) : bool :=
  match f_name x with
  | Some id =>
      (3 <? len id)
      && String.eqb (categorize_feature lower id "variable" (file_context file_path)) c
      && negb (String.eqb c "utilities")
  | None => false
  end.

(** The bucket of a category: empty when the category has no key. *)
Definition bucket (feats : features) (c : string) : list feature :=
  default [] (features_by_category feats !! c).

(** A file that does not parse, and what [re.finditer] finds in it
    for the three patterns. *)
Definition obfuscated_source : string :=
  "import os" +:+ nl +:+ "def install_all(:" +:+ nl.

Definition finditer_example (pattern : string) (multiline : bool) (content : string)
  : list re_match :=
  if String.eqb pattern import_pattern then [[None; Some "os"]]
  else if String.eqb pattern func_pattern then [[Some "install_all"]]
  else [].

(** A file that does not parse and in which none of the three
    patterns matches. *)
Definition unbalanced_source : string := "((".

Definition finditer_nothing (pattern : string) (multiline : bool) (content : string)
  : list re_match := [].

(** A file of one annotated assignment, [install_path: str = '/opt'],
    and its tree. *)
Definition annotated_source : string := "install_path: str = '/opt'".

Definition annotated_tree : node :=
  PyModule
    [ Other "AnnAssign"
        [Name "install_path" Store; Name "str" Load; Other "Constant" []] ]
    [].

(** [ast.unparse] as far as the examples need it: the text of a name
    and of an attribute of a name; on any other expression it raises,
    as [ast.unparse] does on an expression that is nested too deep for
    the interpreter's recursion limit. *)
Definition unparse_example (expression : node) : outcome string :=
  match expression with
  | Name id _ => Ok id
  | Attribute (Name id _) attr _ => Ok (id +:+ "." +:+ attr)
  | _ => Raise (OtherException "maximum recursion depth exceeded")
  end.

(** A file with a function and, after it, a class whose base is such
    an expression: [def f(): pass] and [class Deep(a + ... + a): pass],
    the long sum cut to one addition here. *)
Definition deep_base_source : string :=
  "def f(): pass" +:+ nl +:+ "class Deep(a + a): pass" +:+ nl.

Definition deep_base_tree : node :=
  PyModule
    [ FunctionDef "f" (Arguments [] [] None [] [] None []) [Other "Pass" []] [] None 1;
      ClassDef "Deep" [Other "BinOp" [Name "a" Load; Other "Add" []; Name "a" Load]]
        [] [Other "Pass" []] [] 2 ]
    [].

(** A file of three assignments, [x = 1], [api_client = x] and
    [counter = 0], and its tree. *)
Definition assignments_source : string :=
  "x = 1" +:+ nl +:+ "api_client = x" +:+ nl +:+ "counter = 0" +:+ nl.

Definition assignments_tree : node :=
  PyModule
    [ Assign [Name "x" Store] (Other "Constant" []) 1;
      Assign [Name "api_client" Store] (Name "x" Load) 2;
      Assign [Name "counter" Store] (Other "Constant" []) 3 ]
    [].

(** A group of eleven functions, [f1] to [f11]. *)
Definition eleven_features : list feature :=
  map (fun i => named_entry ("f" +:+ pretty i) "function") (seq 1 11).

(** *** The category part of [write_to_serena] *)

(** One turn of [for feature in features[:10]]. *)
Definition add_feature_line (memory_content : string) (feature : feature) : string :=
  let memory_content :=
    memory_content +:+ "- **" +:+ default "unknown" (f_name feature) +:+ "** ("
      +:+ default "unknown" (f_type feature) +:+ ")" in
  let memory_content :=
    match f_line feature with
    | Some line => memory_content +:+ " - Line " +:+ pretty line
    | None => memory_content
    end in
  memory_content +:+ nl.

Definition section_header (category : string) (count : Z) : string :=
  "### " +:+ title (replace "_" " " category) +:+ " (" +:+ pretty count
    +:+ " features)" +:+ nl +:+ nl.

Definition elision_line (k : nat) : string :=
  "- ... and " +:+ pretty k +:+ " more" +:+ nl.

(** One turn of the loop over the categories, sorted by count. *)
Definition add_category_section (categories : gmap string (list feature))
    (memory_content : string) (item : string * Z) : string :=
  let '(category, count) := item in
  if (0 <? count)%Z then
    let memory_content := memory_content +:+ section_header category count in
    let memory_content :=
      match categories !! category with
      | Some features =>
          let memory_content :=
            fold_left add_feature_line (take 10 features) memory_content in
          if 10 <? length features
          then memory_content +:+ elision_line (length features - 10)
          else memory_content
      | None => memory_content
      end in
    memory_content +:+ nl
  else memory_content.

(** The loop: [results['summary']['features_by_category']] is iterated
    in sorted order, [results['categories']] is looked up. *)
Definition category_details (features_by_category : list (string * Z))
    (categories : gmap string (list feature)) (memory_content : string) : string :=
  fold_left (add_category_section categories)
    (sorted_desc snd features_by_category) memory_content.

(** The specification's reading of one section, line by line: the
    first [n] items, then the elision line when items were left out. *)
Definition feature_line (feature : feature) : string :=
  "- **" +:+ default "unknown" (f_name feature) +:+ "** ("
    +:+ default "unknown" (f_type feature) +:+ ")"
    +:+ match f_line feature with
        | Some line => " - Line " +:+ pretty line
        | None => ""
        end
    +:+ nl.

End Sensai.

(** ** [enhanced_sensai_analysis.py]: the category summaries of the report *)

Module Enhanced.
Import PyStr.

(** An item of a category: a dict, of which the report reads the keys
    [name], [module] and [dependency], or a plain string. *)
Inductive item : Type :=
| ItemDict (d : gmap string string)
| ItemStr (s : string).

Definition item_name (it : item) : string :=
  match it with
  | ItemDict d =>
      default (default (default "unknown" (d !! "dependency")) (d !! "module"))
        (d !! "name")
  | ItemStr s => s
  end.

Definition add_item_line (memory_content : string) (it : item) : string :=
  memory_content +:+ "- " +:+ item_name it +:+ nl.

Definition section_header (category : string) (n : nat) : string :=
  "### " +:+ title (replace "_" " " category) +:+ " (" +:+ pretty n
    +:+ " items)" +:+ nl +:+ nl.

Definition elision_line (k : nat) : string :=
  "- ... and " +:+ pretty k +:+ " more" +:+ nl.

(** One turn of the loop over [feature_categories]. *)
Definition add_category_section (memory_content : string)
    (entry : string * list item) : string :=
  let '(category, items) := entry in
  let memory_content := memory_content +:+ section_header category (length items) in
  let memory_content := fold_left add_item_line (take 5 items) memory_content in
  let memory_content :=
    if 5 <? length items
    then memory_content +:+ elision_line (length items - 5)
    else memory_content in
  memory_content +:+ nl.

Definition category_summaries (feature_categories : list (string * list item))
    (memory_content : string) : string :=
  fold_left add_category_section
    (sorted_desc (fun x => Z.of_nat (length (snd x))) feature_categories)
    memory_content.

Definition item_line (it : item) : string := "- " +:+ item_name it +:+ nl.

End Enhanced.

(** ** The report sections, as the specification words them *)

Module ReportSpec.
Import PyStr.

(** The lines of a section that shows the first [n] of [items]: a
    line for each shown item, and the elision line exactly when the
    group has more than [n] items. *)
Definition section_lines {A : Type} (n : nat) (line : A -> string)
    (elision : nat -> string) (items : list A) : list string :=
  map line (take n items)
  ++ (if n <? length items then [elision (length items - n)] else []).

(** Concatenation of a list of strings. *)
Definition join_lines (lines : list string) : string :=
  fold_right String.append "" lines.

End ReportSpec.

(** ** Sums over a syntax tree *)

Module AstSum.
Import Ast.

Section TreeSum.
Variable weight : ast -> nat.

(** The sum of [weight] over the nodes of a subtree, by descent into
    every field. *)
Fixpoint node_sum (n : node) : nat :=
  let sums := fun l => list_sum (map node_sum l) in
  let osum := fun o => match o with Some m => node_sum m | None => 0 end in
  let aliases := fun l => list_sum (map (fun al => weight (AAlias al)) l) in
  weight (ANode n) +
  match n with
  | PyModule body type_ignores => sums body + sums type_ignores
  | FunctionDef _ args body decorator_list returns _
  | AsyncFunctionDef _ args body decorator_list returns _ =>
      arguments_sum args + sums body + sums decorator_list + osum returns
  | Lambda args body => arguments_sum args + node_sum body
  | ClassDef _ bases keywords body decorator_list _ =>
      sums bases + sums keywords + sums body + sums decorator_list
  | Import names => aliases names
  | ImportFrom _ names _ => aliases names
  | Assign targets value _ => sums targets + node_sum value
  | Call func args keywords => node_sum func + sums args + sums keywords
  | Name _ ctx => weight (ACtx ctx)
  | Attribute value _ ctx => node_sum value + weight (ACtx ctx)
  | Other _ children => sums children
  end
with arguments_sum (a : arguments) : nat :=
  let asums := fun l => list_sum (map arg_sum l) in
  let oasum := fun o => match o with Some m => arg_sum m | None => 0 end in
  weight (AArguments a) +
  match a with
  | Arguments posonlyargs args vararg kwonlyargs kw_defaults kwarg defaults =>
      asums posonlyargs + asums args + oasum vararg + asums kwonlyargs
      + list_sum (map (fun o => match o with Some m => node_sum m | None => 0 end)
                    kw_defaults)
      + oasum kwarg + list_sum (map node_sum defaults)
  end
with arg_sum (a : arg) : nat :=
  weight (AArg a) +
  match a with
  | Arg _ annotation => match annotation with Some m => node_sum m | None => 0 end
  end.

Definition tree_sum (a : ast) : nat :=
  match a with
  | ANode n => node_sum n
  | AArguments x => arguments_sum x
  | AArg x => arg_sum x
  | AAlias _ => weight a
  | ACtx _ => weight a
  end.

End TreeSum.

(** The number of nodes of a tree that satisfy [p]. *)
Definition count_nodes (p : ast -> bool) (tree : node) : nat :=
  node_sum (fun a => if p a then 1 else 0) tree.

Definition is_class_def (a : ast) : bool :=
  match a with ANode (ClassDef _ _ _ _ _ _) => true | _ => false end.

Definition is_async_function_def (a : ast) : bool :=
  match a with ANode (AsyncFunctionDef _ _ _ _ _ _) => true | _ => false end.

(** The specification's reading of a function definition: a [def]
    statement or an [async def] statement, top-level or nested. *)
Definition is_function_definition (a : ast) : bool :=
  match a with
  | ANode (FunctionDef _ _ _ _ _ _) => true
  | ANode (AsyncFunctionDef _ _ _ _ _ _) => true
  | _ => false
  end.

Definition count_function_definitions (tree : node) : nat :=
  count_nodes is_function_definition tree.

(** A file whose one function is a coroutine,
    [async def fetch(): pass], and its tree. *)
Definition async_source : string := "async def fetch(): pass".

Definition async_tree : node :=
  PyModule
    [AsyncFunctionDef "fetch" (Arguments [] [] None [] [] None [])
       [Other "Pass" []] [] None 1]
    [].

(** A call whose callee is a bare name. *)
Definition is_name_call (a : ast) : bool :=
  match a with ANode (Call (Name _ _) _ _) => true | _ => false end.

(** The positional-or-keyword parameters of a function definition:
    [len(node.args.args)], and nothing for any other node. *)
Definition plain_parameters (a : ast) : nat :=
  match a with
  | ANode (FunctionDef _ args _ _ _ _) => length (arguments_args args)
  | _ => 0
  end.

End AstSum.

(** ** The vocabulary of [extract_knowledge.py] *)

Module Vocabulary.

(** The predicates [extract_triples_from_ast] uses, each with the graph
    label it files its facts under. *)
Definition vocabulary : list (string * string) :=
  [ ("is_a", "code_structure"); ("has_parameter", "code_structure");
    ("inherits_from", "inheritance"); ("imports", "dependencies");
    ("imports_from", "dependencies"); ("assigned_in", "code_structure");
    ("calls", "call_graph") ].

Definition in_vocabulary (p g : string) : bool :=
  existsb (fun pg => String.eqb (fst pg) p && String.eqb (snd pg) g) vocabulary.

(** A file with a call of a bare name, a method call, and a function
    with parameters of every kind:
    [def f(a, /, b, *c, d, **e): pass], [f(1)], [obj.run()]. *)
Definition calls_tree : Ast.node :=
  Ast.PyModule
    [ Ast.FunctionDef "f"
        (Ast.Arguments [Ast.Arg "a" None] [Ast.Arg "b" None] (Some (Ast.Arg "c" None))
           [Ast.Arg "d" None] [None] (Some (Ast.Arg "e" None)) [])
        [Ast.Other "Pass" []] [] None 1;
      Ast.Other "Expr"
        [Ast.Call (Ast.Name "f" Ast.Load) [Ast.Other "Constant" []] []];
      Ast.Other "Expr"
        [Ast.Call (Ast.Attribute (Ast.Name "obj" Ast.Load) "run" Ast.Load) [] []] ]
    [].

End Vocabulary.

(** ** [analyze_kawaiigpt.py]: triples from a symbol record *)

Module SymbolTriples.
Import PyStr Facts.

(** A symbol record as the agent's tool returns it; every key is read
    with [.get].  [location] is a dict of integer entries ([line],
    [column], ...). *)
Record symbol_info := {
  sym_name : option string;
  sym_kind : option string;
  sym_location : option (gmap string Z)
}.

(** Truth value of a dict: non-empty. *)
Definition dict_truthy (d : gmap string Z) : bool := negb (bool_decide (d = ∅)).

(** [extract_triples_from_symbol(symbol_info, file_path, context)]. *)
Definition extract_triples_from_symbol (symbol_info : symbol_info)
    (file_path context : string) : list triple :=
  let triples := [] in
  let symbol_name := default "" (sym_name symbol_info) in
  let symbol_kind := default "" (sym_kind symbol_info) in
  let symbol_location := default ∅ (sym_location symbol_info) in
  let triples :=
    if truthy symbol_name && truthy symbol_kind then
      triples ++ [{| subject := symbol_name; predicate := "is_a";
                     object := symbol_kind; context := Some file_path;
                     graph := Some context |}]
    else triples in
  let triples :=
    if truthy symbol_name && truthy file_path then
      triples ++ [{| subject := symbol_name; predicate := "defined_in";
                     object := file_path; context := Some context;
                     graph := Some "code_structure" |}]
    else triples in
  let triples :=
    if truthy symbol_name && dict_truthy symbol_location then
      let line := default 0%Z (symbol_location !! "line") in
      if negb (line =? 0)%Z then
        triples ++ [{| subject := symbol_name; predicate := "located_at";
                       object := file_path +:+ ":" +:+ pretty line;
                       context := Some context; graph := Some "code_structure" |}]
      else triples
    else triples in
  triples.

(** [symbol_info.get('location', {}).get('line', 0)]. *)
Definition symbol_line (symbol_info : symbol_info) : Z :=
  default 0%Z (default ∅ (sym_location symbol_info) !! "line").

(** A function symbol at line 12. *)
Definition main_symbol : symbol_info :=
  {| sym_name := Some "main"; sym_kind := Some "function";
     sym_location := Some {[ "line" := 12%Z ]} |}.

End SymbolTriples.

(** ** [sensai_feature_analysis.py]: what a node adds to the analysis *)

Module SensaiNodes.
Import PyStr Ast Categorizer Sensai.

Section Infos.
Variable unparse : node -> outcome string.

(** [func_info] and [class_info], as the second walk builds them when
    [ast.unparse] returns. *)
Definition func_info (name : string) (args : arguments) (decorator_list : list node)
    (lineno : Z) : feature :=
  {| f_name := Some name; f_line := Some lineno;
     f_detail := FunctionDetail (map arg_arg (arguments_args args))
                   (map (fun d => returned (unparse d)) decorator_list);
     f_type := Some "function" |}.

Definition class_info (name : string) (bases body : list node) (lineno : Z) : feature :=
  {| f_name := Some name; f_line := Some lineno;
     f_detail := ClassDetail (map (fun b => returned (unparse b)) bases)
                   (flat_map (fun n => match n with
                                       | FunctionDef m _ _ _ _ _ => [m]
                                       | _ => []
                                       end) body);
     f_type := Some "class" |}.

Definition node_functions (node : ast) : list feature :=
  match node with
  | ANode (FunctionDef name args _ decorator_list _ lineno) =>
      [func_info name args decorator_list lineno]
  | _ => []
  end.

Definition node_classes (node : ast) : list feature :=
  match node with
  | ANode (ClassDef name bases _ body _ lineno) => [class_info name bases body lineno]
  | _ => []
  end.

(** What a node adds to [self.categories]. *)
Definition node_infos (node : ast) : list feature :=
  node_functions node ++ node_classes node.

End Infos.

(** The entry [{'name', 'type', 'line'}] a function or class gets in
    its bucket of [features_by_category]. *)
Definition node_entries (node : ast) : list feature :=
  match node with
  | ANode (FunctionDef name _ _ _ _ lineno) =>
      [{| f_name := Some name; f_type := Some "function"; f_line := Some lineno;
          f_detail := NoDetail |}]
  | ANode (ClassDef name _ _ _ _ lineno) =>
      [{| f_name := Some name; f_type := Some "class"; f_line := Some lineno;
          f_detail := NoDetail |}]
  | _ => []
  end.

(** The category of an entry: that of its name. *)
Definition feature_category (lower : string -> string) (file_path : string)
    (x : feature) : string :=
  categorize_feature lower (default "" (f_name x)) (default "" (f_type x))
    (file_context file_path).

Definition in_category (lower : string -> string) (file_path c : string)
    (x : feature) : bool :=
  String.eqb (feature_category lower file_path x) c.

(** The file was read and parsed. *)
Definition parsed (read_text : string -> outcome string)
    (ast_parse : string -> outcome node) (file_path : string) : bool :=
  match read_text file_path with
  | Ok content => match ast_parse content with Ok _ => true | Raise _ => false end
  | Raise _ => false
  end.

End SensaiNodes.

(** ** More Python primitives *)

Module PyMore.
Import PyStr.

(** [c.isspace()] on the ASCII range. *)
Definition is_space (c : ascii) : bool :=
  let n := nat_of_ascii c in
  ((9 <=? n) && (n <=? 13)) || ((28 <=? n) && (n <=? 32)).

(** [s.lstrip()], [s.rstrip()] and [s.strip()]. *)
Fixpoint lstrip (s : string) : string :=
  match s with
  | EmptyString => EmptyString
  | String c t => if is_space c then lstrip t else s
  end.

Fixpoint rstrip (s : string) : string :=
  match s with
  | EmptyString => EmptyString
  | String c t =>
      match rstrip t with
      | EmptyString => if is_space c then EmptyString else String c EmptyString
      | r => String c r
      end
  end.

Definition strip (s : string) : string := rstrip (lstrip s).

(** [s.split(sep)[0]] for a non-empty [sep]: what comes before the
    first occurrence of [sep], and all of [s] when there is none. *)
Fixpoint before (sep s : string) : string :=
  if startswith sep s then EmptyString
  else match s with
       | EmptyString => EmptyString
       | String c t => String c (before sep t)
       end.

(** [s[:n]]: the first [n] characters, each with the bytes that
    continue it. *)
Fixpoint str_take (n : nat) (s : string) : string :=
  match s with
  | EmptyString => EmptyString
  | String c t =>
      if is_continuation c then String c (str_take n t)
      else match n with
           | 0 => EmptyString
           | S n' => String c (str_take n' t)
           end
  end.

(** A [defaultdict(list)], as the list of its items in insertion
    order: [d[k].append(v)] and [d[k].extend(vs)]. *)
Fixpoint dd_extend {V : Type} (k : string) (vs : list V)
    (d : list (string * list V)) : list (string * list V) :=
  match d with
  | [] => [(k, vs)]
  | (k', l) :: d' =>
      if String.eqb k' k then (k', l ++ vs) :: d' else (k', l) :: dd_extend k vs d'
  end.

Definition dd_append {V : Type} (k : string) (v : V)
    (d : list (string * list V)) : list (string * list V) :=
  dd_extend k [v] d.

(** [d.get(k)] on such a dict. *)
Fixpoint dd_get {V : Type} (k : string) (d : list (string * list V))
  : option (list V) :=
  match d with
  | [] => None
  | (k', l) :: d' => if String.eqb k' k then Some l else dd_get k d'
  end.

(** All the items filed under [k]. *)
Definition dd_items {V : Type} (k : string) (d : list (string * list V)) : list V :=
  flat_map (fun kv => if String.eqb (fst kv) k then snd kv else []) d.

(** The number of items of the dict, over all keys. *)
Definition dd_total {V : Type} (d : list (string * list V)) : nat :=
  list_sum (map (fun kv => length (snd kv)) d).

(** Grouping, as the loops over a [defaultdict(list)] do it:
    [for x in l: d[key(x)].append(x)]. *)
Definition group_by {A : Type} (key : A -> string) (l : list A)
  : list (string * list A) :=
  fold_left (fun d x => dd_append (key x) x d) l [].

(** The keys of a list in the order of their first appearance. *)
Fixpoint first_appearances (keys : list string) : list string :=
  match keys with
  | [] => []
  | k :: keys' =>
      k :: List.filter (fun k' => negb (String.eqb k k')) (first_appearances keys')
  end.

End PyMore.

(** ** [sensai_feature_analysis.py]: the repository analysis *)

Module Repository.
Import PyStr PyMore Ast Categorizer Sensai.

(** The requirement lines of [requirements.txt]: the lines that are not
    blank and do not start with [#], stripped. *)
Definition requirement_lines (lines : list string) : list string :=
  flat_map (fun line =>
              if truthy (strip line) && negb (startswith "#" line)
              then [strip line] else [])
    lines.

(** The category of a requirement, by the name before its version
    specifier. *)
Definition dependency_category (req : string) : string :=
  let req_lower := before "<=" (before ">=" (before "==" (lower req))) in
  if contains "tts" req_lower || contains "audio" req_lower
     || contains "sound" req_lower then "voice_processing"
  else if contains "translate" req_lower then "translation"
  else if contains "crypto" req_lower || contains "crypt" req_lower then "cryptography"
  else if contains "request" req_lower || contains "http" req_lower
  then "api_integration"
  else if contains "toolkit" req_lower || contains "ui" req_lower then "user_interface"
  else "utilities".

(** The loop over the requirements. *)
Definition categorize_dependencies (requirements : list string)
  : list (string * list string) :=
  fold_left (fun dep_categories req =>
               dd_append (dependency_category req) req dep_categories)
    requirements [].

Record summary := {
  total_functions : nat;
  total_classes : nat;
  total_imports : nat;
  summary_by_category : list (string * Z)
}.

Record repo_results := {
  repository : string;
  files : list features;
  results_summary : summary;
  results_categories : gmap string (list feature);
  dependencies : option (list string);
  dependencies_by_category : option (list (string * list string))
}.

Section Repo.
Variable lower : string -> string.
Variable read_text : string -> outcome string.
Variable ast_parse : string -> outcome node.
Variable unparse : node -> outcome string.
Variable finditer : string -> bool -> string -> list re_match.
(** [path.exists()], and [open(req_file)] read line by line. *)
Variable path_exists : string -> bool.
Variable read_lines : string -> outcome (list string).

(** [repo_path / name]. *)
Definition join_path (repo_path name : string) : string :=
  repo_path +:+ "/" +:+ name.

(** One turn of the loop over [python_files]: the state is
    [self.categories] and the results so far. *)
Definition analyze_one (st : gmap string (list feature) * repo_results)
    (py_file : string) : gmap string (list feature) * repo_results :=
  let '(categories, results) := st in
  if path_exists py_file then
    let '(file_features, categories) :=
      analyze_python_file lower read_text ast_parse unparse finditer categories
        py_file in
    let s := results_summary results in
    (categories,
     {| repository := repository results;
        files := files results ++ [file_features];
        results_summary :=
          {| total_functions := total_functions s + length (functions file_features);
             total_classes := total_classes s + length (classes file_features);
             total_imports := total_imports s + length (imports file_features);
             summary_by_category := summary_by_category s |};
        results_categories := results_categories results;
        dependencies := dependencies results;
        dependencies_by_category := dependencies_by_category results |})
  else st.

(** One turn of the loop over [self.categories.items()]; the dict has
    the keys of [__init__], in that order. *)
Definition aggregate_one (categories : gmap string (list feature))
    (results : repo_results) (category : string) : repo_results :=
  match categories !! category with
  | Some (item :: items) =>
      let s := results_summary results in
      {| repository := repository results;
         files := files results;
         results_summary :=
           {| total_functions := total_functions s;
              total_classes := total_classes s;
              total_imports := total_imports s;
              summary_by_category :=
                summary_by_category s
                ++ [(category, Z.of_nat (length (item :: items)))] |};
         results_categories := <[category := item :: items]> (results_categories results);
         dependencies := dependencies results;
         dependencies_by_category := dependencies_by_category results |}
  | _ => results
  end.

Definition empty_results (repo_path : string) : repo_results :=
  {| repository := repo_path; files := [];
     results_summary := {| total_functions := 0; total_classes := 0;
                           total_imports := 0; summary_by_category := [] |};
     results_categories := ∅; dependencies := None;
     dependencies_by_category := None |}.

(** [analyze_repository(repo_path)], from [self.categories] to the
    results and the updated [self.categories]; it raises when
    [requirements.txt] exists and cannot be read. *)
Definition analyze_repository (categories : gmap string (list feature))
    (repo_path : string) : outcome (repo_results * gmap string (list feature)) :=
  let python_files := [join_path repo_path "install.py"; join_path repo_path "kawai.py"] in
  let '(categories, results) :=
    fold_left analyze_one python_files (categories, empty_results repo_path) in
  let results := fold_left (aggregate_one categories) category_labels results in
  let req_file := join_path repo_path "requirements.txt" in
  if path_exists req_file then
    match read_lines req_file with
    | Raise e => Raise e
    | Ok lines =>
        let requirements := requirement_lines lines in
        Ok ({| repository := repository results; files := files results;
               results_summary := results_summary results;
               results_categories := results_categories results;
               dependencies := Some requirements;
               dependencies_by_category := Some (categorize_dependencies requirements) |},
            categories)
    end
  else Ok (results, categories).

End Repo.

(** The totals of the summary are the sums over the files. *)
Definition totals_agree (results : repo_results) : Prop :=
  total_functions (results_summary results)
  = list_sum (map (fun f => length (functions f)) (files results))
  /\ total_classes (results_summary results)
     = list_sum (map (fun f => length (classes f)) (files results))
  /\ total_imports (results_summary results)
     = list_sum (map (fun f => length (imports f)) (files results)).

(** The non-empty list of a category, if it has one. *)
Definition nonempty_items (categories : gmap string (list feature)) (c : string)
  : option (list feature) :=
  match categories !! c with
  | Some (item :: items) => Some (item :: items)
  | _ => None
  end.

(** A requirement name has none of the characters of a version
    specifier. *)
Definition no_specifier (name : string) : bool :=
  forallb (fun c => negb (Ascii.eqb c "=" || Ascii.eqb c "<" || Ascii.eqb c ">"))
    (list_ascii_of_string name).

End Repository.

(** ** [enhanced_sensai_analysis.py]: inference and aggregation *)

Module EnhancedAnalysis.
Import PyStr PyMore Enhanced.

(** An import record of the earlier analysis, as loaded from its JSON
    file; [module] is the one key that is read. *)
Record import_record := { imp_module : option string }.

(** [{'type': 'import', 'module': ..., 'inference': ...}]. *)
Record inferred_feature := { inf_module : string; inf_inference : string }.

Definition bind {A B : Type} (x : outcome A) (f : A -> outcome B) : outcome B :=
  match x with
  | Ok a => f a
  | Raise e => Raise e
  end.

(** [imp['module']]: a [KeyError] when the key is missing. *)
Definition module_of (imp : import_record) : outcome string :=
  match imp_module imp with
  | Some m => Ok m
  | None => Raise (OtherException "'module'")
  end.

(** One of the three tests of the loop body, with its [append]. *)
Definition infer_if (test : bool) (category inference : string) (imp : import_record)
    (inferred : list (string * list inferred_feature))
  : outcome (list (string * list inferred_feature)) :=
  if test then
    bind (module_of imp) (fun m =>
      Ok (dd_append category {| inf_module := m; inf_inference := inference |}
            inferred))
  else Ok inferred.

Definition crypto_inference : string := "Code obfuscation/encryption capabilities".
Definition system_inference : string := "System-level operations".
Definition types_inference : string :=
  "Dynamic type manipulation (common in obfuscated code)".

Definition is_crypto (module : string) : bool :=
  any_in ["crypto"; "hashlib"; "base64"; "zlib"] module.
Definition is_system (module : string) : bool :=
  any_in ["os"; "sys"; "warnings"] module.
Definition is_types (module : string) : bool :=
  contains "types" module || contains "builtins" module.

(** The body of the loop of [infer_features_from_imports]. *)
Definition infer_one (inferred : list (string * list inferred_feature))
    (imp : import_record) : outcome (list (string * list inferred_feature)) :=
  let module := lower (default "" (imp_module imp)) in
  bind (infer_if (is_crypto module) "cryptography" crypto_inference imp inferred)
    (fun inferred =>
  bind (infer_if (is_system module) "system_integration" system_inference imp inferred)
    (fun inferred =>
  infer_if (is_types module) "type_system" types_inference imp inferred)).

(** [infer_features_from_imports(imports)]. *)
Definition infer_features_from_imports (imports : list import_record)
  : outcome (list (string * list inferred_feature)) :=
  fold_left (fun acc imp => bind acc (fun inferred => infer_one inferred imp))
    imports (Ok []).

(** What an import adds under a category. *)
Definition inferred_under (c : string) (imp : import_record) : list inferred_feature :=
  let m := default "" (imp_module imp) in
  (if String.eqb c "cryptography" && is_crypto (lower m)
   then [{| inf_module := m; inf_inference := crypto_inference |}] else [])
  ++ (if String.eqb c "system_integration" && is_system (lower m)
      then [{| inf_module := m; inf_inference := system_inference |}] else [])
  ++ (if String.eqb c "type_system" && is_types (lower m)
      then [{| inf_module := m; inf_inference := types_inference |}] else []).

(** [{'dependency': dep, 'capability': ...}]. *)
Record dependency_feature := { dependency : string; capability : string }.

(** The category and the capability of a dependency. *)
Definition classify_dependency (dep : string) : string * string :=
  let dep_lower := before "==" (lower dep) in
  if contains "tts" dep_lower || contains "audio" dep_lower
     || contains "sound" dep_lower
  then ("voice_processing", "Text-to-speech and audio playback")
  else if contains "translate" dep_lower
  then ("translation", "Multi-language translation")
  else if contains "crypto" dep_lower
  then ("cryptography", "Encryption and cryptographic operations")
  else if contains "request" dep_lower
  then ("api_integration", "HTTP requests and API communication")
  else if contains "toolkit" dep_lower || contains "prompt" dep_lower
  then ("user_interface", "Interactive command-line interface")
  else if contains "useragent" dep_lower
  then ("api_integration", "HTTP client spoofing/user agent rotation")
  else if contains "colorama" dep_lower
  then ("user_interface", "Colored terminal output")
  else if contains "regex" dep_lower
  then ("data_processing", "Pattern matching and text processing")
  else if contains "pexpect" dep_lower
  then ("system_integration", "Process automation and interaction")
  else if contains "pydub" dep_lower
  then ("data_processing", "Audio file manipulation")
  else ("utilities", "General utility functionality").

(** The loop over [existing.get('dependencies', [])]. *)
Definition dependency_features (dependencies : list string)
  : list (string * list dependency_feature) :=
  fold_left (fun dep_features dep =>
               dd_append (fst (classify_dependency dep))
                 {| dependency := dep; capability := snd (classify_dependency dep) |}
                 dep_features)
    dependencies [].

(** The inferred feature as an item of a category. *)
Definition inferred_item (x : inferred_feature) : item :=
  ItemDict {[ "type" := "import"; "module" := inf_module x;
              "inference" := inf_inference x ]}.

(** The three loops that fill [all_categories], and the dict
    comprehension that drops the empty lists. *)
Definition all_categories (existing : list (string * list item))
    (inferred : list (string * list inferred_feature))
    (dep_features : list (string * list dependency_feature))
  : list (string * list item) :=
  let all := fold_left (fun all kv => dd_extend (fst kv) (snd kv) all) existing [] in
  let all :=
    fold_left (fun all kv => dd_extend (fst kv) (map inferred_item (snd kv)) all)
      inferred all in
  fold_left (fun all kv =>
               dd_extend (fst kv) (map (fun x => ItemStr (dependency x)) (snd kv)) all)
    dep_features all.

Definition feature_categories (existing : list (string * list item))
    (inferred : list (string * list inferred_feature))
    (dep_features : list (string * list dependency_feature))
  : list (string * list item) :=
  List.filter (fun kv => match snd kv with [] => false | _ :: _ => true end)
    (all_categories existing inferred dep_features).

End EnhancedAnalysis.

(** ** [serena_analysis.py]: the comprehensive analysis *)

Module SerenaAnalysis.
Import PyStr PyMore Facts.

(** In this script a triple and a quad are dicts with the same five
    keys, so both are [triple] records. *)

(** [fact.get('graph', 'default')]. *)
Definition graph_of (fact : triple) : string := default "default" (graph fact).

Record file_info := {
  fi_content : string;
  fi_size : nat;
  fi_lines : nat
}.

(** [len(content.split('\n'))]: one more than the newlines. *)
Fixpoint count_lines (content : string) : nat :=
  match content with
  | EmptyString => 1
  | String c t => (if Ascii.eqb c (ascii_of_nat 10) then 1 else 0) + count_lines t
  end.

(** [d[k] = v] on a dict kept as the list of its items. *)
Fixpoint dict_set {V : Type} (k : string) (v : V) (d : list (string * V))
  : list (string * V) :=
  match d with
  | [] => [(k, v)]
  | (k', v') :: d' =>
      if String.eqb k' k then (k', v) :: d' else (k', v') :: dict_set k v d'
  end.

(** The fact for one match of the import pattern: [imp[0]] is the
    module of the from-form, the empty string otherwise. *)
Definition dependency_fact (py_file : string) (imp : string * string) : triple :=
  let module := if truthy (fst imp) then fst imp else snd imp in
  {| subject := basename py_file; predicate := "depends_on"; object := module;
     context := Some py_file; graph := Some "dependency_graph" |}.

Definition part_of_fact (name : string) : triple :=
  {| subject := name; predicate := "part_of"; object := "kawaiigpt";
     context := Some "project_structure"; graph := Some "project_structure" |}.

Definition concept_fact (concept : string) : triple :=
  {| subject := "kawaiigpt"; predicate := "related_to"; object := concept;
     context := Some "README.md"; graph := Some "concept_graph" |}.

Definition concepts : list string :=
  ["KawaiiGPT"; "Python"; "Termux"; "Linux"; "installation"; "voice"; "ALSA"].

Record state := {
  files_info : list (string * file_info);
  enhanced_triples : list triple;
  enhanced_quads : list triple
}.

Record analysis_summary := {
  total_triples : nat;
  total_quads : nat;
  files_analyzed : list string;
  graphs : list string
}.

Record analysis_results := {
  ar_summary : analysis_summary;
  ar_triples : list triple;
  ar_quads : list triple;
  triples_by_graph : list (string * list triple);
  quads_by_graph : list (string * list triple);
  ar_files_info : list (string * file_info)
}.

(** [enhanced_triples[-2:]]. *)
Definition last_two {A : Type} (l : list A) : list A := skipn (length l - 2) l.

(** The results of the earlier extraction, as [json.load] gives them
    from the file that [extract_knowledge.py] writes: a dict of which
    the keys [triples] and [quads] are read with [.get], each a list of
    fact dicts. *)
Record existing_results := {
  er_triples : option (list triple);
  er_quads : option (list triple)
}.

Section Semantics.
(** [path.exists()]; [open] and [read]; [re.findall] of the import
    pattern with [re.MULTILINE], as the pairs of its two groups; [open]
    and [json.load] of the earlier results; [open] and [json.dump] of
    the new ones. *)
Variable path_exists : string -> bool.
Variable read_text : string -> outcome string.
Variable findall : string -> list (string * string).
Variable load_json : string -> outcome existing_results.
Variable dump_json : string -> analysis_results -> outcome unit.

(** One turn of the loop over the two Python files; an exception from
    [open] or [read] is caught and the file passed over. *)
Definition analyze_py_file (st : state) (py_file : string) : state :=
  if path_exists py_file then
    match read_text py_file with
    | Raise _ => st
    | Ok content =>
        let info := {| fi_content := content; fi_size := len content;
                       fi_lines := count_lines content |} in
        fold_left (fun st imp =>
                     {| files_info := files_info st;
                        enhanced_triples :=
                          enhanced_triples st ++ [dependency_fact py_file imp];
                        enhanced_quads :=
                          enhanced_quads st ++ [dependency_fact py_file imp] |})
          (findall content)
          {| files_info := dict_set (basename py_file) info (files_info st);
             enhanced_triples := enhanced_triples st;
             enhanced_quads := enhanced_quads st |}
    end
  else st.

(** The two [part_of] triples, and the quads made of the last two
    triples. *)
Definition add_part_of (st : state) : state :=
  let triples :=
    (enhanced_triples st ++ [part_of_fact "install.py"]) ++ [part_of_fact "kawai.py"] in
  {| files_info := files_info st;
     enhanced_triples := triples;
     enhanced_quads := enhanced_quads st ++ last_two triples |}.

(** One turn of the loop over the concepts. *)
Definition add_concept (readme_content : string) (st : state) (concept : string)
  : state :=
  if contains (lower concept) (lower readme_content) then
    {| files_info := files_info st;
       enhanced_triples := enhanced_triples st ++ [concept_fact concept];
       enhanced_quads := enhanced_quads st ++ [concept_fact concept] |}
  else st.

Definition join (project_path name : string) : string :=
  project_path +:+ "/" +:+ name.

(** The first step: the results of the earlier extraction, loaded
    when the file exists.  Loading is not guarded. *)
Definition load_existing (project_path : string) : outcome existing_results :=
  let knowledge_file := join project_path "knowledge_extraction.json" in
  if path_exists knowledge_file then load_json knowledge_file
  else Ok {| er_triples := Some []; er_quads := Some [] |}.

(** The steps up to the README: the two Python files and the two
    [part_of] facts. *)
Definition before_readme (project_path : string) (existing : existing_results)
  : state :=
  let st := {| files_info := [];
               enhanced_triples := default [] (er_triples existing);
               enhanced_quads := default [] (er_quads existing) |} in
  let st :=
    fold_left analyze_py_file
      [join project_path "install.py"; join project_path "kawai.py"] st in
  add_part_of st.

(** The concepts of the README, when there is one.  Reading it is not
    guarded. *)
Definition with_readme (project_path : string) (st : state) : outcome state :=
  let readme_path := join project_path "README.md" in
  if path_exists readme_path then
    match read_text readme_path with
    | Raise e => Raise e
    | Ok readme_content => Ok (fold_left (add_concept readme_content) concepts st)
    end
  else Ok st.

(** The results dict. *)
Definition results_of (st : state) : analysis_results :=
  let by_graph := group_by graph_of (enhanced_triples st) in
  {| ar_summary :=
       {| total_triples := length (enhanced_triples st);
          total_quads := length (enhanced_quads st);
          files_analyzed := map fst (files_info st);
          graphs := map fst by_graph |};
     ar_triples := enhanced_triples st;
     ar_quads := enhanced_quads st;
     triples_by_graph := by_graph;
     quads_by_graph := group_by graph_of (enhanced_quads st);
     ar_files_info := files_info st |}.

Definition output_file (project_path : string) : string :=
  join project_path "serena_comprehensive_analysis.json".

(** [analyze_with_serena_semantics()].  Loading the earlier results,
    reading the README and saving the results are not guarded, so the
    failure of any of the three is the failure of the whole analysis. *)
Definition analyze_with_serena_semantics (project_path : string)
  : outcome analysis_results :=
  match load_existing project_path with
  | Raise e => Raise e
  | Ok existing =>
      match with_readme project_path (before_readme project_path existing) with
      | Raise e => Raise e
      | Ok st =>
          let results := results_of st in
          match dump_json (output_file project_path) results with
          | Raise e => Raise e
          | Ok _ => Ok results
          end
      end
  end.

End Semantics.

(** The triples and the quads are the existing ones followed by the
    same added facts. *)
Definition twins (existing_triples existing_quads : list triple) (st : state) : Prop :=
  exists added,
    enhanced_triples st = existing_triples ++ added
    /\ enhanced_quads st = existing_quads ++ added.

End SerenaAnalysis.

(** ** [analyze_repo.py]: the analysis through the agent's tools *)

Module AnalyzeRepo.
Import PyStr PyMore Facts.

Record file_preview := { fp_path : string; content_preview : string }.

(** The [analysis] dict; [directory_structure] is set when the
    directory could be listed. *)
Record analysis := {
  project_path : string;
  a_files : list file_preview;
  a_triples : list triple;
  a_quads : list triple;
  directory_structure : option string
}.

(** A triple of this script has subject, predicate and object only. *)
Definition spo (s p o : string) : triple :=
  {| subject := s; predicate := p; object := o; context := None; graph := None |}.

(** Its quads add a context and have no graph. *)
Definition spoc (s p o c : string) : triple :=
  {| subject := s; predicate := p; object := o; context := Some c; graph := None |}.

Definition key_files : list string := ["README.md"; "install.py"; "requirements.txt"].

Definition patterns : list string := ["import"; "def "; "class "; "API"; "GPT"; "openai"].

Section Agent.
(** The [apply] of the four tools, each of which can raise. *)
Variable overview_apply : string -> outcome string.
Variable list_dir_apply : string -> outcome string.
Variable read_file_apply : string -> outcome string.
Variable search_apply : string -> outcome string.

(** [extract_triples_from_code(agent, filepath)]. *)
Definition extract_triples_from_code (filepath : string) : list triple :=
  match overview_apply filepath with
  | Ok result =>
      if truthy result && negb (contains "error" (lower result))
      then [spo filepath "hasSymbolsOverview" (str_take 500 result)]
      else []
  | Raise e => [spo filepath "analysisError" (exn_str e)]
  end.

(** [analyze_project_structure(agent, project_path)]. *)
Definition analyze_project_structure (project_path : string) : analysis :=
  match list_dir_apply project_path with
  | Ok dir_content =>
      {| project_path := project_path; a_files := [];
         a_triples := [spo project_path "hasDirectoryStructure"
                         (str_take 1000 dir_content)];
         a_quads := []; directory_structure := Some dir_content |}
  | Raise _ =>
      {| project_path := project_path; a_files := []; a_triples := [];
         a_quads := []; directory_structure := None |}
  end.

(** The test a file's content has to pass. *)
Definition usable (content : string) : bool :=
  truthy content && negb (contains "not found" (lower content))
  && negb (contains "error" (lower content)).

(** One turn of the loop of [read_and_analyze_files]. *)
Definition read_one (project : string) (a : analysis) (filename : string) : analysis :=
  let filepath := filename in
  match read_file_apply filepath with
  | Ok content =>
      if usable content then
        {| project_path := project_path a;
           a_files := a_files a ++ [{| fp_path := filepath;
                                       content_preview := str_take 500 content |}];
           a_triples := a_triples a ++ [spo project "containsFile" filepath];
           a_quads := a_quads a ++ [spoc filepath "hasContent" (str_take 200 content)
                                      "kawaiigpt_project_analysis"];
           directory_structure := directory_structure a |}
      else a
  | Raise _ => a
  end.

(** [read_and_analyze_files(agent, project_path, analysis)]. *)
Definition read_and_analyze_files (project : string) (a : analysis) : analysis :=
  fold_left (read_one project) key_files a.

(** One turn of the loop of [search_for_patterns]. *)
Definition search_one (a : analysis) (pattern : string) : analysis :=
  match search_apply pattern with
  | Ok result =>
      if truthy result && negb (contains "no matches" (lower result)) then
        {| project_path := project_path a; a_files := a_files a;
           a_triples := a_triples a
                        ++ [spo "kawaiigpt"
                              ("containsPattern_" +:+ replace " " "_" pattern)
                              (str_take 300 result)];
           a_quads := a_quads a; directory_structure := directory_structure a |}
      else a
  | Raise _ => a
  end.

(** [search_for_patterns(agent, analysis)]. *)
Definition search_for_patterns (a : analysis) : analysis :=
  fold_left search_one patterns a.

(** The three steps, as [main] chains them. *)
Definition analyze (project : string) : analysis :=
  search_for_patterns (read_and_analyze_files project (analyze_project_structure project)).

(** The files of [key_files] that are read and pass the test. *)
Definition accepted (filename : string) : bool :=
  match read_file_apply filename with
  | Ok content => usable content
  | Raise _ => false
  end.

Definition content_of (filename : string) : string :=
  match read_file_apply filename with
  | Ok content => content
  | Raise _ => EmptyString
  end.

End Agent.

End AnalyzeRepo.

(** ** [run_serena_onboarding.py]: the RDF export *)

Module Onboarding.
Import PyStr PyMore Facts.

(** The line of a triple and the line of a quad. *)
Definition rdf_triple_line (t : triple) : string :=
  "<" +:+ subject t +:+ "> <" +:+ predicate t +:+ "> <" +:+ object t +:+ "> .".

Definition rdf_quad_line (q : quad) : string :=
  "<" +:+ q_subject q +:+ "> <" +:+ q_predicate q +:+ "> <" +:+ q_object q
  +:+ "> <" +:+ q_graph q +:+ "> .".

(** [sep.join(lines)]. *)
Fixpoint join_with (sep : string) (lines : list string) : string :=
  match lines with
  | [] => EmptyString
  | [line] => line
  | line :: rest => line +:+ sep +:+ join_with sep rest
  end.

Definition rdf_triples_file (triples : list triple) : string :=
  join_with nl (map rdf_triple_line triples).

Definition rdf_quads_file (quads : list quad) : string :=
  join_with nl (map rdf_quad_line quads).

(** The string has no [>] in it. *)
Definition no_closing_bracket (s : string) : bool :=
  forallb (fun c => negb (Ascii.eqb c ">")) (list_ascii_of_string s).

End Onboarding.

(** ** Properties *)

Module PyStrFacts.
Import PyStr.

Lemma startswith_lower (p s : string) :
  startswith p s = true -> startswith (lower p) (lower s) = true.
Proof.
  revert s; induction p as [|a p IH]; intros [|b s]; simpl; try easy.
  destruct (ascii_dec a b) as [->|]; [|easy].
  intros H. destruct (ascii_dec (lower_char b) (lower_char b)); [auto|congruence].
Qed.

Lemma contains_lower (k s : string) :
  contains k s = true -> contains (lower k) (lower s) = true.
Proof.
  induction s as [|c s IH]; simpl.
  - rewrite !orb_false_r. apply (startswith_lower k EmptyString).
  - intros [H|H]%orb_true_iff; apply orb_true_iff.
    + left. apply (startswith_lower k (String c s) H).
    + right. auto.
Qed.

Lemma lower_char_fixes_lower_case (c : ascii) : is_lower c = true -> lower_char c = c.
Proof.
  unfold is_lower, lower_char. intros H.
  destruct ((65 <=? nat_of_ascii c) && (nat_of_ascii c <=? 90)) eqn:Hupper;
    [|reflexivity].
  apply andb_prop in H as [H _]. apply andb_prop in Hupper as [_ Hupper].
  apply Nat.leb_le in H, Hupper. lia.
Qed.

Lemma lower_fixes_lower_case (s : string) :
  forallb is_lower (list_ascii_of_string s) = true -> lower s = s.
Proof.
  induction s as [|c s IH]; [reflexivity|].
  cbn [list_ascii_of_string forallb lower]. intros [Hc Hs]%andb_prop.
  now rewrite (lower_char_fixes_lower_case c Hc), (IH Hs).
Qed.

End PyStrFacts.

Module CategorizerFacts.
Import PyStr PyStrFacts Categorizer.

Lemma categorize_feature_unfold (lower : string -> string) (n t : string)
    (c : list (string * string)) :
  categorize_feature lower n t c = first_matching_rule (lower n).
Proof.
  unfold categorize_feature, first_matching_rule, rules, rule_matches.
  cbn [List.find fst snd].
  repeat match goal with
         | |- context [any_in ?ks ?s] => destruct (any_in ks s); [reflexivity|]
         end.
  reflexivity.
Qed.

Lemma find_first {A : Type} (p : A -> bool) (before after : list A) (r : A) :
  (forall r', In r' before -> p r' = false) ->
  p r = true ->
  List.find p (before ++ r :: after) = Some r.
Proof.
  intros Hbefore Hr. induction before as [|x before IH]; simpl.
  - now rewrite Hr.
  - rewrite (Hbefore x (or_introl eq_refl)). apply IH.
    intros r' Hr'. apply Hbefore. now right.
Qed.

Lemma find_none_iff {A : Type} (p : A -> bool) (l : list A) :
  (forall r, In r l -> p r = false) -> List.find p l = None.
Proof.
  induction l as [|x l IH]; intros H; simpl; [reflexivity|].
  rewrite (H x (or_introl eq_refl)). apply IH. intros r Hr. apply H. now right.
Qed.

Lemma first_matching_rule_label (name_lower : string) :
  In (first_matching_rule name_lower) category_labels.
Proof.
  unfold first_matching_rule, rules, rule_matches. cbn [List.find fst snd].
  repeat match goal with
         | |- context [any_in ?ks ?s] => destruct (any_in ks s)
         end;
    unfold category_labels; cbn [snd];
    repeat (first [left; reflexivity | right]).
Qed.

(** On ASCII text, [lower] is a case mapping that leaves lower-case
    keywords in place. *)
Lemma lower_keeps_lower_case : keeps_lower_case lower.
Proof.
  intros keyword s Hkeyword Hin.
  rewrite <- (lower_fixes_lower_case keyword Hkeyword).
  now apply contains_lower.
Qed.

(** C1.  Whatever string it is given, the categorizer returns one label
    of the fixed vocabulary: the label of the first rule, in the order of
    [rules], one of whose keywords occurs in the lower-cased name, and
    ["utilities"] when no rule has one.  The first rule has the keyword
    ["install"], so a name whose lower-casing contains it is an
    ["installation"] feature whatever else it contains; since
    [str.lower] leaves lower-case text in place, so is every name that
    contains both ["install"] and ["config"]. *)
Theorem categorize_feature_first_match (lower : string -> string)
    (feature_name feature_type : string) (context : list (string * string)) :
  let label := categorize_feature lower feature_name feature_type context in
  label = first_matching_rule (lower feature_name)
  /\ In label category_labels
  /\ (forall before r after,
         rules = before ++ r :: after ->
         (forall r', In r' before -> rule_matches (lower feature_name) r' = false) ->
         rule_matches (lower feature_name) r = true ->
         label = snd r)
  /\ (contains "install" (lower feature_name) = true -> label = "installation")
  /\ (keeps_lower_case lower ->
      contains "install" feature_name = true ->
      contains "config" feature_name = true ->
      label = "installation")
  /\ ((forall r, In r rules -> rule_matches (lower feature_name) r = false) ->
      label = "utilities").
Proof.
  cbn zeta. rewrite categorize_feature_unfold.
  assert (Hinstall : contains "install" (lower feature_name) = true ->
                     first_matching_rule (lower feature_name) = "installation").
  { intros Hlower. unfold first_matching_rule, rules. cbn [List.find].
    unfold rule_matches at 1. cbn [fst any_in existsb].
    rewrite Hlower. reflexivity. }
  repeat split.
  - apply first_matching_rule_label.
  - intros before r after Hrules Hbefore Hr. unfold first_matching_rule.
    rewrite Hrules, (find_first _ before after r Hbefore Hr). reflexivity.
  - exact Hinstall.
  - intros Hkeeps Hin _. apply Hinstall. apply Hkeeps; [reflexivity|exact Hin].
  - intros Hnone. unfold first_matching_rule.
    rewrite (find_none_iff _ rules Hnone). reflexivity.
Qed.

Lemma categorize_feature_first_match_witness :
  categorize_feature lower "install_config" "function" [] = "installation"
  /\ categorize_feature lower "kawaii" "variable" [] = "utilities"
  /\ categorize_feature lower "decode_hash" "function" [] = "cryptography".
Proof.
  split; [|split].
  - exact (proj1 (proj2 (proj2 (proj2 (proj2
             (categorize_feature_first_match lower "install_config" "function" [])))))
             lower_keeps_lower_case eq_refl eq_refl).
  - apply (proj2 (proj2 (proj2 (proj2 (proj2
             (categorize_feature_first_match lower "kawaii" "variable" [])))))).
    intros r Hr. cbn in Hr.
    repeat (destruct Hr as [<-|Hr]; [reflexivity|]). destruct Hr.
  - refine (proj1 (proj2 (proj2
             (categorize_feature_first_match lower "decode_hash" "function" [])))
             (firstn 7 rules) _ (skipn 8 rules) eq_refl _ eq_refl).
    intros r Hr. cbn in Hr.
    repeat (destruct Hr as [<-|Hr]; [reflexivity|]). destruct Hr.
Defined.

End CategorizerFacts.

Module AstFacts.
Import Ast.

Lemma list_sum_map_app {A : Type} (f : A -> nat) (l1 l2 : list A) :
  list_sum (map f (l1 ++ l2)) = list_sum (map f l1) + list_sum (map f l2).
Proof. rewrite map_app. apply list_sum_app. Qed.

Lemma list_sum_map_map {A B : Type} (g : A -> B) (f : B -> nat) (l : list A) :
  list_sum (map f (map g l)) = list_sum (map (fun x => f (g x)) l).
Proof. rewrite map_map. reflexivity. Qed.

Lemma list_sum_const {A : Type} (l : list A) :
  list_sum (map (fun _ => 1) l) = length l.
Proof. induction l; simpl; congruence. Qed.

Lemma list_sum_zero {A : Type} (l : list A) :
  list_sum (map (fun _ => 0) l) = 0.
Proof. induction l; simpl; congruence. Qed.

Lemma list_sum_opt_nodes (f : node -> nat) (l : list (option node)) :
  list_sum (map f (flat_map opt_list l))
  = list_sum (map (fun o => match o with Some m => f m | None => 0 end) l).
Proof. induction l as [|[m|] l IH]; simpl; congruence. Qed.

Ltac sum_children :=
  repeat (rewrite ?list_sum_map_app, ?list_sum_map_map, ?list_sum_opt_nodes,
            ?list_sum_const, ?list_sum_zero; simpl);
  change (fun x : node => node_size x) with node_size;
  change (fun x : arg => arg_size x) with arg_size;
  change (fun x : node => count_function_defs x) with count_function_defs;
  change (fun x : arg => count_in_arg x) with count_in_arg.

(** A subtree has one node more than the subtrees of its children. *)
Lemma size_children (a : ast) :
  size a = S (list_sum (map size (iter_child_nodes a))).
Proof.
  destruct a as [n|x|x|x|x]; [destruct n| destruct x | destruct x | |];
    simpl; sum_children;
    repeat match goal with o : option _ |- _ => destruct o end;
    simpl; lia.
Qed.

(** The function definitions of a subtree: the root when it is one,
    and those of the children's subtrees. *)
Lemma count_children (a : ast) :
  count_function_defs_in a
  = (if is_function_def a then 1 else 0)
    + list_sum (map count_function_defs_in (iter_child_nodes a)).
Proof.
  destruct a as [n|x|x|x|x]; [destruct n| destruct x | destruct x | |];
    simpl; sum_children;
    repeat match goal with o : option _ |- _ => destruct o end;
    simpl; lia.
Qed.

Lemma size_pos (a : ast) : 0 < size a.
Proof. rewrite size_children. lia. Qed.

(** The walk adds up, node by node, what a recursive descent adds up
    subtree by subtree. *)
Lemma walk_queue_sum (weight total : ast -> nat) :
  (forall a, total a = weight a + list_sum (map total (iter_child_nodes a))) ->
  forall (fuel : nat) (todo : list ast),
    list_sum (map size todo) <= fuel ->
    list_sum (map weight (walk_queue fuel todo)) = list_sum (map total todo).
Proof.
  intros Htotal fuel; induction fuel as [|fuel IH]; intros [|a rest] Hfuel;
    try reflexivity.
  - simpl in Hfuel. pose proof (size_pos a). lia.
  - change (walk_queue (S fuel) (a :: rest))
      with (a :: walk_queue fuel (rest ++ iter_child_nodes a)).
    change (list_sum (map size (a :: rest)))
      with (size a + list_sum (map size rest)) in Hfuel.
    change (list_sum (map total (a :: rest)))
      with (total a + list_sum (map total rest)).
    change (list_sum (map weight (a :: walk_queue fuel (rest ++ iter_child_nodes a))))
      with (weight a
            + list_sum (map weight (walk_queue fuel (rest ++ iter_child_nodes a)))).
    rewrite (size_children a) in Hfuel.
    rewrite IH by (rewrite list_sum_map_app; lia).
    rewrite list_sum_map_app, (Htotal a). lia.
Qed.

Lemma walk_sum (weight total : ast -> nat) (tree : node) :
  (forall a, total a = weight a + list_sum (map total (iter_child_nodes a))) ->
  list_sum (map weight (walk tree)) = total (ANode tree).
Proof.
  intros Htotal. unfold walk. rewrite (walk_queue_sum weight total Htotal).
  - simpl. lia.
  - simpl. lia.
Qed.

(** The walk yields every node of the tree: as many as the tree has. *)
Lemma walk_length (tree : node) : length (walk tree) = node_size tree.
Proof.
  rewrite <- list_sum_const.
  apply (walk_sum (fun _ => 1) size tree). intros a. apply size_children.
Qed.

End AstFacts.

Module AstSumFacts.
Import Ast AstSum AstFacts.

Lemma list_sum_aliases (weight : ast -> nat) (names : list alias) :
  list_sum (map weight (map AAlias names))
  = list_sum (map (fun al => weight (AAlias al)) names).
Proof. now rewrite map_map. Qed.

(** The sum over a subtree is the root's weight and the sums over the
    children's subtrees. *)
Lemma tree_sum_children (weight : ast -> nat) (a : ast) :
  tree_sum weight a
  = weight a + list_sum (map (tree_sum weight) (iter_child_nodes a)).
Proof.
  destruct a as [n|x|x|x|x]; [destruct n| destruct x | destruct x | |];
    simpl; sum_children;
    change (fun x : node => node_sum weight x) with (node_sum weight);
    change (fun x : arg => arg_sum weight x) with (arg_sum weight);
    repeat match goal with o : option _ |- _ => destruct o end;
    simpl; lia.
Qed.

(** What the walk adds up is the sum over the tree. *)
Lemma walk_tree_sum (weight : ast -> nat) (tree : node) :
  list_sum (map weight (walk tree)) = node_sum weight tree.
Proof.
  apply (walk_sum weight (tree_sum weight) tree). apply tree_sum_children.
Qed.

End AstSumFacts.

Module ListFacts.

Lemma fold_left_app_flat_map {A B : Type} (f : A -> list B) (l : list A)
    (init : list B) :
  fold_left (fun acc x => acc ++ f x) l init = init ++ flat_map f l.
Proof.
  revert init; induction l as [|x l IH]; intros init; simpl.
  - symmetry. apply app_nil_r.
  - rewrite IH. symmetry. apply app_assoc.
Qed.

Lemma filter_none {A : Type} (p : A -> bool) (l : list A) :
  (forall x, In x l -> p x = false) -> List.filter p l = [].
Proof.
  induction l as [|x l IH]; intros H; simpl; [reflexivity|].
  rewrite (H x (or_introl eq_refl)). apply IH. intros y Hy. apply H. now right.
Qed.

Lemma filter_map_none {A B : Type} (p : B -> bool) (f : A -> B) (l : list A) :
  (forall x, p (f x) = false) -> List.filter p (map f l) = [].
Proof.
  intros H. apply filter_none. intros y [x [<- _]]%in_map_iff. apply H.
Qed.

Lemma filter_flat_map {A B : Type} (p : B -> bool) (f : A -> list B) (l : list A) :
  List.filter p (flat_map f l) = flat_map (fun x => List.filter p (f x)) l.
Proof.
  induction l as [|x l IH]; simpl; [reflexivity|].
  rewrite List.filter_app, IH. reflexivity.
Qed.

Lemma length_flat_map {A B : Type} (f : A -> list B) (l : list A) :
  length (flat_map f l) = list_sum (map (fun x => length (f x)) l).
Proof.
  induction l as [|x l IH]; simpl; [reflexivity|].
  rewrite length_app, IH. reflexivity.
Qed.

End ListFacts.

Module ExtractKnowledgeFacts.
Import PyStr Ast AstSum Facts ExtractKnowledge AstFacts AstSumFacts ListFacts.

Lemma analyze_file_ok (read_text : string -> outcome string)
    (ast_parse : string -> outcome node) (file_path content : string) (tree : node) :
  read_text file_path = Ok content ->
  ast_parse content = Ok tree ->
  triples (analyze_file read_text ast_parse file_path)
  = flat_map (fun node => extract_triples_from_ast node file_path) (walk tree).
Proof.
  intros Hread Hparse. unfold analyze_file. rewrite Hread, Hparse. simpl.
  apply (fold_left_app_flat_map (fun node => extract_triples_from_ast node file_path)).
Qed.

(** What one node contributes to the [is_a]/[function] facts. *)
Lemma function_facts_of_node (node : ast) (file_path : string) :
  length (List.filter (has_predicate_object "is_a" "function")
            (extract_triples_from_ast node file_path))
  = if is_function_def node then 1 else 0.
Proof.
  destruct node as [n| | | |]; try reflexivity.
  destruct n; try reflexivity.
  - cbn [extract_triples_from_ast is_function_def List.filter].
    change (has_predicate_object "is_a" "function"
              (mk_triple name "is_a" "function" file_path "code_structure"))
      with true.
    cbn iota. rewrite filter_map_none; reflexivity.
  - cbn [extract_triples_from_ast is_function_def List.filter].
    change (has_predicate_object "is_a" "function"
              (mk_triple name "is_a" "class" file_path "code_structure"))
      with false.
    cbn iota. rewrite filter_none; [reflexivity|].
    intros t [base [_ Ht]]%in_flat_map.
    destruct base; simpl in Ht; try contradiction.
    destruct Ht as [<-|[]]. reflexivity.
  - simpl. rewrite filter_map_none; reflexivity.
  - simpl. destruct module as [m|]; [|reflexivity].
    destruct (negb (String.eqb m "")); [|reflexivity].
    rewrite filter_map_none; reflexivity.
  - simpl. rewrite filter_none; [reflexivity|].
    intros t [target [_ Ht]]%in_flat_map.
    destruct target; simpl in Ht; try contradiction.
    destruct Ht as [<-|[]]. reflexivity.
  - simpl. destruct n; reflexivity.
Qed.

(** The function definitions of a tree are its [FunctionDef] nodes and
    its [AsyncFunctionDef] nodes. *)
Lemma function_definitions_split (tree : node) :
  count_function_definitions tree
  = count_function_defs tree + count_nodes is_async_function_def tree.
Proof.
  unfold count_function_definitions, count_nodes.
  rewrite <- !walk_tree_sum.
  change (count_function_defs tree) with (count_function_defs_in (ANode tree)).
  rewrite <- (walk_sum (fun node => if is_function_def node then 1 else 0)
                count_function_defs_in tree count_children).
  induction (walk tree) as [|a l IH]; [reflexivity|].
  change (list_sum (map ?f (a :: l))) with (f a + list_sum (map f l)).
  rewrite IH. destruct a as [[]| | | |]; cbn [is_function_definition is_function_def
                                               is_async_function_def]; lia.
Qed.

(** C2, as stated, fails: a coroutine is a function definition, and the
    extractor has no fact for it. *)
Lemma async_function_has_no_fact :
  ~ (forall (read_text : string -> outcome string)
            (ast_parse : string -> outcome node) (file_path content : string)
            (tree : node),
        read_text file_path = Ok content ->
        ast_parse content = Ok tree ->
        length (List.filter (has_predicate_object "is_a" "function")
                  (triples (analyze_file read_text ast_parse file_path)))
        = count_function_definitions tree).
Proof.
  intros H.
  specialize (H (fun _ => Ok async_source) (fun _ => Ok async_tree) "fetch.py"
                async_source async_tree eq_refl eq_refl).
  vm_compute in H. discriminate H.
Qed.

(** C2, amended.  When the file is read and parsed, the extractor emits
    one fact with predicate [is_a] and object [function] for each node
    of class [FunctionDef], a function defined with [def], and none for
    any other node, so the number of such facts in the output is the
    number of [FunctionDef] nodes of the tree, top-level and nested.  A
    function defined with [async def] yields no fact at all: the facts
    number the function definitions of the file less its coroutines. *)
Theorem function_facts_count (read_text : string -> outcome string)
    (ast_parse : string -> outcome node) (file_path content : string) (tree : node) :
  read_text file_path = Ok content ->
  ast_parse content = Ok tree ->
  (forall node,
      length (List.filter (has_predicate_object "is_a" "function")
                (extract_triples_from_ast node file_path))
      = if is_function_def node then 1 else 0)
  /\ length (List.filter (has_predicate_object "is_a" "function")
               (triples (analyze_file read_text ast_parse file_path)))
     = count_function_defs tree
  /\ (forall name args body decorator_list returns lineno,
         extract_triples_from_ast
           (ANode (AsyncFunctionDef name args body decorator_list returns lineno))
           file_path
         = [])
  /\ length (List.filter (has_predicate_object "is_a" "function")
               (triples (analyze_file read_text ast_parse file_path)))
     + count_nodes is_async_function_def tree
     = count_function_definitions tree.
Proof.
  intros Hread Hparse.
  assert (Hcount : length (List.filter (has_predicate_object "is_a" "function")
                             (triples (analyze_file read_text ast_parse file_path)))
                   = count_function_defs tree).
  { rewrite (analyze_file_ok _ _ _ _ _ Hread Hparse).
    rewrite filter_flat_map, length_flat_map.
    rewrite (map_ext _ (fun node => if is_function_def node then 1 else 0))
      by (intros node; apply function_facts_of_node).
    apply (walk_sum (fun node => if is_function_def node then 1 else 0)
             count_function_defs_in tree).
    apply count_children. }
  split; [intros node; apply function_facts_of_node|].
  split; [exact Hcount|]. split; [reflexivity|].
  rewrite Hcount. symmetry. apply function_definitions_split.
Qed.

Lemma function_facts_count_witness :
  length (List.filter (has_predicate_object "is_a" "function")
            (triples (analyze_file (fun _ => Ok nested_source)
                        (fun _ => Ok nested_tree) "nested.py")))
  = 3.
Proof.
  exact (proj1 (proj2 (function_facts_count (fun _ => Ok nested_source)
                         (fun _ => Ok nested_tree) "nested.py" nested_source
                         nested_tree eq_refl eq_refl))).
Defined.

Lemma simple_base_ids_app (l1 l2 : list node) :
  simple_base_ids (l1 ++ l2) = simple_base_ids l1 ++ simple_base_ids l2.
Proof. apply flat_map_app. Qed.

Lemma simple_base_ids_length (bases : list node) :
  length (simple_base_ids bases) = length (List.filter is_name bases).
Proof.
  induction bases as [|base bases IH]; [reflexivity|].
  destruct base; simpl; auto.
Qed.

Lemma inherits_facts (name file_path : string) (bases : list node) :
  flat_map (fun base =>
              match base with
              | Name id _ => [mk_triple name "inherits_from" id file_path "inheritance"]
              | _ => []
              end) bases
  = map (fun id => mk_triple name "inherits_from" id file_path "inheritance")
      (simple_base_ids bases).
Proof.
  induction bases as [|base bases IH]; [reflexivity|].
  destruct base; simpl; rewrite <- IH; reflexivity.
Qed.

Lemma filter_all {A : Type} (p : A -> bool) (l : list A) :
  (forall x, In x l -> p x = true) -> List.filter p l = l.
Proof.
  induction l as [|x l IH]; intros H; simpl; [reflexivity|].
  rewrite (H x (or_introl eq_refl)). f_equal. apply IH. intros y Hy. apply H. now right.
Qed.

(** C3.  A class definition yields its [is_a]/[class] fact once, and
    its [inherits_from] facts are those of the bases that are plain
    names, one for each and in order; a base of any other form (an
    attribute access, a call, ...) adds none. *)
Theorem class_facts (name : string) (bases keywords body decorator_list : list node)
    (lineno : Z) (file_path : string) :
  let facts :=
    extract_triples_from_ast
      (ANode (ClassDef name bases keywords body decorator_list lineno)) file_path in
  List.filter (has_predicate_object "is_a" "class") facts
  = [mk_triple name "is_a" "class" file_path "code_structure"]
  /\ List.filter (has_predicate "inherits_from") facts
     = map (fun id => mk_triple name "inherits_from" id file_path "inheritance")
         (simple_base_ids bases)
  /\ length (List.filter (has_predicate "inherits_from") facts)
     = length (List.filter is_name bases)
  /\ (forall before base after,
         bases = before ++ base :: after ->
         is_name base = false ->
         List.filter (has_predicate "inherits_from") facts
         = map (fun id => mk_triple name "inherits_from" id file_path "inheritance")
             (simple_base_ids (before ++ after))).
Proof.
  intros facts.
  assert (Hfacts : facts
                   = mk_triple name "is_a" "class" file_path "code_structure"
                     :: map (fun id => mk_triple name "inherits_from" id file_path
                                         "inheritance") (simple_base_ids bases)).
  { unfold facts. cbn [extract_triples_from_ast]. now rewrite inherits_facts. }
  assert (Hinh : List.filter (has_predicate "inherits_from") facts
                 = map (fun id => mk_triple name "inherits_from" id file_path
                                    "inheritance") (simple_base_ids bases)).
  { rewrite Hfacts. cbn [List.filter].
    change (has_predicate "inherits_from"
              (mk_triple name "is_a" "class" file_path "code_structure")) with false.
    cbn iota. apply filter_all. intros t [id [<- _]]%in_map_iff. reflexivity. }
  repeat split.
  - rewrite Hfacts. cbn [List.filter].
    change (has_predicate_object "is_a" "class"
              (mk_triple name "is_a" "class" file_path "code_structure")) with true.
    cbn iota. now rewrite filter_map_none.
  - exact Hinh.
  - rewrite Hinh, length_map. apply simple_base_ids_length.
  - intros before base after -> Hbase. rewrite Hinh. f_equal.
    rewrite !simple_base_ids_app. f_equal.
    destruct base; try reflexivity. discriminate Hbase.
Qed.

Lemma class_facts_witness :
  List.filter (has_predicate "inherits_from")
    (extract_triples_from_ast
       (ANode (ClassDef "K" [Name "B" Load; Attribute (Name "m" Load) "C" Load]
                 [] [] [] 3)) "k.py")
  = [mk_triple "K" "inherits_from" "B" "k.py" "inheritance"].
Proof.
  exact (proj2 (proj2 (proj2
           (class_facts "K" [Name "B" Load; Attribute (Name "m" Load) "C" Load]
              [] [] [] 3 "k.py")))
           [Name "B" Load] (Attribute (Name "m" Load) "C" Load) [] eq_refl eq_refl).
Defined.

(** C5.  For a file whose whole content is [def foo(a, b): pass] the
    extractor's triples are (foo, is_a, function), (foo,
    has_parameter, a) and (foo, has_parameter, b), and nothing else. *)
Theorem foo_facts (read_text : string -> outcome string)
    (ast_parse : string -> outcome node) (file_path : string) :
  read_text file_path = Ok foo_source ->
  ast_parse foo_source = Ok foo_tree ->
  triples (analyze_file read_text ast_parse file_path)
  = [ mk_triple "foo" "is_a" "function" file_path "code_structure";
      mk_triple "foo" "has_parameter" "a" file_path "code_structure";
      mk_triple "foo" "has_parameter" "b" file_path "code_structure" ].
Proof.
  intros Hread Hparse.
  rewrite (analyze_file_ok _ _ _ _ _ Hread Hparse). reflexivity.
Qed.

Lemma foo_facts_witness :
  map (fun t => (subject t, predicate t, object t))
    (triples (analyze_file (fun _ => Ok foo_source) (fun _ => Ok foo_tree) "foo.py"))
  = [ ("foo", "is_a", "function"); ("foo", "has_parameter", "a");
      ("foo", "has_parameter", "b") ].
Proof.
  rewrite (foo_facts (fun _ => Ok foo_source) (fun _ => Ok foo_tree) "foo.py"
             eq_refl eq_refl).
  reflexivity.
Defined.

(** Every fact the extractor emits carries a non-empty graph label. *)
Lemma extracted_graph_nonempty (node : ast) (file_path : string) (t : triple) :
  In t (extract_triples_from_ast node file_path) ->
  exists g, graph t = Some g /\ g <> "".
Proof.
  assert (Hmk : forall s p o c g, g <> "" ->
                exists g', graph (mk_triple s p o c g) = Some g' /\ g' <> "")
    by (intros; eexists; split; [reflexivity|assumption]).
  destruct node as [n| | | |]; try contradiction.
  destruct n; try contradiction; cbn [extract_triples_from_ast].
  - intros [<-|[a [<- _]]%in_map_iff]; apply Hmk; discriminate.
  - intros [<-|[base [_ Ht]]%in_flat_map]; [apply Hmk; discriminate|].
    destruct base; try contradiction. destruct Ht as [<-|[]].
    apply Hmk; discriminate.
  - intros [a [<- _]]%in_map_iff. apply Hmk; discriminate.
  - destruct module as [m|]; [|contradiction].
    destruct (negb (String.eqb m "")); [|contradiction].
    intros [a [<- _]]%in_map_iff. apply Hmk; discriminate.
  - intros [target [_ Ht]]%in_flat_map.
    destruct target; try contradiction. destruct Ht as [<-|[]].
    apply Hmk; discriminate.
  - destruct n; try contradiction. intros [<-|[]]. apply Hmk; discriminate.
Qed.

(** C4, as stated, fails: a fact whose graph label is the empty
    string is converted to a quad whose graph label is empty too. *)
Lemma quad_graph_can_be_empty :
  ~ (forall (triples : list triple) (file_path : string),
        Forall2 (fun t q =>
                   q_subject q = subject t /\ q_predicate q = predicate t
                   /\ q_object q = object t /\ q_graph q <> "")
          triples (extract_quads_from_relationships triples file_path)).
Proof.
  intros H. specialize (H [unlabelled_fact] "kawai.py").
  inversion H as [|t q ts qs (_ & _ & _ & Hgraph) _]; subst.
  apply Hgraph. reflexivity.
Qed.

(** C4, amended.  Quad conversion yields one quad for each fact, in
    order, with the fact's subject, predicate and object; the quad's
    graph is the fact's graph when the fact has one and ["default"]
    when it has none, hence non-empty unless the fact's own graph is
    the empty string; it is non-empty for every fact the extractor
    emits. *)
Theorem quads_preserve_facts (triples : list triple) (file_path : string) :
  let quads := extract_quads_from_relationships triples file_path in
  length quads = length triples
  /\ Forall2 (fun t q =>
                q_subject q = subject t /\ q_predicate q = predicate t
                /\ q_object q = object t
                /\ q_graph q = default "default" (graph t)
                /\ (graph t <> Some "" -> q_graph q <> ""))
       triples quads
  /\ (forall node path,
         Forall (fun q => q_graph q <> "")
           (extract_quads_from_relationships
              (extract_triples_from_ast node path) file_path)).
Proof.
  cbn zeta. split; [apply length_map|]. split.
  - induction triples as [|t ts IH]; constructor; [|exact IH].
    cbn. repeat split. destruct (graph t) as [g|]; cbn; [congruence|discriminate].
  - intros node path. apply List.Forall_forall.
    intros q [t [<- Ht]]%in_map_iff.
    destruct (extracted_graph_nonempty _ _ _ Ht) as [g [Hg Hne]].
    cbn. rewrite Hg. exact Hne.
Qed.

Lemma quads_preserve_facts_witness :
  map q_graph
    (extract_quads_from_relationships
       [ mk_triple "foo" "is_a" "function" "foo.py" "code_structure";
         {| subject := "foo"; predicate := "calls"; object := "bar";
            context := None; graph := None |} ] "foo.py")
  = ["code_structure"; "default"]
  /\ Forall (fun q => q_graph q <> "")
       (extract_quads_from_relationships
          [ mk_triple "foo" "is_a" "function" "foo.py" "code_structure";
            {| subject := "foo"; predicate := "calls"; object := "bar";
               context := None; graph := None |} ] "foo.py").
Proof.
  split; [reflexivity|].
  pose proof (proj1 (proj2 (quads_preserve_facts
    [ mk_triple "foo" "is_a" "function" "foo.py" "code_structure";
      {| subject := "foo"; predicate := "calls"; object := "bar";
         context := None; graph := None |} ] "foo.py"))) as H.
  cbn zeta in H.
  inversion H as [|t1 q1 ts1 qs1 (_ & _ & _ & _ & H1) H']; subst.
  inversion H' as [|t2 q2 ts2 qs2 (_ & _ & _ & _ & H2) _]; subst.
  repeat constructor; [apply H1|apply H2]; discriminate.
Defined.

Section Driver.
Variable read_text : string -> outcome string.
Variable ast_parse : string -> outcome node.
Variable path_exists : string -> bool.

Lemma analyze_file_raises (file_path : string) (e : exn) :
  analysis_raises read_text ast_parse file_path e ->
  analyze_file read_text ast_parse file_path = error_result file_path e.
Proof.
  unfold analyze_file. intros [Hread|[content [Hread Hparse]]]; rewrite Hread.
  - reflexivity.
  - rewrite Hparse. reflexivity.
Qed.

(** The loop handles the files that exist one after the other,
    whatever the analysis of each gives. *)
Lemma analyze_fold (python_files : list string) (res : results) :
  fold_left (analyze_step read_text ast_parse path_exists) python_files res
  = {| r_triples :=
         r_triples res
         ++ flat_map (fun f => ExtractKnowledge.triples (analyze_file read_text ast_parse f))
              (List.filter path_exists python_files);
       r_quads :=
         r_quads res
         ++ flat_map (fun f => quads (analyze_file read_text ast_parse f))
              (List.filter path_exists python_files);
       files_analyzed :=
         files_analyzed res
         ++ map (file_entry_of read_text ast_parse)
              (List.filter path_exists python_files) |}.
Proof.
  revert res; induction python_files as [|f l IH]; intros [ts qs fs]; simpl.
  - now rewrite !app_nil_r.
  - rewrite IH. unfold analyze_step.
    destruct (path_exists f); simpl; [|reflexivity].
    now rewrite <- !app_assoc.
Qed.

End Driver.



End ExtractKnowledgeFacts.

Module AnalyzeKawaiigptFacts.
Import PyStr Facts AnalyzeKawaiigpt ListFacts.

Lemma add_reference_quads (source_symbol file_path context : string)
    (quads : list quad) (ref : reference) :
  add_reference source_symbol file_path context quads ref
  = quads ++ quads_of_reference source_symbol file_path context ref.
Proof.
  unfold add_reference, quads_of_reference, mirrored.
  destruct (truthy _ && truthy _); cbn [fst snd].
  - rewrite <- app_assoc. reflexivity.
  - symmetry. apply app_nil_r.
Qed.

Lemma fold_add_reference (source_symbol file_path context : string)
    (references : list reference) (quads : list quad) :
  fold_left (add_reference source_symbol file_path context) references quads
  = quads ++ flat_map (quads_of_reference source_symbol file_path context) references.
Proof.
  revert quads; induction references as [|ref refs IH]; intros quads; simpl.
  - symmetry. apply app_nil_r.
  - rewrite IH, add_reference_quads, <- app_assoc. reflexivity.
Qed.

Lemma quads_of_reference_even (source_symbol file_path context : string)
    (references : list reference) :
  Nat.Even
    (length (flat_map (quads_of_reference source_symbol file_path context) references)).
Proof.
  induction references as [|ref refs [k IH]]; [exists 0; reflexivity|].
  simpl. rewrite length_app, IH. unfold quads_of_reference.
  destruct (truthy _ && truthy _); [exists (S k)|exists k]; simpl; lia.
Qed.

(** C10.  A reference record with a non-empty name, for a non-empty
    source symbol, yields the pair of a [references] quad and its
    mirrored [referenced_by] quad, with graphs [file->ref_file] and
    [ref_file->file]; any other record yields nothing.  The output is
    the sequence of these pairs, so its length is even and each
    [references] quad in it has its mirror in it. *)
Theorem reference_quads_come_in_pairs (references : list reference)
    (source_symbol file_path context : string) :
  let quads :=
    extract_quads_from_references references source_symbol file_path context in
  quads = flat_map (quads_of_reference source_symbol file_path context) references
  /\ (forall ref ref_symbol,
         ref_name ref = Some ref_symbol ->
         ref_symbol <> "" ->
         source_symbol <> "" ->
         let ref_file :=
           default "" (loc_file (default {| loc_file := None |} (ref_location ref))) in
         extract_quads_from_references [ref] source_symbol file_path context
         = [ {| q_subject := source_symbol; q_predicate := "references";
                q_object := ref_symbol;
                q_graph := file_path +:+ "->" +:+ ref_file;
                q_context := context |};
             {| q_subject := ref_symbol; q_predicate := "referenced_by";
                q_object := source_symbol;
                q_graph := ref_file +:+ "->" +:+ file_path;
                q_context := context |} ])
  /\ Nat.Even (length quads)
  /\ (forall q,
         In q quads ->
         q_predicate q = "references" ->
         exists ref_file,
           q_graph q = file_path +:+ "->" +:+ ref_file
           /\ In {| q_subject := q_object q; q_predicate := "referenced_by";
                    q_object := q_subject q;
                    q_graph := ref_file +:+ "->" +:+ file_path;
                    q_context := q_context q |} quads).
Proof.
  cbn zeta. unfold extract_quads_from_references.
  rewrite !fold_add_reference. cbn [app]. repeat split.
  - intros ref ref_symbol Hname Hsym Hsrc.
    rewrite fold_add_reference. cbn [app flat_map]. rewrite app_nil_r.
    unfold quads_of_reference, mirrored. rewrite Hname. cbn [default fst snd].
    destruct ref_symbol; [contradiction|]. destruct source_symbol; [contradiction|].
    reflexivity.
  - apply quads_of_reference_even.
  - intros q [ref [Href Hq]]%in_flat_map Hpred.
    unfold quads_of_reference in Hq.
    destruct (truthy _ && truthy _) eqn:Htruthy; [|contradiction].
    destruct Hq as [<-|[<-|[]]]; [|discriminate Hpred].
    eexists. split; [reflexivity|].
    apply in_flat_map. exists ref. split; [exact Href|].
    unfold quads_of_reference. rewrite Htruthy.
    right. left. reflexivity.
Qed.

Lemma reference_quads_come_in_pairs_witness :
  extract_quads_from_references
    [ {| ref_name := Some "main"; ref_kind := Some "function";
         ref_location := Some {| loc_file := Some "kawai.py" |} |} ]
    "install" "install.py" "refs"
  = [ {| q_subject := "install"; q_predicate := "references"; q_object := "main";
         q_graph := "install.py->kawai.py"; q_context := "refs" |};
      {| q_subject := "main"; q_predicate := "referenced_by"; q_object := "install";
         q_graph := "kawai.py->install.py"; q_context := "refs" |} ]
  /\ exists ref_file,
       In {| q_subject := "main"; q_predicate := "referenced_by";
             q_object := "install";
             q_graph := ref_file +:+ "->" +:+ "install.py"; q_context := "refs" |}
         (extract_quads_from_references
            [ {| ref_name := Some "main"; ref_kind := Some "function";
                 ref_location := Some {| loc_file := Some "kawai.py" |} |} ]
            "install" "install.py" "refs").
Proof.
  pose proof (reference_quads_come_in_pairs
                [ {| ref_name := Some "main"; ref_kind := Some "function";
                     ref_location := Some {| loc_file := Some "kawai.py" |} |} ]
                "install" "install.py" "refs") as (_ & Hpair & _ & Hmirror).
  split.
  - apply (Hpair {| ref_name := Some "main"; ref_kind := Some "function";
                    ref_location := Some {| loc_file := Some "kawai.py" |} |}
             "main" eq_refl); discriminate.
  - destruct (Hmirror
                {| q_subject := "install"; q_predicate := "references";
                   q_object := "main"; q_graph := "install.py->kawai.py";
                   q_context := "refs" |}
                (or_introl eq_refl) eq_refl) as (ref_file & _ & Hin).
    exists ref_file. exact Hin.
Defined.

End AnalyzeKawaiigptFacts.

Module SensaiFacts.
Import PyStr Ast Categorizer Sensai ListFacts.

Lemma fold_left_keeps {S A X : Type} (step : S -> A -> S) (proj : S -> X) :
  (forall s a, proj (step s a) = proj s) ->
  forall (l : list A) (s : S), proj (fold_left step l s) = proj s.
Proof.
  intros Hstep l; induction l as [|a l IH]; intros s; simpl; [reflexivity|].
  now rewrite IH.
Qed.

Lemma fold_left_appends {S A X : Type} (step : S -> A -> S) (proj : S -> list X)
    (delta : A -> list X) :
  (forall s a, proj (step s a) = proj s ++ delta a) ->
  forall (l : list A) (s : S), proj (fold_left step l s) = proj s ++ flat_map delta l.
Proof.
  intros Hstep l; induction l as [|a l IH]; intros s; simpl.
  - symmetry. apply app_nil_r.
  - now rewrite IH, Hstep, <- app_assoc.
Qed.

Lemma flat_map_singleton {A B : Type} (f : A -> B) (l : list A) :
  flat_map (fun a => [f a]) l = map f l.
Proof. induction l; simpl; congruence. Qed.

(** *** Loops that can raise *)

(** What no turn changes is what the loop leaves alone, whether it
    runs to its end or not. *)
Lemma loop_keeps {S A X : Type} (step : S -> A -> outcome S) (proj : S -> X) :
  (forall s a s', step s a = Ok s' -> proj s' = proj s) ->
  forall (l : list A) (s : S), proj (fst (loop step l s)) = proj s.
Proof.
  intros Hstep l; induction l as [|a l IH]; intros s; cbn [loop]; [reflexivity|].
  destruct (step s a) as [s'|e] eqn:E; [|reflexivity].
  now rewrite IH, (Hstep s a s' E).
Qed.

(** A loop that runs to its end has appended what each turn appends. *)
Lemma loop_appends {S A X : Type} (step : S -> A -> outcome S) (proj : S -> list X)
    (delta : A -> list X) :
  (forall s a s', step s a = Ok s' -> proj s' = proj s ++ delta a) ->
  forall (l : list A) (s : S),
    snd (loop step l s) = None ->
    proj (fst (loop step l s)) = proj s ++ flat_map delta l.
Proof.
  intros Hstep l; induction l as [|a l IH]; intros s; cbn [loop flat_map].
  - intros _. symmetry. apply app_nil_r.
  - destruct (step s a) as [s'|e] eqn:E; [|discriminate].
    intros Hnone. now rewrite (IH s' Hnone), (Hstep s a s' E), <- app_assoc.
Qed.

(** The loop runs to its end when no turn has anything to raise. *)
Lemma loop_returns {S A : Type} (step : S -> A -> outcome S) (inv : S -> Prop)
    (ok : A -> bool) :
  (forall s a, inv s -> ok a = true -> exists s', step s a = Ok s' /\ inv s') ->
  forall (l : list A) (s : S),
    inv s -> forallb ok l = true -> snd (loop step l s) = None.
Proof.
  intros Hstep l; induction l as [|a l IH]; intros s Hinv Hok; [reflexivity|].
  cbn [forallb] in Hok. apply andb_prop in Hok as [Ha Hl]. cbn [loop].
  destruct (Hstep s a Hinv Ha) as (s' & -> & Hinv'). now apply IH.
Qed.

(** It is ended by an exception when some turn has to raise. *)
Lemma loop_raises {S A : Type} (step : S -> A -> outcome S) (ok : A -> bool) :
  (forall s a, ok a = false -> returns (step s a) = false) ->
  forall (l : list A) (s : S),
    forallb ok l = false -> snd (loop step l s) <> None.
Proof.
  intros Hstep l; induction l as [|a l IH]; intros s Hok; [discriminate Hok|].
  cbn [forallb] in Hok. cbn [loop].
  destruct (step s a) as [s'|e] eqn:E; [|discriminate].
  destruct (ok a) eqn:Ha.
  - apply IH. exact Hok.
  - specialize (Hstep s a Ha). rewrite E in Hstep. discriminate Hstep.
Qed.

Lemma map_outcome_values (f : node -> outcome string) (l : list node)
    (values : list string) :
  map_outcome f l = Ok values -> values = map (fun a => returned (f a)) l.
Proof.
  revert values; induction l as [|a l IH]; intros values; cbn [map_outcome map].
  - now intros [= <-].
  - destruct (f a) as [b|e]; [|discriminate].
    destruct (map_outcome f l) as [bs|e]; [|discriminate].
    intros [= <-]. cbn [returned]. f_equal. now apply IH.
Qed.

Lemma map_outcome_returns (f : node -> outcome string) (l : list node) :
  forallb (fun a => returns (f a)) l = true ->
  map_outcome f l = Ok (map (fun a => returned (f a)) l).
Proof.
  induction l as [|a l IH]; [reflexivity|].
  cbn [forallb map_outcome map]. intros [Ha Hl]%andb_prop.
  rewrite (IH Hl). destruct (f a); [reflexivity|discriminate Ha].
Qed.

Lemma map_outcome_raises (f : node -> outcome string) (l : list node) :
  forallb (fun a => returns (f a)) l = false ->
  returns (map_outcome f l) = false.
Proof.
  induction l as [|a l IH]; [discriminate|].
  cbn [forallb map_outcome]. destruct (f a) as [b|e]; [|reflexivity].
  cbn [returns andb]. intros Hl. specialize (IH Hl).
  destruct (map_outcome f l); [discriminate IH|reflexivity].
Qed.

(** *** The regex fallback *)

Section Regex.
Variable lower : string -> string.
Variable finditer : string -> bool -> string -> list re_match.
Variables file_path content : string.

Lemma regex_note_set :
  note (_analyze_with_regex lower finditer file_path content) = Some regex_note.
Proof.
  unfold _analyze_with_regex.
  rewrite (fold_left_keeps (regex_class lower file_path) note) by reflexivity.
  rewrite (fold_left_keeps (regex_function lower file_path) note) by reflexivity.
  rewrite (fold_left_keeps regex_import note) by reflexivity.
  reflexivity.
Qed.

Lemma regex_file :
  file (_analyze_with_regex lower finditer file_path content) = file_path.
Proof.
  unfold _analyze_with_regex.
  rewrite (fold_left_keeps (regex_class lower file_path) file) by reflexivity.
  rewrite (fold_left_keeps (regex_function lower file_path) file) by reflexivity.
  rewrite (fold_left_keeps regex_import file) by reflexivity.
  reflexivity.
Qed.

Lemma regex_imports :
  imports (_analyze_with_regex lower finditer file_path content)
  = map regex_import_entry (finditer import_pattern true content).
Proof.
  unfold _analyze_with_regex.
  rewrite (fold_left_keeps (regex_class lower file_path) imports) by reflexivity.
  rewrite (fold_left_keeps (regex_function lower file_path) imports) by reflexivity.
  rewrite (fold_left_appends regex_import imports (fun m => [regex_import_entry m]))
    by reflexivity.
  apply flat_map_singleton.
Qed.

Lemma regex_functions :
  functions (_analyze_with_regex lower finditer file_path content)
  = map (fun m => named_entry (default "" (group m 1)) "function")
      (finditer func_pattern false content).
Proof.
  unfold _analyze_with_regex.
  rewrite (fold_left_keeps (regex_class lower file_path) functions) by reflexivity.
  rewrite (fold_left_appends (regex_function lower file_path) functions
             (fun m => [named_entry (default "" (group m 1)) "function"]))
    by reflexivity.
  rewrite (fold_left_keeps regex_import functions) by reflexivity.
  apply flat_map_singleton.
Qed.

Lemma regex_classes :
  classes (_analyze_with_regex lower finditer file_path content)
  = map (fun m => named_entry (default "" (group m 1)) "class")
      (finditer class_pattern false content).
Proof.
  unfold _analyze_with_regex.
  rewrite (fold_left_appends (regex_class lower file_path) classes
             (fun m => [named_entry (default "" (group m 1)) "class"]))
    by reflexivity.
  rewrite (fold_left_keeps (regex_function lower file_path) classes) by reflexivity.
  rewrite (fold_left_keeps regex_import classes) by reflexivity.
  apply flat_map_singleton.
Qed.

Lemma regex_variables :
  variables (_analyze_with_regex lower finditer file_path content) = [].
Proof.
  unfold _analyze_with_regex.
  rewrite (fold_left_keeps (regex_class lower file_path) variables) by reflexivity.
  rewrite (fold_left_keeps (regex_function lower file_path) variables) by reflexivity.
  rewrite (fold_left_keeps regex_import variables) by reflexivity.
  reflexivity.
Qed.

End Regex.

(** C6, as stated, fails: for a file that does not parse and in which
    none of the three patterns matches, such as [((], the result of the
    fallback has no function, no class and no import. *)
Lemma regex_result_can_be_empty :
  ~ (forall (lower : string -> string) (read_text : string -> outcome string)
            (ast_parse : string -> outcome node) (unparse : node -> outcome string)
            (finditer : string -> bool -> string -> list re_match)
            (categories : gmap string (list feature)) (file_path content : string)
            (e : exn),
        read_text file_path = Ok content ->
        ast_parse content = Raise e ->
        let result :=
          fst (analyze_python_file lower read_text ast_parse unparse finditer
                 categories file_path) in
        functions result <> [] \/ classes result <> [] \/ imports result <> []).
Proof.
  intros H.
  specialize (H lower (fun _ => Ok unbalanced_source)
                (fun _ => Raise (SyntaxError "'(' was never closed"))
                unparse_example finditer_nothing initial_categories "kawai.py"
                unbalanced_source (SyntaxError "'(' was never closed")
                eq_refl eq_refl).
  cbn zeta in H. destruct H as [H|[H|H]]; apply H; reflexivity.
Qed.

(** C6, amended.  When the content of a file does not parse, whichever
    exception the parser raises, the analyzer returns: its result is
    that of the regex fallback on the content and carries the [note] of
    a regex-derived result; its functions, classes and imports are the
    matches of the three patterns, one entry for each match in the order
    of the matches, so a list is empty when its pattern has no match;
    [self.categories] is left as it was. *)
Theorem parse_failure_falls_back_to_regex (lower : string -> string)
    (read_text : string -> outcome string) (ast_parse : string -> outcome node)
    (unparse : node -> outcome string)
    (finditer : string -> bool -> string -> list re_match)
    (categories : gmap string (list feature)) (file_path content : string) (e : exn) :
  read_text file_path = Ok content ->
  ast_parse content = Raise e ->
  let result :=
    analyze_python_file lower read_text ast_parse unparse finditer categories
      file_path in
  fst result = _analyze_with_regex lower finditer file_path content
  /\ snd result = categories
  /\ note (fst result) = Some "Regex-based analysis (file may be obfuscated)"
  /\ file (fst result) = file_path
  /\ functions (fst result)
     = map (fun m => {| f_name := Some (default "" (group m 1));
                        f_type := Some "function"; f_line := None;
                        f_detail := NoDetail |})
         (finditer "def\s+(\w+)\s*\(" false content)
  /\ classes (fst result)
     = map (fun m => {| f_name := Some (default "" (group m 1));
                        f_type := Some "class"; f_line := None;
                        f_detail := NoDetail |})
         (finditer "class\s+(\w+)" false content)
  /\ imports (fst result)
     = map (fun m => {| i_module := default "" (group_or (group m 1) (group m 2));
                        i_alias := None; i_type := "import" |})
         (finditer "^(?:from\s+(\S+)\s+)?import\s+(\S+)" true content)
  /\ (forall from_module name,
         from_module <> "" ->
         group_or (group [Some from_module; Some name] 1)
           (group [Some from_module; Some name] 2)
         = Some from_module)
  /\ (forall name, group_or (group [None; Some name] 1) (group [None; Some name] 2)
                   = Some name)
  /\ variables (fst result) = [].
Proof.
  intros Hread Hparse. cbn zeta.
  assert (Hresult : analyze_python_file lower read_text ast_parse unparse finditer
                      categories file_path
                    = (_analyze_with_regex lower finditer file_path content,
                       categories)).
  { unfold analyze_python_file. rewrite Hread, Hparse. destruct e; reflexivity. }
  rewrite Hresult. cbn [fst snd]. repeat split.
  - apply regex_note_set.
  - apply regex_file.
  - apply regex_functions.
  - apply regex_classes.
  - apply regex_imports.
  - intros [|c from_module] name Hmodule; [congruence|reflexivity].
  - apply regex_variables.
Qed.

Lemma parse_failure_falls_back_to_regex_witness :
  let result :=
    analyze_python_file lower (fun _ => Ok obfuscated_source)
      (fun _ => Raise (SyntaxError "invalid syntax")) unparse_example
      finditer_example initial_categories "kawai.py" in
  note (fst result) = Some regex_note
  /\ functions (fst result) = [named_entry "install_all" "function"]
  /\ bucket (fst result) "installation" = [named_entry "install_all" "function"].
Proof.
  pose proof (parse_failure_falls_back_to_regex lower (fun _ => Ok obfuscated_source)
                (fun _ => Raise (SyntaxError "invalid syntax")) unparse_example
                finditer_example initial_categories "kawai.py" obfuscated_source
                (SyntaxError "invalid syntax") eq_refl eq_refl)
    as (Hresult & _ & Hnote & _ & Hfunctions & _).
  cbn zeta. split; [exact Hnote|]. split; [exact Hfunctions|].
  rewrite Hresult. vm_compute. reflexivity.
Defined.

(** *** The walk over a parsed file *)

Lemma bucket_add_to_category (k c : string) (x : feature) (feats : features) :
  bucket (add_to_category k x feats) c
  = if decide (k = c) then bucket feats k ++ [x] else bucket feats c.
Proof.
  unfold bucket, add_to_category, bucket_append. cbn [features_by_category].
  rewrite lookup_insert. destruct (decide (k = c)); reflexivity.
Qed.

Lemma filter_snoc_false {A : Type} (p : A -> bool) (l : list A) (x : A) :
  p x = false -> List.filter p (l ++ [x]) = List.filter p l.
Proof. intros H. rewrite List.filter_app. simpl. rewrite H. apply app_nil_r. Qed.

Lemma filter_snoc_true {A : Type} (p : A -> bool) (l : list A) (x : A) :
  p x = true -> List.filter p (l ++ [x]) = List.filter p l ++ [x].
Proof. intros H. rewrite List.filter_app. simpl. rewrite H. reflexivity. Qed.

Lemma categorize_feature_label (lower : string -> string) (n t : string)
    (c : list (string * string)) :
  In (categorize_feature lower n t c) category_labels.
Proof.
  rewrite CategorizerFacts.categorize_feature_unfold.
  apply CategorizerFacts.first_matching_rule_label.
Qed.

Lemma has_every_label_lookup (categories : gmap string (list feature)) (c : string) :
  has_every_label categories = true ->
  In c category_labels ->
  exists l, categories !! c = Some l.
Proof.
  unfold has_every_label. rewrite forallb_forall. intros H Hc.
  specialize (H c Hc). destruct (categories !! c) as [l|]; [now exists l|discriminate].
Qed.

Lemma categories_append_returns (categories : gmap string (list feature))
    (k : string) (x : feature) :
  has_every_label categories = true ->
  In k category_labels ->
  exists categories',
    categories_append k x categories = Ok categories'
    /\ has_every_label categories' = true.
Proof.
  intros Hlabels Hk. unfold categories_append.
  destruct (has_every_label_lookup categories k Hlabels Hk) as [l ->].
  eexists. split; [reflexivity|].
  unfold has_every_label in *. rewrite forallb_forall in *. intros c Hc.
  rewrite lookup_insert. destruct (decide (k = c)); [reflexivity|].
  apply Hlabels. exact Hc.
Qed.

Lemma categories_append_lookup (categories categories' : gmap string (list feature))
    (k c : string) (x : feature) :
  categories_append k x categories = Ok categories' ->
  categories' !! c
  = (fun l => l ++ (if String.eqb k c then [x] else [])) <$> (categories !! c).
Proof.
  unfold categories_append. destruct (categories !! k) as [l|] eqn:Hk; [|discriminate].
  intros [= <-]. rewrite lookup_insert.
  destruct (decide (k = c)) as [<-|Hne].
  - rewrite Hk, String.eqb_refl. reflexivity.
  - apply String.eqb_neq in Hne. rewrite Hne.
    destruct (categories !! c); cbn; [now rewrite app_nil_r|reflexivity].
Qed.

(** The cases of one turn of the second walk that returns. *)
Ltac returned_step st node H :=
  destruct st as [feats categories];
  destruct node as [n| | | |]; [destruct n|..];
  cbn [feature_step] in H;
  repeat match type of H with
         | match ?x with _ => _ end = Ok _ =>
             let E := fresh "E" in destruct x eqn:E; [|discriminate H]
         end;
  injection H as <-.

Section PerFile.
Variable lower : string -> string.
Variable unparse : node -> outcome string.
Variable file_path : string.

Lemma assign_target_variables (lineno : Z) (feats : features) (target : node) :
  variables (assign_target lower file_path lineno feats target)
  = variables feats ++ target_variables lineno target.
Proof.
  destruct target; try (symmetry; apply app_nil_r).
  cbn [assign_target target_variables].
  destruct (3 <? len id); [|reflexivity].
  destruct (negb _); reflexivity.
Qed.

Lemma assign_target_bucket (c : string) (lineno : Z) (feats : features)
    (target : node) :
  List.filter is_variable (bucket (assign_target lower file_path lineno feats target) c)
  = List.filter is_variable (bucket feats c)
    ++ List.filter (categorized_in lower file_path c) (target_variables lineno target).
Proof.
  destruct target; try (symmetry; apply app_nil_r).
  cbn [assign_target target_variables List.filter].
  unfold categorized_in at 1. cbn [f_name var_info].
  destruct (3 <? len id); cbn [andb]; [|symmetry; apply app_nil_r].
  destruct (String.eqb_spec
              (categorize_feature lower id "variable" (file_context file_path)) c)
    as [->|Hne]; cbn [andb].
  - destruct (negb (String.eqb c "utilities")).
    + rewrite bucket_add_to_category. destruct (decide (c = c)); [|congruence].
      apply filter_snoc_true. reflexivity.
    + symmetry. apply app_nil_r.
  - rewrite app_nil_r. destruct (negb _); [|reflexivity].
    rewrite bucket_add_to_category.
    destruct (decide _); [congruence|reflexivity].
Qed.

Lemma feature_step_variables (st st' : features * gmap string (list feature))
    (node : ast) :
  feature_step lower unparse file_path st node = Ok st' ->
  variables (fst st') = variables (fst st) ++ assigned_variables node.
Proof.
  intros H. returned_step st node H; cbn [fst assigned_variables];
    try (symmetry; apply app_nil_r).
  apply (fold_left_appends (assign_target lower file_path lineno) variables
           (target_variables lineno)).
  intros s a. apply assign_target_variables.
Qed.

Lemma feature_step_bucket (c : string) (st st' : features * gmap string (list feature))
    (node : ast) :
  feature_step lower unparse file_path st node = Ok st' ->
  List.filter is_variable (bucket (fst st') c)
  = List.filter is_variable (bucket (fst st) c)
    ++ List.filter (categorized_in lower file_path c) (assigned_variables node).
Proof.
  intros H. returned_step st node H; cbn [fst assigned_variables List.filter];
    try (symmetry; apply app_nil_r).
  - rewrite app_nil_r, bucket_add_to_category.
    destruct (decide _) as [<-|]; [|reflexivity].
    now rewrite filter_snoc_false.
  - rewrite app_nil_r, bucket_add_to_category.
    destruct (decide _) as [<-|]; [|reflexivity].
    now rewrite filter_snoc_false.
  - rewrite filter_flat_map.
    apply (fold_left_appends (assign_target lower file_path lineno)
             (fun feats => List.filter is_variable (bucket feats c))
             (fun target => List.filter (categorized_in lower file_path c)
                              (target_variables lineno target))).
    intros s a. apply assign_target_bucket.
Qed.

Lemma import_step_variables (feats : features) (node : ast) :
  variables (import_step feats node) = variables feats.
Proof.
  destruct node as [n| | | |]; try reflexivity.
  destruct n; try reflexivity; cbn [import_step];
    now rewrite (fold_left_keeps _ variables).
Qed.

Lemma import_step_buckets (feats : features) (node : ast) :
  features_by_category (import_step feats node) = features_by_category feats.
Proof.
  destruct node as [n| | | |]; try reflexivity.
  destruct n; try reflexivity; cbn [import_step];
    now rewrite (fold_left_keeps _ features_by_category).
Qed.

(** A turn returns when [ast.unparse] does and the category is a key. *)
Lemma feature_step_returns (st : features * gmap string (list feature)) (node : ast) :
  has_every_label (snd st) = true ->
  unparse_returns unparse node = true ->
  exists st',
    feature_step lower unparse file_path st node = Ok st'
    /\ has_every_label (snd st') = true.
Proof.
  destruct st as [feats categories]. cbn [snd]. intros Hlabels Hunparse.
  destruct node as [n| | | |]; try (now exists (feats, categories)).
  destruct n; try (now exists (feats, categories)); cbn [feature_step].
  - cbn [unparse_returns] in Hunparse. rewrite (map_outcome_returns _ _ Hunparse).
    match goal with
    | |- context [categories_append ?k ?x categories] =>
        destruct (categories_append_returns categories k x Hlabels
                    (categorize_feature_label lower _ _ _)) as (cats' & -> & Hlabels')
    end.
    eexists. split; [reflexivity|exact Hlabels'].
  - cbn [unparse_returns] in Hunparse. rewrite (map_outcome_returns _ _ Hunparse).
    match goal with
    | |- context [categories_append ?k ?x categories] =>
        destruct (categories_append_returns categories k x Hlabels
                    (categorize_feature_label lower _ _ _)) as (cats' & -> & Hlabels')
    end.
    eexists. split; [reflexivity|exact Hlabels'].
  - eexists. split; [reflexivity|exact Hlabels].
Qed.

(** A turn raises when [ast.unparse] does. *)
Lemma feature_step_raises (st : features * gmap string (list feature)) (node : ast) :
  unparse_returns unparse node = false ->
  returns (feature_step lower unparse file_path st node) = false.
Proof.
  destruct st as [feats categories].
  destruct node as [n| | | |]; try discriminate.
  destruct n; try discriminate; cbn [unparse_returns feature_step]; intros Hunparse;
    pose proof (map_outcome_raises unparse _ Hunparse) as Hraise;
    (destruct (map_outcome unparse _); [discriminate Hraise|reflexivity]).
Qed.

End PerFile.

Section Parsed.
Variable lower : string -> string.
Variable read_text : string -> outcome string.
Variable ast_parse : string -> outcome node.
Variable unparse : node -> outcome string.
Variable finditer : string -> bool -> string -> list re_match.
Variable categories : gmap string (list feature).
Variables file_path content : string.
Variable tree : node.
Hypothesis Hread : read_text file_path = Ok content.
Hypothesis Hparse : ast_parse content = Ok tree.

Lemma second_walk_returns :
  forallb (unparse_returns unparse) (walk tree) = true ->
  has_every_label categories = true ->
  snd (second_walk lower unparse file_path categories tree) = None.
Proof.
  intros Hunparse Hlabels. unfold second_walk.
  apply (loop_returns (feature_step lower unparse file_path)
           (fun st => has_every_label (snd st) = true) (unparse_returns unparse)).
  - intros s a. apply feature_step_returns.
  - exact Hlabels.
  - exact Hunparse.
Qed.

Lemma second_walk_raises :
  forallb (unparse_returns unparse) (walk tree) = false ->
  snd (second_walk lower unparse file_path categories tree) <> None.
Proof.
  intros Hunparse. unfold second_walk.
  apply (loop_raises (feature_step lower unparse file_path) (unparse_returns unparse)).
  - intros s a. apply feature_step_raises.
  - exact Hunparse.
Qed.

(** The result of the analysis when the walk runs to its end. *)
Lemma analyze_python_file_walked :
  snd (second_walk lower unparse file_path categories tree) = None ->
  analyze_python_file lower read_text ast_parse unparse finditer categories file_path
  = fst (second_walk lower unparse file_path categories tree).
Proof.
  unfold analyze_python_file, Sensai.second_walk. rewrite Hread, Hparse.
  destruct (loop _ _ _) as [[feats cats] [e|]]; [discriminate|reflexivity].
Qed.

(** And when an exception ends the walk. *)
Lemma analyze_python_file_stopped :
  snd (second_walk lower unparse file_path categories tree) <> None ->
  analyze_python_file lower read_text ast_parse unparse finditer categories file_path
  = (_analyze_with_regex lower finditer file_path content,
     snd (fst (second_walk lower unparse file_path categories tree))).
Proof.
  unfold analyze_python_file, Sensai.second_walk. rewrite Hread, Hparse.
  destruct (loop _ _ _) as [[feats cats] [e|]]; [reflexivity|].
  intros Hsome. exfalso. apply Hsome. reflexivity.
Qed.

Lemma analyze_python_file_ok :
  forallb (unparse_returns unparse) (walk tree) = true ->
  has_every_label categories = true ->
  snd (second_walk lower unparse file_path categories tree) = None
  /\ analyze_python_file lower read_text ast_parse unparse finditer categories
       file_path
     = fst (second_walk lower unparse file_path categories tree).
Proof.
  intros Hunparse Hlabels.
  pose proof (second_walk_returns Hunparse Hlabels) as Hnone.
  split; [exact Hnone|apply analyze_python_file_walked; exact Hnone].
Qed.

End Parsed.




End SensaiFacts.

Module ReportFacts.
Import PyStr ReportSpec.

Lemma append_assoc (a b c : string) : (a +:+ b) +:+ c = a +:+ (b +:+ c).
Proof.
  induction a as [|x a IH]; [reflexivity|].
  change (String x ((a +:+ b) +:+ c) = String x (a +:+ (b +:+ c))).
  now f_equal.
Qed.

Lemma append_nil_r (a : string) : a +:+ "" = a.
Proof.
  induction a as [|x a IH]; [reflexivity|].
  change (String x (a +:+ "") = String x a). now f_equal.
Qed.

Lemma join_lines_app (l1 l2 : list string) :
  join_lines (l1 ++ l2) = join_lines l1 +:+ join_lines l2.
Proof.
  induction l1 as [|x l1 IH]; simpl; [reflexivity|].
  now rewrite IH, append_assoc.
Qed.

(** Appending line after line is appending the lines' concatenation. *)
Lemma fold_left_lines {A : Type} (add : string -> A -> string) (line : A -> string) :
  (forall text x, add text x = text +:+ line x) ->
  forall (items : list A) (text : string),
    fold_left add items text = text +:+ join_lines (map line items).
Proof.
  intros Hadd items; induction items as [|x items IH]; intros text; simpl.
  - symmetry. apply append_nil_r.
  - now rewrite IH, Hadd, append_assoc.
Qed.

Lemma add_feature_line_appends (memory_content : string) (feature : Sensai.feature) :
  Sensai.add_feature_line memory_content feature
  = memory_content +:+ Sensai.feature_line feature.
Proof.
  unfold Sensai.add_feature_line, Sensai.feature_line.
  destruct (Sensai.f_line feature); rewrite ?append_assoc; reflexivity.
Qed.

Lemma add_item_line_appends (memory_content : string) (it : Enhanced.item) :
  Enhanced.add_item_line memory_content it = memory_content +:+ Enhanced.item_line it.
Proof. reflexivity. Qed.

Lemma section_lines_join {A : Type} (n : nat) (line : A -> string)
    (elision : nat -> string) (items : list A) :
  join_lines (section_lines n line elision items)
  = join_lines (map line (take n items))
    +:+ (if n <? length items then elision (length items - n) else "").
Proof.
  unfold section_lines. rewrite join_lines_app.
  destruct (n <? length items); simpl; [now rewrite append_nil_r|reflexivity].
Qed.

(** C8.  A category section of either report is its header, the lines
    of the group's first N items (N = 10 in [write_to_serena], N = 5 in
    [write_enhanced_to_serena]), the elision line
    [- ... and K more], and a blank line; the elision line is there
    when the group has more than N items, with K the group's size minus
    N, and only then. *)
Theorem sections_show_first_items_and_elide {A : Type}
    (categories : gmap string (list Sensai.feature)) (memory_content category : string)
    (count : Z) (features : list Sensai.feature) (items : list Enhanced.item)
    (n : nat) (line : A -> string) (elision : nat -> string) (group : list A) :
  ((0 < count)%Z ->
   categories !! category = Some features ->
   Sensai.add_category_section categories memory_content (category, count)
   = memory_content
     +:+ ("### " +:+ title (replace "_" " " category) +:+ " (" +:+ pretty count
          +:+ " features)" +:+ nl +:+ nl)
     +:+ join_lines
           (section_lines 10 Sensai.feature_line
              (fun k => "- ... and " +:+ pretty k +:+ " more" +:+ nl) features)
     +:+ nl)
  /\ Enhanced.add_category_section memory_content (category, items)
     = memory_content
       +:+ ("### " +:+ title (replace "_" " " category) +:+ " ("
            +:+ pretty (length items) +:+ " items)" +:+ nl +:+ nl)
       +:+ join_lines
             (section_lines 5 Enhanced.item_line
                (fun k => "- ... and " +:+ pretty k +:+ " more" +:+ nl) items)
       +:+ nl
  /\ length (map line (take n group)) <= n
  /\ (n < length group ->
      section_lines n line elision group
      = map line (take n group) ++ [elision (length group - n)])
  /\ (length group <= n ->
      section_lines n line elision group = map line group).
Proof.
  split; [|split; [|split; [|split]]].
  - intros Hcount Hgroup. unfold Sensai.add_category_section.
    apply Z.ltb_lt in Hcount. rewrite Hcount, Hgroup.
    rewrite (fold_left_lines Sensai.add_feature_line Sensai.feature_line
               add_feature_line_appends).
    rewrite section_lines_join.
    unfold Sensai.section_header, Sensai.elision_line.
    destruct (10 <? length features); rewrite ?append_assoc, ?append_nil_r;
      reflexivity.
  - unfold Enhanced.add_category_section.
    rewrite (fold_left_lines Enhanced.add_item_line Enhanced.item_line
               add_item_line_appends).
    rewrite section_lines_join.
    unfold Enhanced.section_header, Enhanced.elision_line.
    destruct (5 <? length items); rewrite ?append_assoc, ?append_nil_r;
      reflexivity.
  - rewrite length_map, length_take. lia.
  - intros Hlt. unfold section_lines.
    apply Nat.ltb_lt in Hlt. now rewrite Hlt.
  - intros Hle. unfold section_lines.
    apply Nat.ltb_ge in Hle. rewrite Hle, app_nil_r.
    apply Nat.ltb_ge in Hle. now rewrite take_ge.
Qed.

Lemma sections_show_first_items_and_elide_witness :
  Sensai.add_category_section {[ "installation" := Sensai.eleven_features ]} ""
    ("installation", 11%Z)
  = "### Installation (11 features)" +:+ nl +:+ nl
    +:+ join_lines (map Sensai.feature_line (take 10 Sensai.eleven_features))
    +:+ "- ... and 1 more" +:+ nl
    +:+ nl
  /\ section_lines 5 Enhanced.item_line
       (fun k => "- ... and " +:+ pretty k +:+ " more" +:+ nl)
       [Enhanced.ItemStr "edge-tts"; Enhanced.ItemStr "requests"]
     = ["- edge-tts" +:+ nl; "- requests" +:+ nl].
Proof.
  pose proof (sections_show_first_items_and_elide
                {[ "installation" := Sensai.eleven_features ]} "" "installation"
                11%Z Sensai.eleven_features [] 10 Sensai.feature_line
                (fun k => "- ... and " +:+ pretty k +:+ " more" +:+ nl)
                Sensai.eleven_features)
    as (Hsection & _ & _ & Helided & _).
  pose proof (sections_show_first_items_and_elide
                {[ "installation" := Sensai.eleven_features ]} "" "installation"
                11%Z Sensai.eleven_features [] 5 Enhanced.item_line
                (fun k => "- ... and " +:+ pretty k +:+ " more" +:+ nl)
                [Enhanced.ItemStr "edge-tts"; Enhanced.ItemStr "requests"])
    as (_ & _ & _ & _ & Hwhole).
  split.
  - rewrite (Hsection eq_refl eq_refl).
    rewrite (Helided ltac:(vm_compute; lia)). vm_compute. reflexivity.
  - rewrite (Hwhole ltac:(vm_compute; lia)). reflexivity.
Defined.

End ReportFacts.

Module ExtractKnowledgeMore.
Import PyStr Ast AstSum Facts ExtractKnowledge Vocabulary.
Import AstFacts AstSumFacts ListFacts.

Lemma analyze_file_quads (read_text : string -> outcome string)
    (ast_parse : string -> outcome node) (file_path : string) :
  quads (analyze_file read_text ast_parse file_path)
  = extract_quads_from_relationships
      (ExtractKnowledge.triples (analyze_file read_text ast_parse file_path))
      file_path.
Proof.
  unfold analyze_file. destruct (read_text file_path) as [content|e]; [|reflexivity].
  destruct (ast_parse content); reflexivity.
Qed.

(** The triples of a file all come from a node, whether or not the
    analysis went through. *)
Lemma analyze_file_triples_from_nodes (read_text : string -> outcome string)
    (ast_parse : string -> outcome node) (file_path : string) (P : triple -> Prop) :
  (forall node, Forall P (extract_triples_from_ast node file_path)) ->
  Forall P (ExtractKnowledge.triples (analyze_file read_text ast_parse file_path)).
Proof.
  intros Hnode. unfold analyze_file.
  destruct (read_text file_path) as [content|e]; [|constructor].
  destruct (ast_parse content) as [tree|e]; [|constructor].
  cbn [ExtractKnowledge.triples].
  rewrite (fold_left_app_flat_map (fun node => extract_triples_from_ast node file_path)).
  cbn [app]. apply List.Forall_flat_map. apply List.Forall_forall. intros node _.
  apply Hnode.
Qed.

Lemma sum_counts_flat_map {A : Type} (f : A -> ExtractKnowledge.file_result)
    (count : ExtractKnowledge.file_result -> nat) (l : list A) :
  list_sum (map (fun x => count (f x)) l) = list_sum (map count (map f l)).
Proof. now rewrite map_map. Qed.

(** X1.  Whatever the files hold, the run's totals agree with its
    per-file entries: every entry counts as many quads as triples, the
    triples of the run number the sum of the entries' triple counts, and
    there are as many quads as triples. *)
Theorem run_totals_match_entries (read_text : string -> outcome string)
    (ast_parse : string -> outcome node) (path_exists : string -> bool)
    (python_files : list string) :
  let run := analyze_all read_text ast_parse path_exists python_files in
  Forall (fun entry => triple_count entry = quad_count entry) (files_analyzed run)
  /\ length (r_triples run) = list_sum (map triple_count (files_analyzed run))
  /\ length (r_quads run) = length (r_triples run).
Proof.
  cbn zeta. unfold analyze_all.
  rewrite (ExtractKnowledgeFacts.analyze_fold read_text ast_parse path_exists).
  cbn [r_triples r_quads files_analyzed app].
  assert (Hlen : forall f,
             length (quads (analyze_file read_text ast_parse f))
             = length (ExtractKnowledge.triples (analyze_file read_text ast_parse f))).
  { intros f. rewrite analyze_file_quads. apply length_map. }
  split; [|split].
  - apply List.Forall_forall. intros entry [f [<- _]]%in_map_iff.
    unfold file_entry_of. cbn. symmetry. apply Hlen.
  - rewrite length_flat_map, map_map. reflexivity.
  - rewrite !length_flat_map. f_equal. apply map_ext. intros f. apply Hlen.
Qed.

(** Each fact of a node has the file as context and a predicate of the
    vocabulary, under that predicate's graph label. *)
Lemma node_facts_in_vocabulary (node : ast) (file_path : string) :
  Forall (fun t => context t = Some file_path
                   /\ exists g, graph t = Some g
                                /\ in_vocabulary (predicate t) g = true)
    (extract_triples_from_ast node file_path).
Proof.
  assert (Hmk : forall s p o g,
             in_vocabulary p g = true ->
             context (mk_triple s p o file_path g) = Some file_path
             /\ exists g', graph (mk_triple s p o file_path g) = Some g'
                           /\ in_vocabulary (predicate (mk_triple s p o file_path g)) g'
                              = true)
    by (intros; split; [reflexivity|eexists; split; [reflexivity|assumption]]).
  apply List.Forall_forall. intros t.
  destruct node as [n| | | |]; try contradiction.
  destruct n; try contradiction; cbn [extract_triples_from_ast].
  - intros [<-|[a [<- _]]%in_map_iff]; apply Hmk; reflexivity.
  - intros [<-|[base [_ Ht]]%in_flat_map]; [apply Hmk; reflexivity|].
    destruct base; try contradiction. destruct Ht as [<-|[]].
    apply Hmk; reflexivity.
  - intros [a [<- _]]%in_map_iff. apply Hmk; reflexivity.
  - destruct module as [m|]; [|contradiction].
    destruct (negb (String.eqb m "")); [|contradiction].
    intros [a [<- _]]%in_map_iff. apply Hmk; reflexivity.
  - intros [target [_ Ht]]%in_flat_map.
    destruct target; try contradiction. destruct Ht as [<-|[]].
    apply Hmk; reflexivity.
  - destruct n; try contradiction. intros [<-|[]]. apply Hmk; reflexivity.
Qed.

(** X2.  The analysis of a file keeps to a closed vocabulary: each of
    its triples has the file's path as context and one of the seven
    predicates with that predicate's graph label, and each of its quads
    has the path as context and a graph label of the vocabulary, never
    the fallback label ["default"]. *)
Theorem analysis_keeps_to_vocabulary (read_text : string -> outcome string)
    (ast_parse : string -> outcome node) (file_path : string) :
  let result := analyze_file read_text ast_parse file_path in
  Forall (fun t => context t = Some file_path
                   /\ exists g, graph t = Some g
                                /\ in_vocabulary (predicate t) g = true)
    (ExtractKnowledge.triples result)
  /\ Forall (fun q => q_context q = file_path
                      /\ in_vocabulary (q_predicate q) (q_graph q) = true
                      /\ q_graph q <> "default")
       (quads result).
Proof.
  cbn zeta.
  pose proof (analyze_file_triples_from_nodes read_text ast_parse file_path _
                (fun node => node_facts_in_vocabulary node file_path)) as Htriples.
  split; [exact Htriples|].
  rewrite analyze_file_quads. unfold extract_quads_from_relationships.
  apply List.Forall_map. revert Htriples. apply List.Forall_impl.
  intros t (Hcontext & g & Hgraph & Hvoc). cbn. rewrite Hcontext, Hgraph. cbn.
  repeat split; [exact Hvoc|]. intros ->.
  unfold in_vocabulary, vocabulary in Hvoc. cbn in Hvoc.
  rewrite !andb_false_r in Hvoc. discriminate Hvoc.
Qed.

End ExtractKnowledgeMore.

Module ExtractKnowledgeCounts.
Import PyStr Ast AstSum Facts ExtractKnowledge Vocabulary.
Import AstFacts AstSumFacts ListFacts.

(** Counting the facts a selector picks, node by node over the tree. *)
Lemma selected_facts_count (read_text : string -> outcome string)
    (ast_parse : string -> outcome node) (file_path content : string) (tree : node)
    (select : triple -> bool) (weight : ast -> nat) :
  read_text file_path = Ok content ->
  ast_parse content = Ok tree ->
  (forall node,
      length (List.filter select (extract_triples_from_ast node file_path))
      = weight node) ->
  length (List.filter select
            (ExtractKnowledge.triples (analyze_file read_text ast_parse file_path)))
  = node_sum weight tree.
Proof.
  intros Hread Hparse Hnode.
  rewrite (ExtractKnowledgeFacts.analyze_file_ok _ _ _ _ _ Hread Hparse).
  rewrite filter_flat_map, length_flat_map.
  rewrite (map_ext _ weight) by exact Hnode.
  apply walk_tree_sum.
Qed.

Lemma filter_map_all {A B : Type} (p : B -> bool) (f : A -> B) (l : list A) :
  (forall x, p (f x) = true) -> List.filter p (map f l) = map f l.
Proof.
  intros H. induction l as [|x l IH]; simpl; [reflexivity|].
  now rewrite H, IH.
Qed.

Lemma class_facts_of_node (node : ast) (file_path : string) :
  length (List.filter (has_predicate_object "is_a" "class")
            (extract_triples_from_ast node file_path))
  = if is_class_def node then 1 else 0.
Proof.
  destruct node as [n| | | |]; try reflexivity.
  destruct n; try reflexivity; cbn [extract_triples_from_ast is_class_def].
  - rewrite filter_none; [reflexivity|].
    intros t [<-|[a [<- _]]%in_map_iff]; reflexivity.
  - cbn [List.filter].
    change (has_predicate_object "is_a" "class"
              (mk_triple name "is_a" "class" file_path "code_structure")) with true.
    cbn iota. cbn [length]. f_equal. rewrite (filter_none _ (flat_map _ _)); [reflexivity|].
    intros t [base [_ Ht]]%in_flat_map.
    destruct base; try contradiction. destruct Ht as [<-|[]]. reflexivity.
  - rewrite filter_map_none; reflexivity.
  - destruct module as [m|]; [|reflexivity].
    destruct (negb (String.eqb m "")); [|reflexivity].
    rewrite filter_map_none; reflexivity.
  - rewrite filter_none; [reflexivity|].
    intros t [target [_ Ht]]%in_flat_map.
    destruct target; try contradiction. destruct Ht as [<-|[]]. reflexivity.
  - destruct n; reflexivity.
Qed.

Lemma call_facts_of_node (node : ast) (file_path : string) :
  length (List.filter (has_predicate "calls")
            (extract_triples_from_ast node file_path))
  = if is_name_call node then 1 else 0.
Proof.
  destruct node as [n| | | |]; try reflexivity.
  destruct n; try reflexivity; cbn [extract_triples_from_ast is_name_call].
  - rewrite filter_none; [reflexivity|].
    intros t [<-|[a [<- _]]%in_map_iff]; reflexivity.
  - rewrite filter_none; [reflexivity|].
    intros t [<-|[base [_ Ht]]%in_flat_map]; [reflexivity|].
    destruct base; try contradiction. destruct Ht as [<-|[]]. reflexivity.
  - rewrite filter_map_none; reflexivity.
  - destruct module as [m|]; [|reflexivity].
    destruct (negb (String.eqb m "")); [|reflexivity].
    rewrite filter_map_none; reflexivity.
  - rewrite filter_none; [reflexivity|].
    intros t [target [_ Ht]]%in_flat_map.
    destruct target; try contradiction. destruct Ht as [<-|[]]. reflexivity.
  - destruct n; reflexivity.
Qed.

Lemma parameter_facts_of_node (node : ast) (file_path : string) :
  length (List.filter (has_predicate "has_parameter")
            (extract_triples_from_ast node file_path))
  = plain_parameters node.
Proof.
  destruct node as [n| | | |]; try reflexivity.
  destruct n; try reflexivity; cbn [extract_triples_from_ast plain_parameters].
  - cbn [List.filter].
    change (has_predicate "has_parameter"
              (mk_triple name "is_a" "function" file_path "code_structure")) with false.
    cbn iota. rewrite filter_map_all by reflexivity. apply length_map.
  - rewrite filter_none; [reflexivity|].
    intros t [<-|[base [_ Ht]]%in_flat_map]; [reflexivity|].
    destruct base; try contradiction. destruct Ht as [<-|[]]. reflexivity.
  - rewrite filter_map_none; reflexivity.
  - destruct module as [m|]; [|reflexivity].
    destruct (negb (String.eqb m "")); [|reflexivity].
    rewrite filter_map_none; reflexivity.
  - rewrite filter_none; [reflexivity|].
    intros t [target [_ Ht]]%in_flat_map.
    destruct target; try contradiction. destruct Ht as [<-|[]]. reflexivity.
  - destruct n; reflexivity.
Qed.

(** X3.  For a file that is read and parsed, the facts with predicate
    [is_a] and object [class] number the class definitions of the tree,
    nested ones included. *)
Theorem class_facts_count (read_text : string -> outcome string)
    (ast_parse : string -> outcome node) (file_path content : string) (tree : node) :
  read_text file_path = Ok content ->
  ast_parse content = Ok tree ->
  length (List.filter (has_predicate_object "is_a" "class")
            (ExtractKnowledge.triples (analyze_file read_text ast_parse file_path)))
  = count_nodes is_class_def tree.
Proof.
  intros Hread Hparse.
  apply (selected_facts_count _ _ _ _ _ _ _ Hread Hparse).
  intros node. apply class_facts_of_node.
Qed.

Lemma class_facts_count_witness :
  length (List.filter (has_predicate_object "is_a" "class")
            (ExtractKnowledge.triples
               (analyze_file (fun _ => Ok nested_source) (fun _ => Ok nested_tree)
                  "nested.py")))
  = 1.
Proof.
  exact (class_facts_count (fun _ => Ok nested_source) (fun _ => Ok nested_tree)
           "nested.py" nested_source nested_tree eq_refl eq_refl).
Defined.

(** X4.  For a file that is read and parsed, the [calls] facts number
    the call nodes whose callee is a bare name; a call through an
    attribute, a subscript or any other expression leaves no fact. *)
Theorem call_facts_count (read_text : string -> outcome string)
    (ast_parse : string -> outcome node) (file_path content : string) (tree : node) :
  read_text file_path = Ok content ->
  ast_parse content = Ok tree ->
  length (List.filter (has_predicate "calls")
            (ExtractKnowledge.triples (analyze_file read_text ast_parse file_path)))
  = count_nodes is_name_call tree.
Proof.
  intros Hread Hparse.
  apply (selected_facts_count _ _ _ _ _ _ _ Hread Hparse).
  intros node. apply call_facts_of_node.
Qed.

Lemma call_facts_count_witness :
  length (List.filter (has_predicate "calls")
            (ExtractKnowledge.triples
               (analyze_file (fun _ => Ok "") (fun _ => Ok calls_tree) "calls.py")))
  = 1.
Proof.
  exact (call_facts_count (fun _ => Ok "") (fun _ => Ok calls_tree)
           "calls.py" "" calls_tree eq_refl eq_refl).
Defined.

(** X5.  For a file that is read and parsed, the [has_parameter] facts
    number the positional-or-keyword parameters of its function
    definitions; positional-only and keyword-only parameters, [*args]
    and [**kwargs] leave no fact. *)
Theorem parameter_facts_count (read_text : string -> outcome string)
    (ast_parse : string -> outcome node) (file_path content : string) (tree : node) :
  read_text file_path = Ok content ->
  ast_parse content = Ok tree ->
  length (List.filter (has_predicate "has_parameter")
            (ExtractKnowledge.triples (analyze_file read_text ast_parse file_path)))
  = node_sum plain_parameters tree.
Proof.
  intros Hread Hparse.
  apply (selected_facts_count _ _ _ _ _ _ _ Hread Hparse).
  intros node. apply parameter_facts_of_node.
Qed.

Lemma parameter_facts_count_witness :
  map object
    (List.filter (has_predicate "has_parameter")
       (ExtractKnowledge.triples
          (analyze_file (fun _ => Ok "") (fun _ => Ok calls_tree) "calls.py")))
  = ["b"]
  /\ length (List.filter (has_predicate "has_parameter")
               (ExtractKnowledge.triples
                  (analyze_file (fun _ => Ok "") (fun _ => Ok calls_tree) "calls.py")))
     = 1.
Proof.
  split; [reflexivity|].
  exact (parameter_facts_count (fun _ => Ok "") (fun _ => Ok calls_tree)
           "calls.py" "" calls_tree eq_refl eq_refl).
Defined.

End ExtractKnowledgeCounts.

Module SymbolTriplesFacts.
Import PyStr Facts SymbolTriples.

(** A location without a usable line is no location: the test on the
    dict adds nothing to the test on the line. *)
Lemma location_test_redundant (location : gmap string Z) :
  dict_truthy location && negb (default 0%Z (location !! "line") =? 0)%Z
  = negb (default 0%Z (location !! "line") =? 0)%Z.
Proof.
  unfold dict_truthy. destruct (bool_decide_reflect (location = ∅)) as [->|_].
  - rewrite lookup_empty. reflexivity.
  - reflexivity.
Qed.

(** X6.  A symbol record without a name, or with an empty one, yields
    no triple.  Otherwise the triples are at most three, each with the
    symbol's name as subject; the [located_at] triple is there exactly
    when the record's location has a [line] that is not 0; and a record
    with a name, a kind and such a line, in a file with a name, yields
    [is_a], [defined_in] and [located_at] in this order. *)
Theorem symbol_triples_shape (info : symbol_info) (file_path context : string) :
  let triples := extract_triples_from_symbol info file_path context in
  let name := default "" (sym_name info) in
  (name = "" -> triples = [])
  /\ length triples <= 3
  /\ Forall (fun t => subject t = name) triples
  /\ existsb (fun t => String.eqb (predicate t) "located_at") triples
     = truthy name && negb (symbol_line info =? 0)%Z
  /\ (name <> "" ->
      default "" (sym_kind info) <> "" ->
      file_path <> "" ->
      symbol_line info <> 0%Z ->
      triples
      = [ {| subject := name; predicate := "is_a";
             object := default "" (sym_kind info);
             context := Some file_path; graph := Some context |};
          {| subject := name; predicate := "defined_in"; object := file_path;
             context := Some context; graph := Some "code_structure" |};
          {| subject := name; predicate := "located_at";
             object := file_path +:+ ":" +:+ pretty (symbol_line info);
             context := Some context; graph := Some "code_structure" |} ]).
Proof.
  cbn zeta. unfold extract_triples_from_symbol, symbol_line.
  set (name := default "" (sym_name info)).
  set (kind := default "" (sym_kind info)).
  set (location := default ∅ (sym_location info)).
  set (line := default 0%Z (location !! "line")).
  pose proof (location_test_redundant location) as Hloc. fold line in Hloc.
  destruct name as [|c name'] eqn:Hname; cbn [truthy andb app].
  { repeat split; try (cbn; lia); try constructor; intros H; now destruct H. }
  destruct (dict_truthy location); cbn [andb] in Hloc |- *;
    destruct (negb (line =? 0)%Z) eqn:Hline; try discriminate Hloc;
    destruct (truthy kind) eqn:Hkind, (truthy file_path) eqn:Hpath;
    cbn [app existsb predicate length];
    (split; [discriminate|]); (split; [lia|]); (split; [repeat constructor|]);
    (split; [reflexivity|]);
    intros _ Hk Hp Hl;
    try reflexivity;
    try (destruct kind; [now destruct Hk|discriminate Hkind]);
    try (destruct file_path; [now destruct Hp|discriminate Hpath]);
    try (apply negb_false_iff, Z.eqb_eq in Hline; now destruct Hl).
Qed.

Lemma symbol_triples_shape_witness :
  extract_triples_from_symbol
    {| sym_name := None; sym_kind := Some "function";
       sym_location := Some {[ "line" := 12%Z ]} |} "kawai.py" "symbols"
  = []
  /\ map object (extract_triples_from_symbol main_symbol "kawai.py" "symbols")
     = ["function"; "kawai.py"; "kawai.py:12"].
Proof.
  split.
  - apply (symbol_triples_shape
             {| sym_name := None; sym_kind := Some "function";
                sym_location := Some {[ "line" := 12%Z ]} |} "kawai.py" "symbols").
    reflexivity.
  - rewrite (proj2 (proj2 (proj2 (proj2
               (symbol_triples_shape main_symbol "kawai.py" "symbols")))));
      [reflexivity|discriminate|discriminate|discriminate|].
    vm_compute. discriminate.
Defined.

End SymbolTriplesFacts.

Module AnalyzeKawaiigptMore.
Import PyStr Facts AnalyzeKawaiigpt ListFacts.

(** X7.  The quads of a list of reference records number twice the
    records that have a non-empty name when the source symbol is not
    empty, and none at all when it is empty; each carries the caller's
    context. *)
Theorem reference_quads_count (references : list reference)
    (source_symbol file_path context : string) :
  let quads :=
    extract_quads_from_references references source_symbol file_path context in
  length quads
  = (if truthy source_symbol
     then 2 * length (List.filter (fun ref => truthy (default "" (ref_name ref)))
                        references)
     else 0)
  /\ Forall (fun q => q_context q = context) quads.
Proof.
  cbn zeta. unfold extract_quads_from_references.
  rewrite AnalyzeKawaiigptFacts.fold_add_reference. cbn [app]. split.
  - induction references as [|ref refs IH]; cbn [flat_map List.filter].
    + now destruct (truthy source_symbol).
    + rewrite length_app, IH. unfold quads_of_reference at 1.
      destruct (truthy (default "" (ref_name ref))), (truthy source_symbol);
        cbn [andb length]; lia.
  - apply List.Forall_flat_map. apply List.Forall_forall. intros ref _.
    unfold quads_of_reference, mirrored.
    destruct (truthy _ && truthy _); repeat constructor.
Qed.

End AnalyzeKawaiigptMore.

Module SensaiMore.
Import PyStr Ast AstSum Categorizer Sensai SensaiNodes.
Import AstFacts AstSumFacts ListFacts SensaiFacts.

Ltac unparsed_values :=
  repeat match goal with
         | E : map_outcome _ _ = Ok _ |- _ => apply map_outcome_values in E; subst
         end.

Section PerFile.
Variable lower : string -> string.
Variable unparse : node -> outcome string.
Variable file_path : string.

Lemma assign_target_functions (lineno : Z) (feats : features) (target : node) :
  functions (assign_target lower file_path lineno feats target) = functions feats
  /\ classes (assign_target lower file_path lineno feats target) = classes feats
  /\ note (assign_target lower file_path lineno feats target) = note feats
  /\ file (assign_target lower file_path lineno feats target) = file feats.
Proof.
  destruct target; try (repeat split; reflexivity).
  cbn [assign_target]. destruct (3 <? len id); [|repeat split; reflexivity].
  destruct (negb _); repeat split; reflexivity.
Qed.

Lemma feature_step_functions (st st' : features * gmap string (list feature))
    (node : ast) :
  feature_step lower unparse file_path st node = Ok st' ->
  functions (fst st') = functions (fst st) ++ node_functions unparse node.
Proof.
  intros H. returned_step st node H; unparsed_values; cbn [fst node_functions];
    try (symmetry; apply app_nil_r); try reflexivity.
  rewrite app_nil_r.
  apply (fold_left_keeps (assign_target lower file_path lineno) functions).
  intros s a. apply assign_target_functions.
Qed.

Lemma feature_step_classes (st st' : features * gmap string (list feature))
    (node : ast) :
  feature_step lower unparse file_path st node = Ok st' ->
  classes (fst st') = classes (fst st) ++ node_classes unparse node.
Proof.
  intros H. returned_step st node H; unparsed_values; cbn [fst node_classes];
    try (symmetry; apply app_nil_r); try reflexivity.
  rewrite app_nil_r.
  apply (fold_left_keeps (assign_target lower file_path lineno) classes).
  intros s a. apply assign_target_functions.
Qed.

Lemma feature_step_note (st st' : features * gmap string (list feature)) (node : ast) :
  feature_step lower unparse file_path st node = Ok st' ->
  note (fst st') = note (fst st) /\ file (fst st') = file (fst st).
Proof.
  intros H. returned_step st node H; cbn [fst]; try (split; reflexivity).
  split.
  - apply (fold_left_keeps (assign_target lower file_path lineno) note).
    intros s a. apply assign_target_functions.
  - apply (fold_left_keeps (assign_target lower file_path lineno) file).
    intros s a. apply assign_target_functions.
Qed.

Lemma import_step_keeps (feats : features) (node : ast) :
  functions (import_step feats node) = functions feats
  /\ classes (import_step feats node) = classes feats
  /\ note (import_step feats node) = note feats
  /\ file (import_step feats node) = file feats.
Proof.
  destruct node as [n| | | |]; try (repeat split; reflexivity).
  destruct n; try (repeat split; reflexivity); cbn [import_step];
    repeat split;
    first [ now rewrite (fold_left_keeps _ functions)
          | now rewrite (fold_left_keeps _ classes)
          | now rewrite (fold_left_keeps _ note)
          | now rewrite (fold_left_keeps _ file) ].
Qed.

(** What one node does to [self.categories], key by key. *)
Lemma feature_step_categories (c : string)
    (st st' : features * gmap string (list feature)) (node : ast) :
  feature_step lower unparse file_path st node = Ok st' ->
  snd st' !! c
  = (fun l => l ++ List.filter (in_category lower file_path c) (node_infos unparse node))
      <$> (snd st !! c).
Proof.
  intros H.
  assert (Hid : forall categories : gmap string (list feature),
             categories !! c = (fun l => l ++ []) <$> (categories !! c)).
  { intros categories.
    destruct (categories !! c); cbn; [now rewrite app_nil_r|reflexivity]. }
  returned_step st node H; unparsed_values; cbn [snd]; try apply Hid;
    match goal with
    | E : categories_append _ _ _ = Ok _ |- _ =>
        rewrite (categories_append_lookup _ _ _ c _ E)
    end;
    cbn [node_infos node_functions node_classes app List.filter];
    unfold in_category, feature_category, func_info, class_info;
    cbn [f_name f_type default from_option]; unfold id;
    match goal with
    | |- context [String.eqb ?k c] => destruct (String.eqb k c); reflexivity
    end.
Qed.

(** What the walk has done to [self.categories] when it runs to its
    end, and what it has done at least when it does not. *)
Lemma loop_categories (c : string) (nodes : list ast)
    (st : features * gmap string (list feature)) :
  snd (loop (feature_step lower unparse file_path) nodes st) = None ->
  snd (fst (loop (feature_step lower unparse file_path) nodes st)) !! c
  = (fun l => l ++ List.filter (in_category lower file_path c)
                     (flat_map (node_infos unparse) nodes))
      <$> (snd st !! c).
Proof.
  revert st; induction nodes as [|node nodes IH]; intros st; cbn [loop flat_map].
  - intros _. cbn [fst].
    destruct (snd st !! c); cbn; [now rewrite app_nil_r|reflexivity].
  - destruct (feature_step lower unparse file_path st node) as [st'|e] eqn:E;
      [|discriminate].
    intros Hnone. rewrite (IH st' Hnone), (feature_step_categories c st st' node E).
    rewrite List.filter_app.
    destruct (snd st !! c); cbn; [now rewrite <- app_assoc|reflexivity].
Qed.

Lemma loop_categories_extended (c : string) (nodes : list ast)
    (st : features * gmap string (list feature)) :
  exists added,
    snd (fst (loop (feature_step lower unparse file_path) nodes st)) !! c
    = (fun l => l ++ added) <$> (snd st !! c).
Proof.
  revert st; induction nodes as [|node nodes IH]; intros st; cbn [loop].
  - exists []. cbn [fst].
    destruct (snd st !! c); cbn; [now rewrite app_nil_r|reflexivity].
  - destruct (feature_step lower unparse file_path st node) as [st'|e] eqn:E.
    + destruct (IH st') as [added Hadded].
      eexists. rewrite Hadded, (feature_step_categories c st st' node E).
      destruct (snd st !! c); cbn; [rewrite <- app_assoc|]; reflexivity.
    + exists []. cbn [fst].
      destruct (snd st !! c); cbn; [now rewrite app_nil_r|reflexivity].
Qed.

Lemma feature_step_entries (c : string)
    (st st' : features * gmap string (list feature)) (node : ast) :
  feature_step lower unparse file_path st node = Ok st' ->
  List.filter (fun x => negb (is_variable x)) (bucket (fst st') c)
  = List.filter (fun x => negb (is_variable x)) (bucket (fst st) c)
    ++ List.filter (in_category lower file_path c) (node_entries node).
Proof.
  intros H. returned_step st node H; cbn [fst node_entries List.filter];
    try (symmetry; apply app_nil_r).
  - rewrite bucket_add_to_category. unfold in_category, feature_category.
    cbn [f_name f_type default from_option]; unfold id.
    destruct (decide _) as [Heq|Hne].
    + rewrite Heq, String.eqb_refl. rewrite List.filter_app. reflexivity.
    + apply String.eqb_neq in Hne. rewrite Hne. symmetry. apply app_nil_r.
  - rewrite bucket_add_to_category. unfold in_category, feature_category.
    cbn [f_name f_type default from_option]; unfold id.
    destruct (decide _) as [Heq|Hne].
    + rewrite Heq, String.eqb_refl. rewrite List.filter_app. reflexivity.
    + apply String.eqb_neq in Hne. rewrite Hne. symmetry. apply app_nil_r.
  - rewrite app_nil_r.
    apply (fold_left_keeps (assign_target lower file_path lineno)
             (fun feats => List.filter (fun x => negb (is_variable x)) (bucket feats c))).
    intros s target. destruct target; try reflexivity.
    cbn [assign_target]. destruct (3 <? len id); [|reflexivity].
    destruct (negb _); [|reflexivity].
    rewrite bucket_add_to_category. destruct (decide _) as [<-|]; [|reflexivity].
    now rewrite filter_snoc_false.
Qed.

End PerFile.

Lemma initial_categories_lookup (c : string) :
  In c category_labels -> initial_categories !! c = Some [].
Proof.
  intros Hc. unfold category_labels in Hc. cbn in Hc.
  repeat (destruct Hc as [<-|Hc]; [vm_compute; reflexivity|]). destruct Hc.
Qed.

Lemma initial_categories_labels : has_every_label initial_categories = true.
Proof. vm_compute. reflexivity. Qed.

Lemma feature_category_label (lower : string -> string) (file_path : string)
    (x : feature) :
  In (feature_category lower file_path x) category_labels.
Proof. unfold feature_category. apply categorize_feature_label. Qed.

Lemma indicator_sum_absent (k : string) (keys : list string) :
  ~ In k keys ->
  list_sum (map (fun c => if String.eqb k c then 1 else 0) keys) = 0.
Proof.
  induction keys as [|c keys IH]; intros Hnotin; [reflexivity|].
  simpl. destruct (String.eqb_spec k c) as [->|_].
  - exfalso. apply Hnotin. now left.
  - apply IH. intros Hin. apply Hnotin. now right.
Qed.

Lemma indicator_sum_present (k : string) (keys : list string) :
  List.NoDup keys ->
  In k keys ->
  list_sum (map (fun c => if String.eqb k c then 1 else 0) keys) = 1.
Proof.
  induction keys as [|c keys IH]; intros Hnodup Hin; [destruct Hin|].
  apply List.NoDup_cons_iff in Hnodup as [Hnotin Hnodup].
  simpl. destruct (String.eqb_spec k c) as [Heq|Hne].
  - subst c. now rewrite indicator_sum_absent.
  - destruct Hin as [Hin|Hin]; [congruence|]. now rewrite IH.
Qed.

Lemma list_sum_map_add {A : Type} (f g : A -> nat) (l : list A) :
  list_sum (map (fun x => f x + g x) l) = list_sum (map f l) + list_sum (map g l).
Proof. induction l as [|x l IH]; simpl; lia. Qed.

(** Each item is counted under exactly one of a list of distinct keys
    that holds its key. *)
Lemma partition_sizes {A : Type} (key : A -> string) (keys : list string)
    (l : list A) :
  List.NoDup keys ->
  (forall x, In x l -> In (key x) keys) ->
  list_sum (map (fun c => length (List.filter (fun x => String.eqb (key x) c) l)) keys)
  = length l.
Proof.
  intros Hnodup. induction l as [|x l IH]; intros Hkeys.
  - clear. induction keys as [|k keys IHk]; [reflexivity|exact IHk].
  - cbn [length]. rewrite <- IH by (intros y Hy; apply Hkeys; now right).
    transitivity
      (list_sum (map (fun c => if String.eqb (key x) c then 1 else 0) keys)
       + list_sum (map (fun c => length (List.filter
                                           (fun y => String.eqb (key y) c) l)) keys)).
    + rewrite <- list_sum_map_add. f_equal. apply map_ext. intros c.
      cbn [List.filter]. destruct (String.eqb (key x) c); reflexivity.
    + rewrite (indicator_sum_present (key x) keys Hnodup); [reflexivity|].
      apply Hkeys. now left.
Qed.

Lemma category_labels_nodup : List.NoDup category_labels.
Proof.
  unfold category_labels.
  repeat (apply List.NoDup_cons;
          [intros Hin; cbn in Hin;
           repeat (destruct Hin as [Hin|Hin]; [discriminate Hin|]); exact Hin|]).
  apply List.NoDup_nil.
Qed.

Section Walked.
Variable lower : string -> string.
Variable read_text : string -> outcome string.
Variable ast_parse : string -> outcome node.
Variable unparse : node -> outcome string.
Variable finditer : string -> bool -> string -> list re_match.
Variable categories : gmap string (list feature).
Variables file_path content : string.
Variable tree : node.
Hypothesis Hread : read_text file_path = Ok content.
Hypothesis Hparse : ast_parse content = Ok tree.
Hypothesis Hunparse : forallb (unparse_returns unparse) (walk tree) = true.
Hypothesis Hlabels : has_every_label categories = true.

(** The lists of a file whose walk runs to its end. *)
Lemma walked_functions :
  functions (fst (analyze_python_file lower read_text ast_parse unparse finditer
                    categories file_path))
  = flat_map (node_functions unparse) (walk tree).
Proof.
  destruct (analyze_python_file_ok lower read_text ast_parse unparse finditer
              categories file_path content tree Hread Hparse Hunparse Hlabels)
    as (Hnone & ->).
  unfold second_walk in *.
  rewrite (loop_appends (feature_step lower unparse file_path)
             (fun st => functions (fst st)) (node_functions unparse))
    by (try exact Hnone; intros s a s'; apply feature_step_functions).
  cbn [fst]. rewrite (fold_left_keeps import_step functions); [reflexivity|].
  intros s a. apply import_step_keeps.
Qed.

Lemma walked_classes :
  classes (fst (analyze_python_file lower read_text ast_parse unparse finditer
                  categories file_path))
  = flat_map (node_classes unparse) (walk tree).
Proof.
  destruct (analyze_python_file_ok lower read_text ast_parse unparse finditer
              categories file_path content tree Hread Hparse Hunparse Hlabels)
    as (Hnone & ->).
  unfold second_walk in *.
  rewrite (loop_appends (feature_step lower unparse file_path)
             (fun st => classes (fst st)) (node_classes unparse))
    by (try exact Hnone; intros s a s'; apply feature_step_classes).
  cbn [fst]. rewrite (fold_left_keeps import_step classes); [reflexivity|].
  intros s a. apply import_step_keeps.
Qed.

Lemma walked_categories (c : string) :
  snd (analyze_python_file lower read_text ast_parse unparse finditer categories
         file_path) !! c
  = (fun l => l ++ List.filter (in_category lower file_path c)
                     (flat_map (node_infos unparse) (walk tree)))
      <$> (categories !! c).
Proof.
  destruct (analyze_python_file_ok lower read_text ast_parse unparse finditer
              categories file_path content tree Hread Hparse Hunparse Hlabels)
    as (Hnone & ->).
  unfold second_walk in *. now rewrite loop_categories.
Qed.

End Walked.

(** X8.  For a file that is read and parsed and whose walk raises
    nothing, the [functions] list holds one record for each function
    definition of the tree and the [classes] list one for each class
    definition, nested ones included, in walk order. *)
Theorem functions_and_classes_listed (lower : string -> string)
    (read_text : string -> outcome string) (ast_parse : string -> outcome node)
    (unparse : node -> outcome string)
    (finditer : string -> bool -> string -> list re_match)
    (categories : gmap string (list feature)) (file_path content : string)
    (tree : node) :
  read_text file_path = Ok content ->
  ast_parse content = Ok tree ->
  forallb (unparse_returns unparse) (walk tree) = true ->
  has_every_label categories = true ->
  let feats :=
    fst (analyze_python_file lower read_text ast_parse unparse finditer categories
           file_path) in
  functions feats = flat_map (node_functions unparse) (walk tree)
  /\ length (functions feats) = count_function_defs tree
  /\ classes feats = flat_map (node_classes unparse) (walk tree)
  /\ length (classes feats) = count_nodes is_class_def tree.
Proof.
  intros Hread Hparse Hunparse Hlabels. cbn zeta.
  pose proof (walked_functions lower read_text ast_parse unparse finditer categories
                file_path content tree Hread Hparse Hunparse Hlabels) as Hf.
  pose proof (walked_classes lower read_text ast_parse unparse finditer categories
                file_path content tree Hread Hparse Hunparse Hlabels) as Hc.
  split; [exact Hf|]. split; [|split; [exact Hc|]].
  - rewrite Hf, length_flat_map.
    rewrite (map_ext _ (fun node => if is_function_def node then 1 else 0)).
    + apply (walk_sum _ count_function_defs_in tree). apply count_children.
    + intros [[]| | | |]; reflexivity.
  - rewrite Hc, length_flat_map.
    rewrite (map_ext _ (fun node => if is_class_def node then 1 else 0)).
    + apply walk_tree_sum.
    + intros [[]| | | |]; reflexivity.
Qed.

Lemma functions_and_classes_listed_witness :
  let feats :=
    fst (analyze_python_file lower (fun _ => Ok ExtractKnowledge.nested_source)
           (fun _ => Ok ExtractKnowledge.nested_tree) unparse_example
           finditer_example initial_categories "nested.py") in
  map f_name (functions feats) = [Some "outer"; Some "inner"; Some "run"]
  /\ length (classes feats) = 1.
Proof.
  pose proof (functions_and_classes_listed lower (fun _ => Ok ExtractKnowledge.nested_source)
                (fun _ => Ok ExtractKnowledge.nested_tree) unparse_example
                finditer_example initial_categories "nested.py" ExtractKnowledge.nested_source
                ExtractKnowledge.nested_tree eq_refl eq_refl
                ltac:(vm_compute; reflexivity) ltac:(vm_compute; reflexivity))
    as (Hfunctions & _ & _ & Hclasses).
  cbn zeta. split; [rewrite Hfunctions; reflexivity|exact Hclasses].
Defined.

(** X9.  For a file that is read and parsed and whose walk raises
    nothing, the analysis extends each list of [self.categories] by the
    function and class records of that category, in walk order, and adds
    no key; variables are not among what it adds. *)
Theorem categories_extended (lower : string -> string)
    (read_text : string -> outcome string) (ast_parse : string -> outcome node)
    (unparse : node -> outcome string)
    (finditer : string -> bool -> string -> list re_match)
    (categories : gmap string (list feature)) (file_path content : string)
    (tree : node) :
  read_text file_path = Ok content ->
  ast_parse content = Ok tree ->
  forallb (unparse_returns unparse) (walk tree) = true ->
  has_every_label categories = true ->
  let after :=
    snd (analyze_python_file lower read_text ast_parse unparse finditer categories
           file_path) in
  let infos := flat_map (node_infos unparse) (walk tree) in
  (forall c,
      after !! c
      = (fun l => l ++ List.filter (in_category lower file_path c) infos)
          <$> (categories !! c))
  /\ Forall (fun x => is_variable x = false) infos.
Proof.
  intros Hread Hparse Hunparse Hlabels. cbn zeta. split.
  - intros c.
    apply (walked_categories lower read_text ast_parse unparse finditer categories
             file_path content tree Hread Hparse Hunparse Hlabels).
  - apply List.Forall_flat_map. apply List.Forall_forall. intros node _.
    destruct node as [[]| | | |]; repeat constructor.
Qed.

Lemma categories_extended_witness :
  map f_name
    (default []
       (snd (analyze_python_file lower (fun _ => Ok ExtractKnowledge.nested_source)
               (fun _ => Ok ExtractKnowledge.nested_tree) unparse_example
               finditer_example initial_categories "nested.py")
        !! "utilities"))
  = [Some "outer"; Some "K"; Some "inner"; Some "run"].
Proof.
  rewrite (proj1 (categories_extended lower (fun _ => Ok ExtractKnowledge.nested_source)
                    (fun _ => Ok ExtractKnowledge.nested_tree) unparse_example
                    finditer_example initial_categories "nested.py" ExtractKnowledge.nested_source
                    ExtractKnowledge.nested_tree eq_refl eq_refl
                    ltac:(vm_compute; reflexivity) ltac:(vm_compute; reflexivity))
             "utilities").
  vm_compute. reflexivity.
Defined.

(** X10.  With the categories of a fresh categorizer, after the analysis
    of a file that is read and parsed and whose calls of [ast.unparse]
    return, the sizes of the thirteen category lists add up to the
    number of functions and classes of the file: each of them is in
    exactly one list. *)
Theorem each_feature_in_one_category (lower : string -> string)
    (read_text : string -> outcome string) (ast_parse : string -> outcome node)
    (unparse : node -> outcome string)
    (finditer : string -> bool -> string -> list re_match)
    (file_path content : string) (tree : node) :
  read_text file_path = Ok content ->
  ast_parse content = Ok tree ->
  forallb (unparse_returns unparse) (walk tree) = true ->
  let result :=
    analyze_python_file lower read_text ast_parse unparse finditer
      initial_categories file_path in
  list_sum (map (fun c => length (default [] (snd result !! c))) category_labels)
  = length (functions (fst result)) + length (classes (fst result)).
Proof.
  intros Hread Hparse Hunparse. cbn zeta.
  rewrite (walked_functions lower read_text ast_parse unparse finditer
             initial_categories file_path content tree Hread Hparse Hunparse
             initial_categories_labels).
  rewrite (walked_classes lower read_text ast_parse unparse finditer
             initial_categories file_path content tree Hread Hparse Hunparse
             initial_categories_labels).
  rewrite (map_ext_in _
             (fun c => length (List.filter
                                 (fun x => String.eqb
                                             (feature_category lower file_path x) c)
                                 (flat_map (node_infos unparse) (walk tree))))).
  - rewrite (partition_sizes (feature_category lower file_path) category_labels).
    + clear. induction (walk tree) as [|node nodes IH]; [reflexivity|].
      cbn [flat_map]. rewrite !length_app, IH. unfold node_infos at 1.
      rewrite length_app. lia.
    + apply category_labels_nodup.
    + intros x _. apply feature_category_label.
  - intros c Hlabel.
    rewrite (walked_categories lower read_text ast_parse unparse finditer
               initial_categories file_path content tree Hread Hparse Hunparse
               initial_categories_labels c).
    rewrite (initial_categories_lookup c Hlabel). reflexivity.
Qed.

Lemma each_feature_in_one_category_witness :
  list_sum
    (map (fun c =>
            length (default []
                      (snd (analyze_python_file lower (fun _ => Ok ExtractKnowledge.nested_source)
                              (fun _ => Ok ExtractKnowledge.nested_tree)
                              unparse_example finditer_example initial_categories
                              "nested.py")
                       !! c)))
       category_labels)
  = 4.
Proof.
  rewrite (each_feature_in_one_category lower (fun _ => Ok ExtractKnowledge.nested_source)
             (fun _ => Ok ExtractKnowledge.nested_tree) unparse_example
             finditer_example "nested.py" ExtractKnowledge.nested_source
             ExtractKnowledge.nested_tree
             eq_refl eq_refl ltac:(vm_compute; reflexivity)).
  vm_compute. reflexivity.
Defined.

End SensaiMore.

Module SensaiBuckets.
Import PyStr Ast AstSum Categorizer Sensai SensaiNodes.
Import AstFacts AstSumFacts ListFacts SensaiFacts SensaiMore.

(** X11.  For a file that is read and parsed and whose walk raises
    nothing, the entries of a category's bucket that are not variables
    are the entries of the functions and classes of that category, in
    walk order. *)
Theorem buckets_hold_functions_and_classes (lower : string -> string)
    (read_text : string -> outcome string) (ast_parse : string -> outcome node)
    (unparse : node -> outcome string)
    (finditer : string -> bool -> string -> list re_match)
    (categories : gmap string (list feature)) (file_path content : string)
    (tree : node) :
  read_text file_path = Ok content ->
  ast_parse content = Ok tree ->
  forallb (unparse_returns unparse) (walk tree) = true ->
  has_every_label categories = true ->
  let feats :=
    fst (analyze_python_file lower read_text ast_parse unparse finditer categories
           file_path) in
  forall c,
    List.filter (fun x => negb (is_variable x)) (bucket feats c)
    = List.filter (in_category lower file_path c) (flat_map node_entries (walk tree)).
Proof.
  intros Hread Hparse Hunparse Hlabels. cbn zeta. intros c.
  destruct (analyze_python_file_ok lower read_text ast_parse unparse finditer
              categories file_path content tree Hread Hparse Hunparse Hlabels)
    as (Hnone & ->).
  unfold second_walk in *.
  rewrite (loop_appends (feature_step lower unparse file_path)
             (fun st => List.filter (fun x => negb (is_variable x)) (bucket (fst st) c))
             (fun node => List.filter (in_category lower file_path c)
                            (node_entries node)))
    by (try exact Hnone; intros s a s'; apply feature_step_entries).
  cbn [fst]. unfold bucket at 1.
  rewrite (fold_left_keeps import_step features_by_category)
    by (intros s a; apply import_step_buckets).
  cbn [features_by_category empty_features]. rewrite lookup_empty. cbn.
  symmetry. apply filter_flat_map.
Qed.

Lemma buckets_hold_functions_and_classes_witness :
  map f_name
    (List.filter (fun x => negb (is_variable x))
       (bucket
          (fst (analyze_python_file lower (fun _ => Ok ExtractKnowledge.nested_source)
                  (fun _ => Ok ExtractKnowledge.nested_tree) unparse_example
                  finditer_example initial_categories "nested.py"))
          "utilities"))
  = [Some "outer"; Some "K"; Some "inner"; Some "run"].
Proof.
  rewrite (buckets_hold_functions_and_classes lower (fun _ => Ok ExtractKnowledge.nested_source)
             (fun _ => Ok ExtractKnowledge.nested_tree) unparse_example
             finditer_example initial_categories "nested.py" ExtractKnowledge.nested_source
             ExtractKnowledge.nested_tree eq_refl eq_refl
             ltac:(vm_compute; reflexivity) ltac:(vm_compute; reflexivity)
             "utilities").
  vm_compute. reflexivity.
Defined.

Section Fallback.
Variable lower : string -> string.
Variable finditer : string -> bool -> string -> list re_match.
Variables file_path content : string.

Lemma regex_entry_bucket (c type : string) (feats : features) (m : re_match) :
  bucket (add_to_category
            (categorize_feature lower (default "" (group m 1)) type
               (file_context file_path))
            (named_entry (default "" (group m 1)) type) feats) c
  = bucket feats c
    ++ List.filter (in_category lower file_path c)
         [named_entry (default "" (group m 1)) type].
Proof.
  rewrite bucket_add_to_category. cbn [List.filter].
  unfold in_category, feature_category.
  cbn [f_name f_type named_entry default from_option]; unfold id.
  change (categorize_feature lower (default "" (group m 1)) type
            (file_context file_path))
    with (categorize_feature lower (default "" (group m 1)) "" []).
  change (categorize_feature lower (from_option (fun x => x) "" (group m 1)) type
            (file_context file_path))
    with (categorize_feature lower (default "" (group m 1)) "" []).
  destruct (decide _) as [Heq|Hne].
  - rewrite Heq, String.eqb_refl. reflexivity.
  - apply String.eqb_neq in Hne. rewrite Hne. symmetry. apply app_nil_r.
Qed.

(** X13.  In the result of the regex fallback, the bucket of a category
    holds the functions of that category in the order of their matches,
    followed by its classes; the import scan fills no bucket. *)
Theorem regex_buckets (c : string) :
  let result := _analyze_with_regex lower finditer file_path content in
  bucket result c
  = List.filter (in_category lower file_path c) (functions result)
    ++ List.filter (in_category lower file_path c) (classes result).
Proof.
  cbn zeta. rewrite regex_functions, regex_classes.
  unfold _analyze_with_regex.
  rewrite (fold_left_appends (regex_class lower file_path)
             (fun feats => bucket feats c)
             (fun m => List.filter (in_category lower file_path c)
                         [named_entry (default "" (group m 1)) "class"]))
    by (intros s m;
        apply (regex_entry_bucket c "class"
                 (add_class (named_entry (default "" (group m 1)) "class") s) m)).
  rewrite (fold_left_appends (regex_function lower file_path)
             (fun feats => bucket feats c)
             (fun m => List.filter (in_category lower file_path c)
                         [named_entry (default "" (group m 1)) "function"]))
    by (intros s m;
        apply (regex_entry_bucket c "function"
                 (add_function (named_entry (default "" (group m 1)) "function") s)
                 m)).
  rewrite (fold_left_keeps regex_import (fun feats => bucket feats c)) by reflexivity.
  unfold bucket at 1. cbn [features_by_category empty_features].
  rewrite lookup_empty. cbn [default from_option app].
  rewrite <- !filter_flat_map, !flat_map_singleton. reflexivity.
Qed.

End Fallback.



End SensaiBuckets.

Module PyMoreFacts.
Import PyStr PyMore.

Lemma lstrip_head (s : string) :
  lstrip s = EmptyString
  \/ exists c t, lstrip s = String c t /\ is_space c = false.
Proof.
  induction s as [|c s IH]; [now left|]. cbn [lstrip].
  destruct (is_space c) eqn:Hc; [exact IH|]. right. now exists c, s.
Qed.

Lemma rstrip_head (c : ascii) (t : string) :
  is_space c = false -> exists t', rstrip (String c t) = String c t'.
Proof.
  intros Hc. cbn [rstrip]. destruct (rstrip t) as [|d r].
  - rewrite Hc. now exists EmptyString.
  - now exists (String d r).
Qed.

Lemma rstrip_idempotent (s : string) : rstrip (rstrip s) = rstrip s.
Proof.
  induction s as [|c s IH]; [reflexivity|]. cbn [rstrip].
  destruct (rstrip s) as [|d r] eqn:Hr.
  - destruct (is_space c) eqn:Hc; [reflexivity|]. cbn [rstrip]. now rewrite Hc.
  - change (rstrip (String c (String d r))) with
      (match rstrip (String d r) with
       | EmptyString => if is_space c then EmptyString else String c EmptyString
       | r' => String c r'
       end).
    now rewrite IH.
Qed.

Lemma lstrip_nonspace (c : ascii) (t : string) :
  is_space c = false -> lstrip (String c t) = String c t.
Proof. intros Hc. cbn [lstrip]. now rewrite Hc. Qed.

(** Stripping a stripped string changes nothing. *)
Lemma strip_idempotent (s : string) : strip (strip s) = strip s.
Proof.
  unfold strip. destruct (lstrip_head s) as [->|(c & t & -> & Hc)]; [reflexivity|].
  destruct (rstrip_head c t Hc) as [t' Ht']. rewrite Ht'.
  rewrite (lstrip_nonspace c t' Hc), <- Ht'. apply rstrip_idempotent.
Qed.

Lemma lstrip_blanks (blanks s : string) :
  forallb is_space (list_ascii_of_string blanks) = true ->
  lstrip (blanks +:+ s) = lstrip s.
Proof.
  induction blanks as [|c blanks IH]; [reflexivity|].
  cbn [list_ascii_of_string forallb]. intros [Hc Hrest]%andb_prop.
  change (String c blanks +:+ s) with (String c (blanks +:+ s)).
  cbn [lstrip]. rewrite Hc. now apply IH.
Qed.

Lemma startswith_append (sep rest : string) : startswith sep (sep +:+ rest) = true.
Proof.
  induction sep as [|a sep IH]; [reflexivity|].
  change (String a sep +:+ rest) with (String a (sep +:+ rest)).
  cbn [startswith]. destruct (ascii_dec a a); [exact IH|congruence].
Qed.

(** Where the first character of the separator does not occur, the
    first occurrence of the separator lies further on. *)
Lemma before_skips (a : ascii) (sep s rest : string) :
  forallb (fun c => negb (Ascii.eqb c a)) (list_ascii_of_string s) = true ->
  before (String a sep) (s +:+ rest) = s +:+ before (String a sep) rest.
Proof.
  induction s as [|c s IH]; [reflexivity|].
  cbn [list_ascii_of_string forallb]. intros [Hc Hrest]%andb_prop.
  change (String c s +:+ rest) with (String c (s +:+ rest)).
  change (String c s +:+ before (String a sep) rest)
    with (String c (s +:+ before (String a sep) rest)).
  cbn [before startswith]. destruct (ascii_dec a c) as [->|_].
  - rewrite Ascii.eqb_refl in Hc. discriminate Hc.
  - f_equal. now apply IH.
Qed.

Lemma append_empty_r (s : string) : s +:+ EmptyString = s.
Proof.
  induction s as [|c s IH]; [reflexivity|].
  change (String c s +:+ EmptyString) with (String c (s +:+ EmptyString)).
  now f_equal.
Qed.

Lemma before_absent (a : ascii) (sep s : string) :
  forallb (fun c => negb (Ascii.eqb c a)) (list_ascii_of_string s) = true ->
  before (String a sep) s = s.
Proof.
  intros Hs. rewrite <- (append_empty_r s) at 1.
  rewrite (before_skips a sep s EmptyString Hs). apply append_empty_r.
Qed.

Lemma lower_append (s t : string) : lower (s +:+ t) = lower s +:+ lower t.
Proof.
  induction s as [|c s IH]; [reflexivity|].
  change (String c s +:+ t) with (String c (s +:+ t)). cbn [lower].
  change (String (lower_char c) (lower s) +:+ lower t)
    with (String (lower_char c) (lower s +:+ lower t)).
  now f_equal.
Qed.

End PyMoreFacts.

Module RepositoryFacts.
Import PyStr PyMore Ast Categorizer Sensai Repository PyMoreFacts.

(** X14.  The requirements read from [requirements.txt] are non-empty
    and carry no blanks at either end; a line that starts with [#] gives
    none.  The comment test looks at the line as read, so a [#] that
    follows leading blanks does not make a comment: the rest of such a
    line is taken as a requirement. *)
Theorem requirement_lines_stripped (lines : list string) :
  Forall (fun req => truthy req = true /\ strip req = req) (requirement_lines lines)
  /\ (forall line, startswith "#" line = true -> requirement_lines [line] = [])
  /\ (forall blanks rest,
         blanks <> EmptyString ->
         forallb is_space (list_ascii_of_string blanks) = true ->
         requirement_lines [blanks +:+ "#" +:+ rest] = [strip ("#" +:+ rest)]).
Proof.
  split; [|split].
  - apply List.Forall_flat_map. apply List.Forall_forall. intros line _.
    destruct (truthy (strip line)) eqn:Htruthy; cbn [andb]; [|constructor].
    destruct (negb _); constructor; [|constructor].
    split; [exact Htruthy|apply strip_idempotent].
  - intros line Hline. unfold requirement_lines. cbn [flat_map].
    rewrite Hline, andb_false_r. reflexivity.
  - intros blanks rest Hne Hblanks. unfold requirement_lines. cbn [flat_map].
    assert (Hstrip : strip (blanks +:+ "#" +:+ rest) = strip ("#" +:+ rest))
      by (unfold strip; now rewrite lstrip_blanks).
    rewrite Hstrip.
    assert (Htruthy : truthy (strip ("#" +:+ rest)) = true).
    { unfold strip. change ("#" +:+ rest) with (String "#" rest).
      rewrite lstrip_nonspace by reflexivity.
      destruct (rstrip_head "#" rest eq_refl) as [t' ->]. reflexivity. }
    assert (Hstart : startswith "#" (blanks +:+ "#" +:+ rest) = false).
    { destruct blanks as [|c blanks]; [now destruct Hne|].
      cbn [list_ascii_of_string forallb] in Hblanks.
      apply andb_prop in Hblanks as [Hc _].
      change (String c blanks +:+ "#" +:+ rest)
        with (String c (blanks +:+ "#" +:+ rest)).
      cbn [startswith]. destruct (ascii_dec "#" c) as [<-|_]; [discriminate Hc|].
      reflexivity. }
    rewrite Htruthy, Hstart. cbn [andb negb]. now rewrite app_nil_r.
Qed.

Lemma requirement_lines_stripped_witness :
  requirement_lines
    ["# pinned" +:+ nl; "edge-tts==6.1.9" +:+ nl; nl; "   # dev tools" +:+ nl]
  = ["edge-tts==6.1.9"; "# dev tools"].
Proof.
  change (requirement_lines
            ["# pinned" +:+ nl; "edge-tts==6.1.9" +:+ nl; nl; "   # dev tools" +:+ nl])
    with (requirement_lines ["# pinned" +:+ nl]
          ++ ["edge-tts==6.1.9"]
          ++ requirement_lines ["   " +:+ "#" +:+ " dev tools" +:+ nl]).
  rewrite (proj1 (proj2 (requirement_lines_stripped [])) ("# pinned" +:+ nl) eq_refl).
  rewrite (proj2 (proj2 (requirement_lines_stripped [])) "   " (" dev tools" +:+ nl)
             ltac:(discriminate) eq_refl).
  reflexivity.
Defined.

Lemma lower_no_specifier (name : string) :
  no_specifier name = true -> no_specifier (lower name) = true.
Proof.
  unfold no_specifier. induction name as [|c name IH]; [reflexivity|].
  cbn [lower list_ascii_of_string forallb]. intros [Hc Hrest]%andb_prop.
  rewrite (IH Hrest), andb_true_r. revert Hc.
  destruct c as [[] [] [] [] [] [] [] []]; intros Hc; first [exact Hc|reflexivity].
Qed.

Lemma no_specifier_char (a : ascii) (name : string) :
  (Ascii.eqb a "=" || Ascii.eqb a "<" || Ascii.eqb a ">") = true ->
  no_specifier name = true ->
  forallb (fun c => negb (Ascii.eqb c a)) (list_ascii_of_string name) = true.
Proof.
  intros Ha. unfold no_specifier. induction name as [|c name IH]; [reflexivity|].
  cbn [list_ascii_of_string forallb]. intros [Hc Hrest]%andb_prop.
  rewrite (IH Hrest), andb_true_r.
  destruct (Ascii.eqb_spec c a) as [->|_]; [|reflexivity].
  rewrite Ha in Hc. discriminate Hc.
Qed.

(** The name of a requirement pinned with [==], lower-cased, is what
    the category is decided on. *)
Lemma pinned_name (name version : string) :
  no_specifier name = true ->
  before "<=" (before ">=" (before "==" (lower (name +:+ "==" +:+ version))))
  = lower name.
Proof.
  intros Hname. pose proof (lower_no_specifier name Hname) as Hlower.
  rewrite lower_append.
  rewrite (before_skips "=" "=" (lower name))
    by (apply no_specifier_char; [reflexivity|exact Hlower]).
  rewrite lower_append. change (lower "==") with "==".
  replace (before "==" ("==" +:+ lower version)) with EmptyString by reflexivity.
  rewrite append_empty_r.
  rewrite (before_absent ">" "=" (lower name))
    by (apply no_specifier_char; [reflexivity|exact Hlower]).
  apply (before_absent "<" "=" (lower name)).
  apply no_specifier_char; [reflexivity|exact Hlower].
Qed.

(** X15.  A version pinned with [==] has no say in the category of a
    requirement: for a name without [=], [<] or [>], the requirement
    [name==version] falls in the category of [name], whatever the
    version is. *)
Theorem pin_does_not_change_category (name version : string) :
  no_specifier name = true ->
  dependency_category (name +:+ "==" +:+ version) = dependency_category name.
Proof.
  intros Hname. unfold dependency_category. rewrite (pinned_name name version Hname).
  pose proof (lower_no_specifier name Hname) as Hlower.
  rewrite (before_absent "=" "=" (lower name))
    by (apply no_specifier_char; [reflexivity|exact Hlower]).
  rewrite (before_absent ">" "=" (lower name))
    by (apply no_specifier_char; [reflexivity|exact Hlower]).
  rewrite (before_absent "<" "=" (lower name))
    by (apply no_specifier_char; [reflexivity|exact Hlower]).
  reflexivity.
Qed.

Lemma pin_does_not_change_category_witness :
  dependency_category "edge-tts==1.2.3" = "voice_processing".
Proof.
  change "edge-tts==1.2.3" with ("edge-tts" +:+ "==" +:+ "1.2.3").
  rewrite (pin_does_not_change_category "edge-tts" "1.2.3" eq_refl). reflexivity.
Defined.

Section Aggregation.
Variable lower : string -> string.
Variable read_text : string -> outcome string.
Variable ast_parse : string -> outcome node.
Variable unparse : node -> outcome string.
Variable finditer : string -> bool -> string -> list re_match.
Variable path_exists : string -> bool.
Variable read_lines : string -> outcome (list string).

Lemma analyze_one_totals (st : gmap string (list feature) * repo_results)
    (py_file : string) :
  let st' := analyze_one lower read_text ast_parse unparse finditer path_exists st py_file in
  (totals_agree (snd st) -> totals_agree (snd st'))
  /\ summary_by_category (results_summary (snd st'))
     = summary_by_category (results_summary (snd st))
  /\ results_categories (snd st') = results_categories (snd st).
Proof.
  destruct st as [categories results]. cbn zeta. unfold analyze_one.
  destruct (path_exists py_file); [|split; [exact id|split; reflexivity]].
  destruct (analyze_python_file _ _ _ _ _ categories py_file) as [ff cats].
  cbn [snd]. split; [|now split].
  unfold totals_agree. cbn. intros (Hf & Hc & Hi).
  rewrite !map_app, !list_sum_app. cbn. lia.
Qed.

Lemma analyze_files_totals (python_files : list string)
    (st : gmap string (list feature) * repo_results) :
  let st' :=
    fold_left (analyze_one lower read_text ast_parse unparse finditer path_exists)
      python_files st in
  (totals_agree (snd st) -> totals_agree (snd st'))
  /\ summary_by_category (results_summary (snd st'))
     = summary_by_category (results_summary (snd st))
  /\ results_categories (snd st') = results_categories (snd st).
Proof.
  revert st; induction python_files as [|f fs IH]; intros st; cbn zeta;
    [split; [exact id|split; reflexivity]|].
  cbn [fold_left].
  specialize (IH (analyze_one lower read_text ast_parse unparse finditer path_exists st f)).
  cbn zeta in IH.
  destruct IH as (IHt & IHs & IHc).
  destruct (analyze_one_totals st f) as (Ht & Hs & Hc). cbn zeta in Ht, Hs, Hc.
  split; [auto|]. split; congruence.
Qed.

Lemma aggregate_one_fields (categories : gmap string (list feature))
    (results : repo_results) (c : string) :
  let results' := aggregate_one categories results c in
  files results' = files results
  /\ (totals_agree results -> totals_agree results')
  /\ summary_by_category (results_summary results')
     = summary_by_category (results_summary results)
       ++ match nonempty_items categories c with
          | Some items => [(c, Z.of_nat (length items))]
          | None => []
          end
  /\ (forall k,
         results_categories results' !! k
         = match (if String.eqb c k then nonempty_items categories c else None) with
           | Some items => Some items
           | None => results_categories results !! k
           end).
Proof.
  cbn zeta. unfold aggregate_one, nonempty_items.
  destruct (categories !! c) as [[|item items]|].
  - split; [reflexivity|]. split; [exact id|]. split; [symmetry; apply app_nil_r|].
    intros k. now destruct (String.eqb c k).
  - cbn. split; [reflexivity|]. split; [exact id|]. split; [reflexivity|].
    intros k. destruct (String.eqb_spec c k) as [->|Hne].
    + apply lookup_insert_eq.
    + now apply lookup_insert_ne.
  - split; [reflexivity|]. split; [exact id|]. split; [symmetry; apply app_nil_r|].
    intros k. now destruct (String.eqb c k).
Qed.

Lemma aggregate_fields (categories : gmap string (list feature)) (labels : list string)
    (results : repo_results) :
  let results' := fold_left (aggregate_one categories) labels results in
  files results' = files results
  /\ (totals_agree results -> totals_agree results')
  /\ summary_by_category (results_summary results')
     = summary_by_category (results_summary results)
       ++ flat_map (fun c => match nonempty_items categories c with
                             | Some items => [(c, Z.of_nat (length items))]
                             | None => []
                             end) labels
  /\ (forall k,
         results_categories results' !! k
         = match (if existsb (fun c => String.eqb c k) labels
                  then nonempty_items categories k else None) with
           | Some items => Some items
           | None => results_categories results !! k
           end).
Proof.
  revert results; induction labels as [|c labels IH]; intros results; cbn zeta.
  - split; [reflexivity|]. split; [exact id|]. split; [symmetry; apply app_nil_r|].
    reflexivity.
  - cbn [fold_left flat_map existsb].
    destruct (IH (aggregate_one categories results c)) as (IHf & IHt & IHs & IHl).
    destruct (aggregate_one_fields categories results c) as (Hf & Ht & Hs & Hl).
    cbn zeta in *.
    split; [congruence|]. split; [auto|]. split; [now rewrite IHs, Hs, <- app_assoc|].
    intros k. rewrite IHl, Hl.
    destruct (String.eqb_spec c k) as [->|_]; cbn [orb].
    + destruct (existsb _ labels); destruct (nonempty_items categories k); reflexivity.
    + reflexivity.
Qed.

Lemma summary_labels (categories : gmap string (list feature)) (labels : list string) :
  map fst (flat_map (fun c => match nonempty_items categories c with
                              | Some items => [(c, Z.of_nat (length items))]
                              | None => []
                              end) labels)
  = List.filter (fun c => match nonempty_items categories c with
                          | Some _ => true
                          | None => false
                          end) labels.
Proof.
  induction labels as [|c labels IH]; [reflexivity|]. cbn [flat_map List.filter].
  rewrite map_app, IH. now destruct (nonempty_items categories c).
Qed.

(** X16.  In the results of the repository analysis, the summary counts
    and the category lists agree: the summary has an entry for exactly
    the categories of [self.categories] whose list is not empty, in the
    order of the category table; the entry's count is positive and is
    the length of the list stored under that category in the results.
    The three totals are the sums over the analysed files. *)
Theorem summary_matches_categories (categories : gmap string (list feature))
    (repo_path : string) (results : repo_results)
    (categories' : gmap string (list feature)) :
  analyze_repository lower read_text ast_parse unparse finditer path_exists read_lines
    categories repo_path = Ok (results, categories') ->
  Forall (fun entry =>
            exists items,
              results_categories results !! fst entry = Some items
              /\ categories' !! fst entry = Some items
              /\ snd entry = Z.of_nat (length items)
              /\ (0 < snd entry)%Z)
    (summary_by_category (results_summary results))
  /\ map fst (summary_by_category (results_summary results))
     = List.filter (fun c => match nonempty_items categories' c with
                             | Some _ => true
                             | None => false
                             end) category_labels
  /\ totals_agree results.
Proof.
  unfold analyze_repository.
  destruct (fold_left _ _ (categories, empty_results repo_path)) as [cats R] eqn:Hfold.
  pose proof (analyze_files_totals
                [join_path repo_path "install.py"; join_path repo_path "kawai.py"]
                (categories, empty_results repo_path)) as Hfiles.
  cbn zeta in Hfiles. rewrite Hfold in Hfiles. cbn [snd] in Hfiles.
  destruct Hfiles as (Htotals & Hsummary & Hcats).
  specialize (Htotals ltac:(repeat split)).
  destruct (aggregate_fields cats category_labels R) as (Hf & Ht & Hs & Hl).
  cbn zeta in Hf, Ht, Hs, Hl. specialize (Ht Htotals).
  rewrite Hsummary in Hs. cbn [empty_results results_summary summary_by_category app]
    in Hs.
  set (A := fold_left (aggregate_one cats) category_labels R) in *.
  assert (Hgoal :
            Forall (fun entry =>
                      exists items,
                        results_categories A !! fst entry = Some items
                        /\ cats !! fst entry = Some items
                        /\ snd entry = Z.of_nat (length items)
                        /\ (0 < snd entry)%Z)
              (summary_by_category (results_summary A))
            /\ map fst (summary_by_category (results_summary A))
               = List.filter (fun c => match nonempty_items cats c with
                                       | Some _ => true
                                       | None => false
                                       end) category_labels
            /\ totals_agree A).
  { split; [|split; [rewrite Hs; apply summary_labels|exact Ht]].
    rewrite Hs. apply List.Forall_flat_map. apply List.Forall_forall.
    intros c Hc. destruct (nonempty_items cats c) as [items|] eqn:Hitems;
      [|constructor].
    constructor; [|constructor].
    exists items. cbn [fst snd]. rewrite Hl, Hitems.
    assert (Hin : existsb (fun c' => String.eqb c' c) category_labels = true)
      by (apply existsb_exists; exists c; split; [exact Hc|apply String.eqb_refl]).
    rewrite Hin. split; [reflexivity|].
    unfold nonempty_items in Hitems.
    destruct (cats !! c) as [[|item rest]|]; try discriminate Hitems.
    injection Hitems as <-. repeat split; try (cbn [length]; lia). }
  destruct (path_exists (join_path repo_path "requirements.txt")).
  - destruct (read_lines _) as [lines|e]; [|discriminate].
    intros [= <- <-]. exact Hgoal.
  - intros [= <- <-]. exact Hgoal.
Qed.

End Aggregation.

Lemma summary_matches_categories_witness :
  exists results categories',
    analyze_repository lower (fun _ => Ok ExtractKnowledge.nested_source)
      (fun _ => Ok ExtractKnowledge.nested_tree) unparse_example finditer_example
      (fun path => String.eqb path "repo/install.py") (fun _ => Ok [])
      initial_categories "repo"
    = Ok (results, categories')
    /\ summary_by_category (results_summary results) = [("utilities", 4%Z)]
    /\ totals_agree results.
Proof.
  eexists. eexists. split; [vm_compute; reflexivity|].
  split; [reflexivity|].
  eapply (summary_matches_categories lower (fun _ => Ok ExtractKnowledge.nested_source)
            (fun _ => Ok ExtractKnowledge.nested_tree) unparse_example
            finditer_example
            (fun path => String.eqb path "repo/install.py") (fun _ => Ok [])
            initial_categories "repo").
  vm_compute. reflexivity.
Defined.

End RepositoryFacts.

Module ReportMore.
Import PyStr ReportSpec ReportFacts.

Lemma add_category_section_appends (categories : gmap string (list Sensai.feature))
    (memory_content : string) (item : string * Z) :
  Sensai.add_category_section categories memory_content item
  = memory_content +:+ Sensai.add_category_section categories "" item.
Proof.
  destruct item as [category count]. unfold Sensai.add_category_section.
  destruct (0 <? count)%Z; [|symmetry; apply append_nil_r].
  destruct (categories !! category) as [features|].
  - rewrite !(fold_left_lines Sensai.add_feature_line Sensai.feature_line
                add_feature_line_appends).
    destruct (10 <? length features); rewrite ?append_assoc; reflexivity.
  - rewrite ?append_assoc. reflexivity.
Qed.

Lemma add_summary_section_appends (memory_content : string)
    (entry : string * list Enhanced.item) :
  Enhanced.add_category_section memory_content entry
  = memory_content +:+ Enhanced.add_category_section "" entry.
Proof.
  destruct entry as [category items]. unfold Enhanced.add_category_section.
  rewrite !(fold_left_lines Enhanced.add_item_line Enhanced.item_line
              add_item_line_appends).
  destruct (5 <? length items); rewrite ?append_assoc; reflexivity.
Qed.

(** X17.  The category part of either report only appends to what is
    written so far: it is the text before, followed by the sections of
    the categories in sorted order, each as it would be written on its
    own.  In [write_to_serena] a category whose count is not positive has
    no section. *)
Theorem report_is_concatenation_of_sections
    (features_by_category : list (string * Z))
    (categories : gmap string (list Sensai.feature))
    (feature_categories : list (string * list Enhanced.item))
    (memory_content : string) :
  Sensai.category_details features_by_category categories memory_content
  = memory_content
    +:+ join_lines (map (Sensai.add_category_section categories "")
                      (sorted_desc snd features_by_category))
  /\ Enhanced.category_summaries feature_categories memory_content
     = memory_content
       +:+ join_lines (map (Enhanced.add_category_section "")
                         (sorted_desc (fun x => Z.of_nat (length (snd x)))
                            feature_categories))
  /\ Forall (fun item => Sensai.add_category_section categories "" item = "")
       (List.filter (fun item => (snd item <=? 0)%Z) features_by_category).
Proof.
  split; [|split].
  - apply fold_left_lines. intros text item. apply add_category_section_appends.
  - apply fold_left_lines. intros text entry. apply add_summary_section_appends.
  - apply List.Forall_forall. intros [category count] [_ Hcount]%List.filter_In.
    cbn [snd] in Hcount. apply Z.leb_le in Hcount.
    unfold Sensai.add_category_section.
    destruct (Z.ltb_spec 0 count); [lia|reflexivity].
Qed.

Lemma insert_desc_permutation {A : Type} (key : A -> Z) (x : A) (l : list A) :
  Permutation (x :: l) (insert_desc key x l).
Proof.
  induction l as [|y l IH]; cbn [insert_desc]; [reflexivity|].
  destruct (key y <=? key x)%Z; [reflexivity|].
  rewrite <- IH. apply perm_swap.
Qed.

Lemma insert_desc_sorted {A : Type} (key : A -> Z) (x : A) (l : list A) :
  StronglySorted (fun a b => (key b <= key a)%Z) l ->
  StronglySorted (fun a b => (key b <= key a)%Z) (insert_desc key x l).
Proof.
  induction l as [|y l IH]; intros Hsorted; cbn [insert_desc].
  - repeat constructor.
  - apply StronglySorted_inv in Hsorted as [Hl Hy].
    destruct (Z.leb_spec (key y) (key x)) as [Hle|Hgt].
    + constructor; [constructor; assumption|].
      constructor; [exact Hle|].
      eapply List.Forall_impl; [|exact Hy]. cbn. intros z Hz. lia.
    + constructor; [apply IH; exact Hl|].
      rewrite <- (insert_desc_permutation key x l).
      constructor; [lia|exact Hy].
Qed.

Lemma insert_desc_stable {A : Type} (key : A -> Z) (k : Z) (x : A) (l : list A) :
  List.filter (fun y => (key y =? k)%Z) (insert_desc key x l)
  = List.filter (fun y => (key y =? k)%Z) (x :: l).
Proof.
  induction l as [|y l IH]; cbn [insert_desc]; [reflexivity|].
  destruct (Z.leb_spec (key y) (key x)) as [Hle|Hgt]; [reflexivity|].
  cbn [List.filter] in *. rewrite IH.
  destruct (Z.eqb_spec (key y) k), (Z.eqb_spec (key x) k); try reflexivity. lia.
Qed.

(** X18.  The order of the sections is that of a stable sort by
    descending size: the sorted categories are the given ones, each
    once; no category comes before a larger one; and categories of equal
    size keep the order they have in the dict. *)
Theorem sections_sorted_by_size {A : Type} (key : A -> Z) (l : list A) :
  Permutation l (sorted_desc key l)
  /\ StronglySorted (fun a b => (key b <= key a)%Z) (sorted_desc key l)
  /\ forall k,
       List.filter (fun x => (key x =? k)%Z) (sorted_desc key l)
       = List.filter (fun x => (key x =? k)%Z) l.
Proof.
  unfold sorted_desc. induction l as [|x l (IHp & IHs & IHk)]; cbn [fold_right].
  - repeat split; constructor.
  - split; [|split].
    + rewrite <- insert_desc_permutation. now constructor.
    + now apply insert_desc_sorted.
    + intros k. rewrite insert_desc_stable. cbn [List.filter]. now rewrite IHk.
Qed.

End ReportMore.

Module PyDictFacts.
Import PyStr PyMore.

Lemma dd_extend_keys {V : Type} (k : string) (vs : list V)
    (d : list (string * list V)) :
  map fst (dd_extend k vs d)
  = if existsb (String.eqb k) (map fst d) then map fst d else map fst d ++ [k].
Proof.
  induction d as [|[k' l] d IH]; [reflexivity|].
  cbn [dd_extend map fst existsb]. rewrite (String.eqb_sym k k').
  destruct (String.eqb k' k); cbn [orb map fst]; [reflexivity|].
  rewrite IH. now destruct (existsb _ _).
Qed.

Lemma dd_items_absent {V : Type} (c : string) (d : list (string * list V)) :
  ~ In c (map fst d) -> dd_items c d = [].
Proof.
  unfold dd_items. induction d as [|[k l] d IH]; [reflexivity|].
  cbn [map fst flat_map snd]. intros Hnotin.
  destruct (String.eqb_spec k c) as [->|_].
  - exfalso. apply Hnotin. now left.
  - apply IH. intros Hin. apply Hnotin. now right.
Qed.

Lemma dd_extend_items {V : Type} (c k : string) (vs : list V)
    (d : list (string * list V)) :
  List.NoDup (map fst d) ->
  dd_items c (dd_extend k vs d)
  = dd_items c d ++ (if String.eqb k c then vs else []).
Proof.
  induction d as [|[k' l] d IH]; intros Hnodup.
  - unfold dd_items. cbn [dd_extend flat_map fst snd]. now rewrite app_nil_r.
  - cbn [map fst] in Hnodup. apply List.NoDup_cons_iff in Hnodup as [Hnotin Hnodup].
    cbn [dd_extend]. destruct (String.eqb_spec k' k) as [->|Hne].
    + change (dd_items c ((k, l ++ vs) :: d))
        with ((if String.eqb k c then l ++ vs else []) ++ dd_items c d).
      change (dd_items c ((k, l) :: d))
        with ((if String.eqb k c then l else []) ++ dd_items c d).
      destruct (String.eqb_spec k c) as [->|_]; [|now rewrite app_nil_r].
      rewrite (dd_items_absent c d Hnotin), !app_nil_r. reflexivity.
    + change (dd_items c ((k', l) :: dd_extend k vs d))
        with ((if String.eqb k' c then l else []) ++ dd_items c (dd_extend k vs d)).
      change (dd_items c ((k', l) :: d))
        with ((if String.eqb k' c then l else []) ++ dd_items c d).
      rewrite (IH Hnodup), app_assoc. reflexivity.
Qed.

Lemma dd_extend_total {V : Type} (k : string) (vs : list V)
    (d : list (string * list V)) :
  dd_total (dd_extend k vs d) = dd_total d + length vs.
Proof.
  unfold dd_total. induction d as [|[k' l] d IH]; cbn [dd_extend map list_sum snd].
  - simpl. lia.
  - destruct (String.eqb k' k); simpl in *; rewrite ?length_app; lia.
Qed.

Lemma dd_extend_nodup {V : Type} (k : string) (vs : list V)
    (d : list (string * list V)) :
  List.NoDup (map fst d) -> List.NoDup (map fst (dd_extend k vs d)).
Proof.
  intros Hnodup. rewrite dd_extend_keys.
  destruct (existsb (String.eqb k) (map fst d)) eqn:Hin; [exact Hnodup|].
  apply List.NoDup_app; [exact Hnodup|repeat constructor; intros []|].
  intros x Hx [<-|[]].
  assert (existsb (String.eqb k) (map fst d) = true)
    by (apply existsb_exists; exists k; split; [exact Hx|apply String.eqb_refl]).
  congruence.
Qed.

Lemma dd_get_items {V : Type} (c : string) (d : list (string * list V)) :
  List.NoDup (map fst d) ->
  dd_get c d
  = if existsb (String.eqb c) (map fst d) then Some (dd_items c d) else None.
Proof.
  unfold dd_items. induction d as [|[k l] d IH]; [reflexivity|].
  cbn [map fst]. intros [Hnotin Hnodup]%List.NoDup_cons_iff.
  cbn [dd_get existsb flat_map fst snd]. rewrite (String.eqb_sym c k).
  destruct (String.eqb_spec k c) as [->|_]; cbn [orb].
  - f_equal. rewrite <- (app_nil_r l) at 1. f_equal. symmetry.
    clear IH Hnodup. induction d as [|[k' l'] d IHd]; [reflexivity|].
    cbn [flat_map fst snd map] in *.
    destruct (String.eqb_spec k' c) as [->|_].
    + exfalso. apply Hnotin. now left.
    + apply IHd. intros Hin. apply Hnotin. now right.
  - apply IH. exact Hnodup.
Qed.

Section Grouping.
Context {A : Type}.
Variable key : A -> string.

Lemma group_by_fold (l : list A) (d : list (string * list A)) :
  List.NoDup (map fst d) ->
  forall c,
    dd_items c (fold_left (fun d x => dd_append (key x) x d) l d)
    = dd_items c d ++ List.filter (fun x => String.eqb (key x) c) l.
Proof.
  revert d; induction l as [|x l IH]; intros d Hd c; cbn [fold_left List.filter].
  - now rewrite app_nil_r.
  - rewrite IH by (now apply dd_extend_nodup).
    unfold dd_append. rewrite dd_extend_items by exact Hd. rewrite <- app_assoc.
    now destruct (String.eqb (key x) c).
Qed.

Lemma group_by_fold_nodup (l : list A) (d : list (string * list A)) :
  List.NoDup (map fst d) ->
  List.NoDup (map fst (fold_left (fun d x => dd_append (key x) x d) l d)).
Proof.
  revert d; induction l as [|x l IH]; intros d Hd; cbn [fold_left]; [exact Hd|].
  apply IH. now apply dd_extend_nodup.
Qed.

Lemma filter_not_in (ks : list string) (k : string) (l : list string) :
  List.filter (fun k' => negb (existsb (String.eqb k') (ks ++ [k]))) l
  = List.filter (fun k' => negb (String.eqb k k'))
      (List.filter (fun k' => negb (existsb (String.eqb k') ks)) l).
Proof.
  induction l as [|x l IH]; [reflexivity|]. cbn [List.filter].
  rewrite existsb_app. cbn [existsb]. rewrite orb_false_r, negb_orb.
  rewrite (String.eqb_sym x k).
  destruct (existsb (String.eqb x) ks); cbn [negb andb]; [exact IH|].
  cbn [List.filter]. destruct (String.eqb k x); cbn [negb]; now rewrite IH.
Qed.

Lemma filter_filter_comm {B : Type} (p q : B -> bool) (l : list B) :
  List.filter p (List.filter q l) = List.filter q (List.filter p l).
Proof.
  induction l as [|x l IH]; [reflexivity|]. cbn [List.filter].
  destruct (p x) eqn:Hp, (q x) eqn:Hq; cbn [List.filter];
    rewrite ?Hp, ?Hq, IH; reflexivity.
Qed.

Lemma filter_absorbs (ks : list string) (x : string) (l : list string) :
  existsb (String.eqb x) ks = true ->
  List.filter (fun k => negb (existsb (String.eqb k) ks))
    (List.filter (fun k => negb (String.eqb x k)) l)
  = List.filter (fun k => negb (existsb (String.eqb k) ks)) l.
Proof.
  intros Hx. induction l as [|a l IH]; [reflexivity|]. cbn [List.filter].
  destruct (String.eqb_spec x a) as [<-|_]; cbn [negb].
  - rewrite Hx. cbn [negb]. exact IH.
  - cbn [List.filter]. now rewrite IH.
Qed.

Lemma group_by_fold_keys (l : list A) (d : list (string * list A)) :
  map fst (fold_left (fun d x => dd_append (key x) x d) l d)
  = map fst d
    ++ List.filter (fun k => negb (existsb (String.eqb k) (map fst d)))
         (first_appearances (map key l)).
Proof.
  revert d; induction l as [|x l IH]; intros d.
  - cbn. now rewrite app_nil_r.
  - cbn [fold_left map first_appearances]. rewrite IH. unfold dd_append.
    rewrite dd_extend_keys.
    destruct (existsb (String.eqb (key x)) (map fst d)) eqn:Hin.
    + f_equal. cbn [List.filter]. rewrite Hin. cbn [negb].
      symmetry. now apply filter_absorbs.
    + rewrite <- app_assoc. cbn [app List.filter]. rewrite Hin. cbn [negb].
      f_equal. f_equal. rewrite filter_not_in. apply filter_filter_comm.
Qed.

End Grouping.

End PyDictFacts.

Module DictFoldFacts.
Import PyStr PyMore PyDictFacts.

Section Fold.
Context {A V : Type}.
Variable key : A -> string.
Variable vals : A -> list V.

(** Filling a dict by [d[key(x)].extend(vals(x))] over a list. *)
Lemma dd_fold (l : list A) (d : list (string * list V)) :
  List.NoDup (map fst d) ->
  let d' := fold_left (fun d x => dd_extend (key x) (vals x) d) l d in
  List.NoDup (map fst d')
  /\ dd_total d' = dd_total d + list_sum (map (fun x => length (vals x)) l)
  /\ forall c,
       dd_items c d'
       = dd_items c d
         ++ flat_map (fun x => if String.eqb (key x) c then vals x else []) l.
Proof.
  revert d; induction l as [|x l IH]; intros d Hd; cbn zeta; cbn [fold_left].
  - split; [exact Hd|]. split; [cbn; lia|]. intros c. cbn. now rewrite app_nil_r.
  - destruct (IH (dd_extend (key x) (vals x) d) (dd_extend_nodup _ _ _ Hd))
      as (Hn & Ht & Hi).
    cbn zeta in Hn, Ht, Hi. split; [exact Hn|]. split.
    + rewrite Ht, dd_extend_total. simpl. lia.
    + intros c. rewrite Hi, (dd_extend_items c _ _ _ Hd), <- app_assoc. reflexivity.
Qed.

End Fold.

Lemma dd_items_filter_nonempty {V : Type} (c : string) (d : list (string * list V)) :
  dd_items c (List.filter (fun kv => match snd kv with [] => false | _ :: _ => true end) d)
  = dd_items c d.
Proof.
  unfold dd_items. induction d as [|[k [|v l]] d IH]; [reflexivity| |].
  - cbn [List.filter snd flat_map fst]. rewrite IH. now destruct (String.eqb k c).
  - cbn [List.filter snd flat_map fst]. now rewrite IH.
Qed.

Lemma nodup_map_filter {B : Type} (p : string * B -> bool) (d : list (string * B)) :
  List.NoDup (map fst d) -> List.NoDup (map fst (List.filter p d)).
Proof.
  induction d as [|[k v] d IH]; [constructor|]. cbn [map fst List.filter].
  intros [Hnotin Hnodup]%List.NoDup_cons_iff.
  destruct (p (k, v)); [|now apply IH].
  cbn [map fst]. apply List.NoDup_cons; [|now apply IH].
  intros [kv [Hk [Hin _]%List.filter_In]]%in_map_iff.
  apply Hnotin. apply in_map_iff. now exists kv.
Qed.

End DictFoldFacts.

Module EnhancedAnalysisFacts.
Import PyStr PyMore Enhanced EnhancedAnalysis PyDictFacts DictFoldFacts.

Lemma infer_if_items (test : bool) (category inference : string) (imp : import_record)
    (m : string) (inferred : list (string * list inferred_feature)) :
  imp_module imp = Some m ->
  List.NoDup (map fst inferred) ->
  exists inferred',
    infer_if test category inference imp inferred = Ok inferred'
    /\ List.NoDup (map fst inferred')
    /\ forall c,
         dd_items c inferred'
         = dd_items c inferred
           ++ (if String.eqb c category && test
               then [{| inf_module := m; inf_inference := inference |}] else []).
Proof.
  intros Hm Hnodup. unfold infer_if, module_of. rewrite Hm. destruct test; cbn [bind].
  - eexists. split; [reflexivity|]. split; [now apply dd_extend_nodup|].
    intros c. unfold dd_append. rewrite (dd_extend_items c _ _ _ Hnodup).
    rewrite andb_true_r, (String.eqb_sym c category). reflexivity.
  - exists inferred. split; [reflexivity|]. split; [exact Hnodup|].
    intros c. now rewrite andb_false_r, app_nil_r.
Qed.

Lemma infer_one_items (inferred : list (string * list inferred_feature))
    (imp : import_record) :
  List.NoDup (map fst inferred) ->
  exists inferred',
    infer_one inferred imp = Ok inferred'
    /\ List.NoDup (map fst inferred')
    /\ forall c, dd_items c inferred' = dd_items c inferred ++ inferred_under c imp.
Proof.
  intros Hnodup. unfold infer_one, inferred_under.
  destruct (imp_module imp) as [m|] eqn:Hm; cbn [default from_option]; unfold id.
  - destruct (infer_if_items (is_crypto (lower m)) "cryptography" crypto_inference
                imp m inferred Hm Hnodup) as (d1 & -> & Hn1 & Hi1).
    cbn [bind].
    destruct (infer_if_items (is_system (lower m)) "system_integration"
                system_inference imp m d1 Hm Hn1) as (d2 & -> & Hn2 & Hi2).
    cbn [bind].
    destruct (infer_if_items (is_types (lower m)) "type_system" types_inference
                imp m d2 Hm Hn2) as (d3 & -> & Hn3 & Hi3).
    exists d3. split; [reflexivity|]. split; [exact Hn3|].
    intros c. rewrite Hi3, Hi2, Hi1, <- !app_assoc. reflexivity.
  - exists inferred. split; [reflexivity|]. split; [exact Hnodup|].
    intros c. change (lower "") with "". cbn. rewrite !andb_false_r. cbn.
    now rewrite app_nil_r.
Qed.

(** X19.  [infer_features_from_imports] never fails: the unguarded
    [imp['module']] is reached only for a record that has a module.  Its
    result has distinct keys, and the list of a category holds, in the
    order of the imports, a feature for each import whose lower-cased
    module passes that category's test; the three tests are independent,
    so one import can be under several categories. *)
Theorem inference_never_fails (imports : list import_record) :
  exists inferred,
    infer_features_from_imports imports = Ok inferred
    /\ List.NoDup (map fst inferred)
    /\ forall c, dd_items c inferred = flat_map (inferred_under c) imports.
Proof.
  unfold infer_features_from_imports.
  assert (Hgen : forall (d : list (string * list inferred_feature)),
             List.NoDup (map fst d) ->
             exists inferred,
               fold_left (fun acc imp => bind acc (fun inferred => infer_one inferred imp))
                 imports (Ok d) = Ok inferred
               /\ List.NoDup (map fst inferred)
               /\ forall c,
                    dd_items c inferred
                    = dd_items c d ++ flat_map (inferred_under c) imports).
  { induction imports as [|imp imports IH]; intros d Hd; cbn [fold_left flat_map].
    - exists d. split; [reflexivity|]. split; [exact Hd|].
      intros c. now rewrite app_nil_r.
    - cbn [bind]. destruct (infer_one_items d imp Hd) as (d1 & -> & Hn1 & Hi1).
      destruct (IH d1 Hn1) as (d2 & Hfold & Hn2 & Hi2).
      exists d2. split; [exact Hfold|]. split; [exact Hn2|].
      intros c. now rewrite Hi2, Hi1, <- app_assoc. }
  destruct (Hgen [] (List.NoDup_nil _)) as (inferred & Hfold & Hn & Hi).
  exists inferred. split; [exact Hfold|]. split; [exact Hn|]. exact Hi.
Qed.

(** X20.  Every dependency is filed under exactly one category: the
    dependency features number the dependencies, the lists of a category
    hold the dependencies classified there, in their order, and no key
    is repeated. *)
Theorem dependencies_filed_once (dependencies : list string) :
  let dep_features := dependency_features dependencies in
  dd_total dep_features = length dependencies
  /\ List.NoDup (map fst dep_features)
  /\ forall c,
       map dependency (dd_items c dep_features)
       = List.filter (fun dep => String.eqb (fst (classify_dependency dep)) c)
           dependencies.
Proof.
  cbn zeta. unfold dependency_features, dd_append.
  destruct (dd_fold (fun dep => fst (classify_dependency dep))
              (fun dep => [{| dependency := dep;
                              capability := snd (classify_dependency dep) |}])
              dependencies [] (List.NoDup_nil _)) as (Hn & Ht & Hi).
  cbn zeta in Hn, Ht, Hi. split; [|split; [exact Hn|]].
  - rewrite Ht. cbn. clear. induction dependencies; simpl; congruence.
  - intros c. rewrite Hi. cbn [dd_items flat_map app]. clear.
    induction dependencies as [|dep deps IH]; [reflexivity|].
    cbn [flat_map List.filter].
    destruct (String.eqb (fst (classify_dependency dep)) c); cbn; now rewrite IH.
Qed.

Lemma dd_items_map {V W : Type} (f : V -> W) (c : string)
    (d : list (string * list V)) :
  flat_map (fun kv => if String.eqb (fst kv) c then map f (snd kv) else []) d
  = map f (dd_items c d).
Proof.
  unfold dd_items. induction d as [|[k l] d IH]; [reflexivity|].
  cbn [flat_map fst snd]. rewrite map_app, IH. now destruct (String.eqb k c).
Qed.

(** X21.  The feature categories of the enhanced analysis have distinct
    names and no empty group, so every section of the report lists at
    least one item; a group holds the category's items of the earlier
    analysis, then its inferred features, then the names of its
    dependencies. *)
Theorem feature_categories_grouped (existing : list (string * list item))
    (inferred : list (string * list inferred_feature))
    (dep_features : list (string * list dependency_feature)) :
  let categories := feature_categories existing inferred dep_features in
  List.NoDup (map fst categories)
  /\ Forall (fun kv => snd kv <> []) categories
  /\ forall c,
       dd_items c categories
       = dd_items c existing
         ++ map inferred_item (dd_items c inferred)
         ++ map (fun x => ItemStr (dependency x)) (dd_items c dep_features).
Proof.
  cbn zeta. unfold feature_categories, all_categories.
  destruct (dd_fold fst snd existing [] (List.NoDup_nil _)) as (Hn1 & _ & Hi1).
  cbn zeta in Hn1, Hi1.
  set (all1 := fold_left (fun all kv => dd_extend (fst kv) (snd kv) all) existing [])
    in *.
  destruct (dd_fold fst (fun kv => map inferred_item (snd kv)) inferred all1 Hn1)
    as (Hn2 & _ & Hi2).
  cbn zeta in Hn2, Hi2.
  set (all2 := fold_left _ inferred all1) in *.
  destruct (dd_fold fst (fun kv => map (fun x => ItemStr (dependency x)) (snd kv))
              dep_features all2 Hn2) as (Hn3 & _ & Hi3).
  cbn zeta in Hn3, Hi3.
  set (all3 := fold_left _ dep_features all2) in *.
  split; [now apply nodup_map_filter|]. split.
  - apply List.Forall_forall. intros [k l] [_ Hl]%List.filter_In.
    cbn [snd] in *. now destruct l.
  - intros c. rewrite dd_items_filter_nonempty, Hi3, Hi2, Hi1.
    change (dd_items c (@nil (string * list item))) with (@nil item).
    cbn [app]. rewrite <- app_assoc.
    rewrite (dd_items_map inferred_item c inferred).
    rewrite (dd_items_map (fun x => ItemStr (dependency x)) c dep_features).
    reflexivity.
Qed.

End EnhancedAnalysisFacts.

Module SerenaAnalysisFacts.
Import PyStr PyMore Facts SerenaAnalysis PyDictFacts DictFoldFacts.

Lemma filter_true {B : Type} (l : list B) : List.filter (fun _ => true) l = l.
Proof. induction l as [|x l IH]; cbn; congruence. Qed.

Lemma existsb_first_appearances (g : string) (keys : list string) :
  existsb (String.eqb g) (first_appearances keys) = existsb (String.eqb g) keys.
Proof.
  induction keys as [|k keys IH]; [reflexivity|].
  cbn [first_appearances existsb]. rewrite <- IH.
  destruct (String.eqb_spec g k) as [->|Hne]; [reflexivity|]. cbn [orb].
  clear IH. induction (first_appearances keys) as [|k' ks IHk]; [reflexivity|].
  cbn [List.filter existsb].
  destruct (String.eqb_spec k k') as [<-|_]; cbn [negb existsb].
  - apply String.eqb_neq in Hne. rewrite Hne. exact IHk.
  - now rewrite IHk.
Qed.

(** X23.  Grouping facts by graph label loses and repeats nothing: the
    groups come in the order in which their labels first appear, no
    label twice; the group of a label holds the facts with that label in
    their order, a fact without one being filed under ["default"]; a
    label that no fact has gets no group; and the sizes of the groups
    add up to the number of facts. *)
Theorem facts_grouped_by_graph (facts : list triple) :
  let groups := group_by graph_of facts in
  map fst groups = first_appearances (map graph_of facts)
  /\ List.NoDup (map fst groups)
  /\ dd_total groups = length facts
  /\ forall g,
       dd_get g groups
       = if existsb (String.eqb g) (map graph_of facts)
         then Some (List.filter (fun fact => String.eqb (graph_of fact) g) facts)
         else None.
Proof.
  cbn zeta. unfold group_by.
  pose proof (group_by_fold_keys graph_of facts []) as Hkeys.
  cbn [map app existsb negb] in Hkeys. rewrite filter_true in Hkeys.
  pose proof (group_by_fold_nodup graph_of facts [] (List.NoDup_nil _)) as Hnodup.
  pose proof (group_by_fold graph_of facts [] (List.NoDup_nil _)) as Hitems.
  destruct (dd_fold graph_of (fun fact => [fact]) facts [] (List.NoDup_nil _))
    as (_ & Htotal & _).
  cbn zeta in Htotal.
  split; [exact Hkeys|]. split; [exact Hnodup|]. split.
  - unfold dd_append. rewrite Htotal. cbn. clear. induction facts; simpl; congruence.
  - intros g. rewrite (dd_get_items g _ Hnodup), Hkeys, existsb_first_appearances.
    destruct (existsb _ _); [|reflexivity]. now rewrite Hitems.
Qed.

Lemma last_two_appended {A : Type} (l : list A) (a b : A) :
  last_two ((l ++ [a]) ++ [b]) = [a; b].
Proof.
  unfold last_two. rewrite !length_app. cbn [length].
  replace (length l + 1 + 1 - 2) with (length l) by lia.
  rewrite <- app_assoc. cbn [app].
  induction l as [|x l IH]; [reflexivity|exact IH].
Qed.

Section Twins.
Variable path_exists : string -> bool.
Variable read_text : string -> outcome string.
Variable findall : string -> list (string * string).
Variable load_json : string -> outcome existing_results.
Variable dump_json : string -> analysis_results -> outcome unit.
Variables existing_triples existing_quads : list triple.

Lemma analyze_py_file_twins (st : state) (py_file : string) :
  twins existing_triples existing_quads st ->
  twins existing_triples existing_quads
    (analyze_py_file path_exists read_text findall st py_file).
Proof.
  intros Hst. unfold analyze_py_file.
  destruct (path_exists py_file); [|exact Hst].
  destruct (read_text py_file) as [content|e]; [|exact Hst].
  assert (Hstart : twins existing_triples existing_quads
                     {| files_info :=
                          dict_set (basename py_file)
                            {| fi_content := content; fi_size := len content;
                               fi_lines := count_lines content |} (files_info st);
                        enhanced_triples := enhanced_triples st;
                        enhanced_quads := enhanced_quads st |}) by exact Hst.
  revert Hstart. generalize (findall content).
  generalize {| files_info :=
                  dict_set (basename py_file)
                    {| fi_content := content; fi_size := len content;
                       fi_lines := count_lines content |} (files_info st);
                enhanced_triples := enhanced_triples st;
                enhanced_quads := enhanced_quads st |}.
  intros s imports; revert s. induction imports as [|imp imports IH]; intros s Hs;
    [exact Hs|].
  cbn [fold_left]. apply IH. destruct Hs as (added & Ht & Hq).
  exists (added ++ [dependency_fact py_file imp]). cbn.
  now rewrite Ht, Hq, <- !app_assoc.
Qed.

Lemma add_part_of_twins (st : state) :
  twins existing_triples existing_quads st ->
  twins existing_triples existing_quads (add_part_of st).
Proof.
  intros (added & Ht & Hq). unfold add_part_of.
  exists (added ++ [part_of_fact "install.py"; part_of_fact "kawai.py"]).
  cbn [enhanced_triples enhanced_quads]. rewrite last_two_appended, Ht, Hq.
  now rewrite <- !app_assoc.
Qed.

Lemma add_concept_twins (readme_content : string) (st : state) (concept : string) :
  twins existing_triples existing_quads st ->
  twins existing_triples existing_quads (add_concept readme_content st concept).
Proof.
  intros Hst. unfold add_concept. destruct (contains _ _); [|exact Hst].
  destruct Hst as (added & Ht & Hq). exists (added ++ [concept_fact concept]).
  cbn. now rewrite Ht, Hq, <- !app_assoc.
Qed.

Lemma fold_twins {A : Type} (step : state -> A -> state) (l : list A) (st : state) :
  (forall s a, twins existing_triples existing_quads s ->
               twins existing_triples existing_quads (step s a)) ->
  twins existing_triples existing_quads st ->
  twins existing_triples existing_quads (fold_left step l st).
Proof.
  intros Hstep. revert st; induction l as [|a l IH]; intros st Hst; [exact Hst|].
  cbn [fold_left]. apply IH. now apply Hstep.
Qed.

End Twins.


End SerenaAnalysisFacts.

Module AnalyzeRepoFacts.
Import PyStr PyMore Facts AnalyzeRepo PyStrFacts.

Lemma str_take_length (n : nat) (s : string) : len (str_take n s) <= n.
Proof.
  revert n; induction s as [|c s IH]; intros n; cbn [str_take len]; [lia|].
  destruct (is_continuation c) eqn:Hc.
  - cbn [len]. rewrite Hc. specialize (IH n). lia.
  - destruct n as [|n]; cbn [len]; [lia|]. rewrite Hc. specialize (IH n). lia.
Qed.

Lemma str_take_prefix (n : nat) (s : string) : startswith (str_take n s) s = true.
Proof.
  revert n; induction s as [|c s IH]; intros n; [reflexivity|].
  cbn [str_take]. destruct (is_continuation c).
  - cbn [startswith]. destruct (ascii_dec c c); [apply IH|congruence].
  - destruct n as [|n]; [reflexivity|].
    cbn [startswith]. destruct (ascii_dec c c); [apply IH|congruence].
Qed.

Section Agent.
Variable read_file_apply : string -> outcome string.
Variable search_apply : string -> outcome string.

Lemma read_files_fold (project : string) (filenames : list string) (a : analysis) :
  let a' := fold_left (read_one read_file_apply project) filenames a in
  let taken := List.filter (accepted read_file_apply) filenames in
  a_files a'
  = a_files a
    ++ map (fun f => {| fp_path := f;
                        content_preview := str_take 500 (content_of read_file_apply f) |})
         taken
  /\ a_triples a' = a_triples a ++ map (fun f => spo project "containsFile" f) taken
  /\ a_quads a'
     = a_quads a
       ++ map (fun f => spoc f "hasContent" (str_take 200 (content_of read_file_apply f))
                          "kawaiigpt_project_analysis") taken.
Proof.
  revert a; induction filenames as [|f fs IH]; intros a; cbn zeta.
  - cbn. now rewrite !app_nil_r.
  - cbn [fold_left List.filter]. specialize (IH (read_one read_file_apply project a f)).
    cbn zeta in IH. destruct IH as (Hf & Ht & Hq). rewrite Hf, Ht, Hq.
    unfold read_one, accepted.
    destruct (read_file_apply f) as [content|e] eqn:Hread;
      [|repeat split; reflexivity].
    destruct (usable content) eqn:Husable; [|repeat split; reflexivity].
    assert (Hcontent : content_of read_file_apply f = content)
      by (unfold content_of; now rewrite Hread).
    cbn [a_files a_triples a_quads map]. rewrite Hcontent, <- !app_assoc.
    repeat split; reflexivity.
Qed.


End Agent.

End AnalyzeRepoFacts.

Module OnboardingFacts.
Import PyStr PyMore Facts Onboarding.

Lemma length_append (a b : string) :
  String.length (a +:+ b) = String.length a + String.length b.
Proof.
  induction a as [|c a IH]; [reflexivity|].
  change (String c a +:+ b) with (String c (a +:+ b)). cbn [String.length]. lia.
Qed.

Lemma append_cancel_r (a b c : string) : a +:+ c = b +:+ c -> a = b.
Proof.
  revert b; induction a as [|x a IH]; intros [|y b] H.
  - reflexivity.
  - apply (f_equal String.length) in H. rewrite !length_append in H.
    cbn [String.length] in H. lia.
  - apply (f_equal String.length) in H. rewrite !length_append in H.
    cbn [String.length] in H. lia.
  - change (String x (a +:+ c) = String y (b +:+ c)) in H.
    injection H as -> H. f_equal. now apply IH.
Qed.

(** Up to the first [>], the text is read in one way only. *)
Lemma split_at_bracket (s s' r r' : string) :
  no_closing_bracket s = true ->
  no_closing_bracket s' = true ->
  s +:+ String ">" r = s' +:+ String ">" r' ->
  s = s' /\ r = r'.
Proof.
  unfold no_closing_bracket. revert s'; induction s as [|c s IH]; intros [|c' s'];
    cbn [list_ascii_of_string forallb]; intros Hs Hs' H.
  - cbn in H. injection H as ->. now split.
  - change (String ">" r = String c' (s' +:+ String ">" r')) in H.
    injection H as <- _. discriminate Hs'.
  - change (String c (s +:+ String ">" r) = String ">" r') in H.
    injection H as -> _. discriminate Hs.
  - change (String c (s +:+ String ">" r) = String c' (s' +:+ String ">" r')) in H.
    injection H as -> H.
    apply andb_prop in Hs as [_ Hs]. apply andb_prop in Hs' as [_ Hs'].
    destruct (IH s' Hs Hs' H) as [-> ->]. now split.
Qed.

(** X26.  The RDF export writes the fields as they are, between angle
    brackets.  Two triples whose subjects and predicates have no [>] in
    them have the same line only when they have the same subject,
    predicate and object; a field with [>] in it can make two different
    triples share a line. *)
Theorem rdf_line_identifies_triple (t t' : triple) :
  (no_closing_bracket (subject t) = true ->
   no_closing_bracket (predicate t) = true ->
   no_closing_bracket (subject t') = true ->
   no_closing_bracket (predicate t') = true ->
   rdf_triple_line t = rdf_triple_line t' ->
   subject t = subject t' /\ predicate t = predicate t' /\ object t = object t')
  /\ exists u u',
       rdf_triple_line u = rdf_triple_line u' /\ subject u <> subject u'.
Proof.
  split.
  - intros Hs Hp Hs' Hp' Hline. unfold rdf_triple_line in Hline.
    change ("<" +:+ subject t +:+ "> <" +:+ predicate t +:+ "> <" +:+ object t +:+ "> .")
      with (String "<" (subject t
                        +:+ String ">" (" <" +:+ predicate t +:+ "> <"
                                        +:+ object t +:+ "> ."))) in Hline.
    change ("<" +:+ subject t' +:+ "> <" +:+ predicate t' +:+ "> <" +:+ object t'
            +:+ "> .")
      with (String "<" (subject t'
                        +:+ String ">" (" <" +:+ predicate t' +:+ "> <"
                                        +:+ object t' +:+ "> ."))) in Hline.
    injection Hline as Hline.
    destruct (split_at_bracket _ _ _ _ Hs Hs' Hline) as [Hsubject Hrest].
    change (" <" +:+ predicate t +:+ "> <" +:+ object t +:+ "> .")
      with (String " " (String "<" (predicate t
                                    +:+ String ">" (" <" +:+ object t +:+ "> .")))) in Hrest.
    change (" <" +:+ predicate t' +:+ "> <" +:+ object t' +:+ "> .")
      with (String " " (String "<" (predicate t'
                                    +:+ String ">" (" <" +:+ object t' +:+ "> .")))) in Hrest.
    injection Hrest as Hrest.
    destruct (split_at_bracket _ _ _ _ Hp Hp' Hrest) as [Hpredicate Hobject].
    change (" <" +:+ object t +:+ "> .")
      with (String " " (String "<" (object t +:+ "> ."))) in Hobject.
    change (" <" +:+ object t' +:+ "> .")
      with (String " " (String "<" (object t' +:+ "> ."))) in Hobject.
    injection Hobject as Hobject. apply append_cancel_r in Hobject.
    now repeat split.
  - exists {| subject := "a> <b"; predicate := "c"; object := "d";
              context := None; graph := None |},
           {| subject := "a"; predicate := "b> <c"; object := "d";
              context := None; graph := None |}.
    split; [reflexivity|discriminate].
Qed.

Lemma rdf_line_identifies_triple_witness :
  subject (AnalyzeRepo.spo "kawaiigpt" "related_to" "Python")
  = subject (AnalyzeRepo.spo "kawaiigpt" "related_to" "Python")
  /\ rdf_triple_line (AnalyzeRepo.spo "kawaiigpt" "related_to" "Python")
     = "<kawaiigpt> <related_to> <Python> .".
Proof.
  split; [|reflexivity].
  apply (proj1 (rdf_line_identifies_triple
                  (AnalyzeRepo.spo "kawaiigpt" "related_to" "Python")
                  (AnalyzeRepo.spo "kawaiigpt" "related_to" "Python")));
    reflexivity.
Defined.

End OnboardingFacts.

Module AnalyzeRepoBounds.
Import PyStr PyMore Facts AnalyzeRepo AnalyzeRepoFacts.

Section Agent.
Variable list_dir_apply : string -> outcome string.
Variable read_file_apply : string -> outcome string.
Variable search_apply : string -> outcome string.

Lemma search_fold (ps : list string) (a : analysis) :
  let a' := fold_left (search_one search_apply) ps a in
  a_files a' = a_files a
  /\ a_quads a' = a_quads a
  /\ exists found,
       a_triples a' = a_triples a ++ found
       /\ length found <= length ps
       /\ Forall (fun t => subject t = "kawaiigpt" /\ len (object t) <= 300) found.
Proof.
  revert a; induction ps as [|p ps IH]; intros a; cbn zeta.
  - split; [reflexivity|]. split; [reflexivity|]. exists [].
    split; [now rewrite app_nil_r|]. split; [cbn; lia|constructor].
  - cbn [fold_left]. destruct (IH (search_one search_apply a p))
      as (Hf & Hq & found & Ht & Hlen & Hall).
    cbn zeta in Hf, Hq, Ht. rewrite Hf, Hq, Ht. unfold search_one.
    destruct (search_apply p) as [result|e].
    + destruct (truthy result && negb (contains "no matches" (lower result))).
      * cbn [a_files a_quads a_triples]. split; [reflexivity|]. split; [reflexivity|].
        eexists (_ :: found). split; [now rewrite <- app_assoc|].
        split; [cbn [length]; lia|]. constructor; [|exact Hall].
        cbn [subject object spo]. split; [reflexivity|apply str_take_length].
      * split; [reflexivity|]. split; [reflexivity|]. exists found.
        split; [reflexivity|]. split; [cbn [length]; lia|exact Hall].
    + split; [reflexivity|]. split; [reflexivity|]. exists found.
      split; [reflexivity|]. split; [cbn [length]; lia|exact Hall].
Qed.

(** X25.  Whatever the agent's tools return or raise, the analysis of
    the three steps has at most ten triples, and as many quads as file
    entries, at most three. *)
Theorem analysis_is_bounded (project : string) :
  let a := analyze list_dir_apply read_file_apply search_apply project in
  length (a_triples a) <= 10
  /\ length (a_quads a) = length (a_files a)
  /\ length (a_files a) <= 3.
Proof.
  cbn zeta. unfold analyze, search_for_patterns.
  set (a0 := analyze_project_structure list_dir_apply project).
  assert (H0 : length (a_triples a0) <= 1 /\ a_quads a0 = [] /\ a_files a0 = []).
  { unfold a0, analyze_project_structure.
    destruct (list_dir_apply project); cbn; repeat split; lia. }
  destruct H0 as (Ht0 & Hq0 & Hf0).
  destruct (read_files_fold read_file_apply project key_files a0) as (Hf1 & Ht1 & Hq1).
  cbn zeta in Hf1, Ht1, Hq1.
  fold (read_and_analyze_files read_file_apply project a0) in Hf1, Ht1, Hq1.
  set (a1 := read_and_analyze_files read_file_apply project a0) in *.
  destruct (search_fold patterns a1) as (Hf2 & Hq2 & found & Ht2 & Hlen & _).
  cbn zeta in Hf2, Hq2, Ht2. rewrite Hf2, Hq2, Ht2, Hf1, Ht1, Hq1, Hq0, Hf0.
  rewrite !length_app, !length_map. cbn [app length].
  assert (Htaken : length (List.filter (accepted read_file_apply) key_files) <= 3)
    by apply (List.filter_length_le (accepted read_file_apply) key_files).
  cbn [patterns length] in Hlen. repeat split; lia.
Qed.

End Agent.

End AnalyzeRepoBounds.
